(** * Lowest-price search pipeline: shallow embedding and verified properties

    The development follows the layers of the repository:
    - [utils/text]        string helpers ([stripHtmlTags], [containsAnyKeyword], [safeParseInt]);
    - [config/naver]      the fixed tables and limits;
    - [domain/filtering]  the filter engine and the aggregator;
    - [lib/naverShopClient] the catalog client (single page, multi page);
    - [services/getLowestPrice] the relaxation controller;
    - [app/page]          the client-side outlier trim.

    JavaScript numbers that the code only ever uses as integers are [Z];
    [null] and [undefined] are [None]; arrays are lists; a [Set<string>] is a
    [gset string]; a [Map] is an association list in insertion order. *)

From Stdlib Require Import ZArith Lia List Sorted Permutation Bool.
From Stdlib Require Import Strings.String Strings.Ascii.
From stdpp Require Import base gmap strings pretty.
Import ListNotations.

Local Open Scope string_scope.
Local Open Scope list_scope.
Local Open Scope Z_scope.

(** ** JavaScript built-ins

    Three string built-ins of the runtime are used by the code and are not
    part of the repository.  Their Unicode behaviour is left abstract: every
    theorem below holds for any behaviour of these three functions. *)

Class JsBuiltins : Type := {
  (** [String.prototype.toLowerCase] *)
  toLowerCase : string -> string;
  (** [String.prototype.trim] *)
  trim : string -> string;
  (** [parseInt(s, 10)]; [None] stands for [NaN] *)
  parseInt : string -> option Z
}.

(** ** utils/text *)

Module Text.

(** [s.startsWith(p)] on the bytes of the strings. *)
Fixpoint startsWith (p s : string) : bool :=
  match p, s with
  | EmptyString, _ => true
  | String a p', String b s' => (Ascii.eqb a b && startsWith p' s')%bool
  | String _ _, EmptyString => false
  end.

(** [s.includes(sub)]: does [sub] occur in [s] at some position. *)
Fixpoint includes (s sub : string) : bool :=
  (startsWith sub s ||
   match s with
   | EmptyString => false
   | String _ s' => includes s' sub
   end)%bool.

(** Drops the characters up to and including the first [">"]; [None] when
    the string holds no [">"]. *)
Fixpoint afterClose (s : string) : option string :=
  match s with
  | EmptyString => None
  | String c s' => if Ascii.eqb c ">"%char then Some s' else afterClose s'
  end.

(** [html.replace(/<[^>]*>/g, "")]: a ["<"] followed later by a [">"] is a
    match that runs to the first such [">"]; a ["<"] with no [">"] after it
    stays.  The recursion is on a bound of the length, since [afterClose]
    returns a suffix. *)
Fixpoint removeTags (fuel : nat) (s : string) : string :=
  match fuel with
  | O => s
  | S fuel' =>
      match s with
      | EmptyString => EmptyString
      | String c s' =>
          if Ascii.eqb c "<"%char then
            match afterClose s' with
            | Some rest => removeTags fuel' rest
            | None => String c (removeTags fuel' s')
            end
          else String c (removeTags fuel' s')
      end
  end.

Section WithBuiltins.
Context {js : JsBuiltins}.

Definition stripHtmlTags (html : string) : string :=
  trim (removeTags (String.length html) html).

Definition containsAnyKeyword (text : string) (keywords : list string) : bool :=
  let lowerText := toLowerCase text in
  existsb (fun keyword => includes lowerText (toLowerCase keyword)) keywords.

Definition safeParseInt (value : string) (defaultValue : Z) : Z :=
  match parseInt value with
  | None => defaultValue
  | Some parsed => parsed
  end.

End WithBuiltins.

End Text.

(** ** config/naver *)

Inductive SortOption := sim | date | asc | dsc.

Inductive ExcludeOption := used | rental | cbshop.

Module Config.

Definition TIMEOUT_MS : Z := 3000.
Definition DISPLAY_PER_PAGE : Z := 100.

Definition EXCLUDE_KEYWORDS (option : ExcludeOption) : list string :=
  match option with
  | used => [ "중고"; "리퍼"; "리퍼비시"; "반품"; "전시"; "리뉴얼"; "테스트"; "오픈박스"; "매입" ]
  | rental => [ "렌탈"; "대여"; "임대"; "렌트"; "대차"; "리스" ]
  | cbshop => [ "해외직구"; "직구"; "구매대행"; "병행수입"; "해외배송"; "역직구" ]
  end.

Definition DEFAULT_PAGES : Z := 3.
Definition MAX_PAGES : Z := 10.
Definition MAX_START_VALUE : Z := 1000.

Definition DEFAULT_SORT : SortOption := sim.
Definition DEFAULT_EXCLUDE : list ExcludeOption := [ used; rental; cbshop ].

Definition NOISE_KEYWORDS : list string := [ "견적"; "상담권" ].

Definition TOP_N : Z := 10.
Definition MAX_ITEMS_PER_GROUP : nat := 20.

End Config.

(** ** types/naver *)

(** One record of the upstream response; every field is text. *)
Record NaverShopRawItem := {
  raw_title : string;
  raw_link : string;
  raw_image : string;
  raw_lprice : string;
  raw_hprice : string;
  raw_mallName : string;
  raw_productId : string;
  raw_productType : string;
  raw_brand : string;
  raw_maker : string;
  raw_category1 : string;
  raw_category2 : string;
  raw_category3 : string;
  raw_category4 : string
}.

(** The normalized item.  Optional fields are [None] for [undefined]. *)
Record Item := {
  title : string;
  titleText : string;
  lprice : Z;
  hprice : Z;
  mallName : string;
  link : string;
  image : option string;
  productId : string;
  productType : string;
  brand : option string;
  maker : option string;
  category1 : option string;
  category2 : option string;
  category3 : option string;
  category4 : option string
}.

(** [null] bounds and a [null] exclusion list are [None]. *)
Record SearchFilters := {
  sf_minPrice : option Z;
  sf_maxPrice : option Z;
  sf_sort : SortOption;
  sf_exclude : option (list ExcludeOption);
  sf_pages : Z;
  sf_filterNoise : bool
}.

(** [groupItems[0]] of an empty array is [undefined]: [pg_representative]
    is an option. *)
Record PriceGroup := {
  pg_price : Z;
  pg_count : nat;
  pg_items : list Item;
  pg_representative : option Item
}.

(** [Math.round] of a quotient by zero is [NaN]: the two rounded fields are
    options, [None] standing for [NaN]. *)
Record PriceBandSummary := {
  pb_minPrice : Z;
  pb_maxPrice : Z;
  pb_avgPrice : option Z;
  pb_medianPrice : option Z
}.

Inductive RelaxationStep :=
  dropFilterNoise | dropExclude | reducePages | increasePages.

Record AppliedFilters := {
  af_minPrice : option Z;
  af_maxPrice : option Z;
  af_filterNoise : bool;
  af_exclude : option (list ExcludeOption);
  af_excludeKeywordsEnabled : bool;
  af_pages : Z
}.

(** The object [getLowestPrice] returns. *)
Record LowestPriceResponse := {
  lp_query : string;
  lp_filters : SearchFilters;
  lp_top1 : option Item;
  lp_top10Groups : list PriceGroup;
  lp_priceBand : option PriceBandSummary;
  lp_totalCandidates : nat;
  lp_totalFromApi : Z;
  lp_filterRelaxed : bool;
  lp_appliedRelaxation : list RelaxationStep;
  lp_appliedFilters : AppliedFilters;
  lp_excludedByKeywordsCount : nat
}.

(** ** Arrays *)

Module JsArray.

Section Sort.
Context {A : Type} (key : A -> Z).

(** [arr.sort((a, b) => key(a) - key(b))] is a stable sort by [key]:
    insertion from the right, each element placed before the first element
    that is not smaller, keeps equal keys in their order of arrival. *)
Fixpoint insertByKey (x : A) (l : list A) : list A :=
  match l with
  | [] => [x]
  | y :: l' => if key x <=? key y then x :: l else y :: insertByKey x l'
  end.

Definition sortBy (l : list A) : list A := fold_right insertByKey [] l.

(** The order of the keys, for stating that an array is sorted. *)
Definition keyLe (a b : A) : Prop := key a <= key b.

End Sort.

(** [arr.slice(0, end)] for an integer [end]: a negative [end] counts from
    the end of the array. *)
Definition slice0 {A : Type} (l : list A) (end_ : Z) : list A :=
  let len := Z.of_nat (length l) in
  let final := if end_ <? 0 then Z.max (len + end_) 0 else Z.min end_ len in
  firstn (Z.to_nat final) l.

End JsArray.

(** ** domain/filtering *)

Record FilteringResult := {
  fr_items : list Item;
  fr_filterRelaxed : bool;
  fr_appliedRelaxation : list RelaxationStep;
  fr_appliedFilters : AppliedFilters;
  fr_excludedByKeywordsCount : nat
}.

(** [value || undefined] on a string: the empty string is falsy. *)
Definition orUndefined (value : string) : option string :=
  if String.eqb value "" then None else Some value.

(** [value || ""] on a string. *)
Definition orEmpty (value : string) : string :=
  if String.eqb value "" then "" else value.

Definition nonEmptyOpt {A : Type} (o : option (list A)) : bool :=
  match o with
  | None => false
  | Some l => (0 <? length l)%nat
  end.

Section Filtering.
Context {js : JsBuiltins}.

Definition transformRawItem (raw : NaverShopRawItem) : Item := {|
  title := raw_title raw;
  titleText := Text.stripHtmlTags (raw_title raw);
  lprice := Text.safeParseInt (raw_lprice raw) 0;
  hprice := Text.safeParseInt (raw_hprice raw) 0;
  mallName := orEmpty (raw_mallName raw);
  link := raw_link raw;
  image := orUndefined (raw_image raw);
  productId := orEmpty (raw_productId raw);
  productType := orEmpty (raw_productType raw);
  brand := orUndefined (raw_brand raw);
  maker := orUndefined (raw_maker raw);
  category1 := orUndefined (raw_category1 raw);
  category2 := orUndefined (raw_category2 raw);
  category3 := orUndefined (raw_category3 raw);
  category4 := orUndefined (raw_category4 raw)
|}.

Definition hasNoiseKeyword (titleText : string) : bool :=
  Text.containsAnyKeyword titleText Config.NOISE_KEYWORDS.

Fixpoint hasExcludeKeyword (titleText : string) (excludeOptions : list ExcludeOption) : bool :=
  match excludeOptions with
  | [] => false
  | option :: rest =>
      if Text.containsAnyKeyword titleText (Config.EXCLUDE_KEYWORDS option) then true
      else hasExcludeKeyword titleText rest
  end.

Definition matchesPriceFilter (item : Item) (minPrice maxPrice : option Z) : bool :=
  if lprice item <=? 0 then false
  else if match minPrice with Some m => lprice item <? m | None => false end then false
  else if match maxPrice with Some m => lprice item >? m | None => false end then false
  else true.

Definition matchesFilters (item : Item) (minPrice maxPrice : option Z)
    (excludeOptions : option (list ExcludeOption)) (filterNoise : bool) : bool :=
  if negb (matchesPriceFilter item minPrice maxPrice) then false
  else if match excludeOptions with
          | Some opts => (0 <? length opts)%nat && hasExcludeKeyword (titleText item) opts
          | None => false
          end then false
  else if filterNoise && hasNoiseKeyword (titleText item) then false
  else true.

(** The filter callback of [deduplicateByLink], with the [seen] set it
    closes over passed along. *)
Fixpoint dedupFrom (seen : gset string) (items : list Item) : list Item :=
  match items with
  | [] => []
  | item :: rest =>
      if bool_decide (link item ∈ seen) then dedupFrom seen rest
      else item :: dedupFrom ({[ link item ]} ∪ seen) rest
  end.

Definition deduplicateByLink (items : list Item) : list Item := dedupFrom ∅ items.

Definition sortByPriceAsc (items : list Item) : list Item := JsArray.sortBy lprice items.

Definition applyFiltersAndProcess (items : list Item) (minPrice maxPrice : option Z)
    (excludeOptions : option (list ExcludeOption)) (filterNoise : bool) : list Item :=
  let filtered :=
    List.filter (fun item => matchesFilters item minPrice maxPrice excludeOptions filterNoise) items in
  let deduplicated := deduplicateByLink filtered in
  sortByPriceAsc deduplicated.

Definition countExcludedByKeywords (items : list Item) (minPrice maxPrice : option Z)
    (excludeOptions : option (list ExcludeOption)) : nat :=
  match excludeOptions with
  | None => O
  | Some opts =>
      if (length opts =? 0)%nat then O
      else
        fold_left
          (fun count item =>
             if matchesPriceFilter item minPrice maxPrice then
               if hasExcludeKeyword (titleText item) opts then S count else count
             else count)
          items O
  end.

Definition filterAndSortItems (rawItems : list NaverShopRawItem) (filters : SearchFilters)
    : FilteringResult :=
  let items := map transformRawItem rawItems in
  let minPrice := sf_minPrice filters in
  let maxPrice := sf_maxPrice filters in
  let excludeOptions := sf_exclude filters in
  let currentFilterNoise := sf_filterNoise filters in
  let appliedRelaxation : list RelaxationStep := [] in
  let result := applyFiltersAndProcess items minPrice maxPrice excludeOptions currentFilterNoise in
  let '(currentFilterNoise, appliedRelaxation, result) :=
    if (length result =? 0)%nat && currentFilterNoise then
      (false, appliedRelaxation ++ [dropFilterNoise],
       applyFiltersAndProcess items minPrice maxPrice excludeOptions false)
    else (currentFilterNoise, appliedRelaxation, result) in
  let excludedByKeywordsCount := countExcludedByKeywords items minPrice maxPrice excludeOptions in
  let appliedFilters := {|
    af_minPrice := minPrice;
    af_maxPrice := maxPrice;
    af_filterNoise := currentFilterNoise;
    af_exclude := excludeOptions;
    af_excludeKeywordsEnabled := nonEmptyOpt excludeOptions;
    af_pages := sf_pages filters
  |} in
  {| fr_items := result;
     fr_filterRelaxed := (0 <? length appliedRelaxation)%nat;
     fr_appliedRelaxation := appliedRelaxation;
     fr_appliedFilters := appliedFilters;
     fr_excludedByKeywordsCount := excludedByKeywordsCount |}.

End Filtering.

(** *** Aggregation: price groups and the price-band summary *)

Module JsMap.

(** A [Map<number, V>]: entries in insertion order, keys unique. *)
Definition t (V : Type) : Type := list (Z * V).

Fixpoint get {V : Type} (m : t V) (k : Z) : option V :=
  match m with
  | [] => None
  | (k', v) :: m' => if k' =? k then Some v else get m' k
  end.

(** [m.set(k, v)]: an existing key keeps its position, a new key goes last. *)
Fixpoint set {V : Type} (m : t V) (k : Z) (v : V) : t V :=
  match m with
  | [] => [(k, v)]
  | (k', v') :: m' => if k' =? k then (k', v) :: m' else (k', v') :: set m' k v
  end.

End JsMap.

(** [Math.round(a / b)] for integers [a] and [b]: the closest integer, a
    half rounding up; [None] when the quotient is not a finite number
    ([b = 0]). *)
Definition roundDiv (a b : Z) : option Z :=
  if b =? 0 then None
  else if 0 <? b then Some ((2 * a + b) / (2 * b))
  else Some ((2 * (- a) + (- b)) / (2 * (- b))).

(** [arr[i]]: [None] (that is, [undefined]) out of range. *)
Definition at_ {A : Type} (l : list A) (i : Z) : option A :=
  if i <? 0 then None else nth_error l (Z.to_nat i).

(** The body of the grouping loop for one item. *)
Definition groupStep (groupMap : JsMap.t (list Item)) (item : Item) : JsMap.t (list Item) :=
  let existing :=
    match JsMap.get groupMap (lprice item) with
    | Some l => l
    | None => []
    end in
  if (length existing <? Config.MAX_ITEMS_PER_GROUP)%nat then
    JsMap.set groupMap (lprice item) (existing ++ [item])
  else groupMap.

Definition toPriceGroup (entry : Z * list Item) : PriceGroup :=
  let '(price, groupItems) := entry in
  {| pg_price := price;
     pg_count := length groupItems;
     pg_items := groupItems;
     pg_representative := head groupItems |}.

Definition groupByPrice (items : list Item) (maxGroups : Z) : list PriceGroup :=
  if (length items =? 0)%nat then []
  else
    let groupMap := fold_left groupStep items [] in
    map toPriceGroup (JsArray.slice0 (JsArray.sortBy fst groupMap) maxGroups).

(** [Math.min(...prices)] and [Math.max(...prices)] of a non-empty array. *)
Definition minOf (first : Z) (rest : list Z) : Z := fold_left Z.min rest first.
Definition maxOf (first : Z) (rest : list Z) : Z := fold_left Z.max rest first.

(** The nested loop that repeats each group's price [count] times. *)
Definition expandPrices (groups : list PriceGroup) : list Z :=
  fold_left (fun allPrices group => allPrices ++ repeat (pg_price group) (pg_count group))
            groups [].

(** Prices and counts are whole numbers.  The sums, the products and the
    rounded quotients below are those of the code as long as the weighted sum
    of the prices stays below [2^52]: up to there a double holds each of them
    exactly, and [Math.round] of the floating-point quotient is the rounding
    of the exact one. *)
Definition calculatePriceBand (groups : list PriceGroup) : option PriceBandSummary :=
  match groups with
  | [] => None
  | g :: rest =>
      let minPrice := minOf (pg_price g) (map pg_price rest) in
      let maxPrice := maxOf (pg_price g) (map pg_price rest) in
      let totalItems := fold_left (fun sum g => sum + Z.of_nat (pg_count g)) groups 0 in
      let weightedSum :=
        fold_left (fun sum g => sum + pg_price g * Z.of_nat (pg_count g)) groups 0 in
      let avgPrice := roundDiv weightedSum totalItems in
      let allPrices := JsArray.sortBy (fun p => p) (expandPrices groups) in
      let len := Z.of_nat (length allPrices) in
      let mid := len / 2 in
      let medianPrice :=
        if len mod 2 =? 0 then
          match at_ allPrices (mid - 1), at_ allPrices mid with
          | Some a, Some b => roundDiv (a + b) 2
          | _, _ => None
          end
        else at_ allPrices mid in
      Some {| pb_minPrice := minPrice;
              pb_maxPrice := maxPrice;
              pb_avgPrice := avgPrice;
              pb_medianPrice := medianPrice |}
  end.

Definition extractTopResults (items : list Item)
    : option Item * list PriceGroup * option PriceBandSummary :=
  let top1 := head items in
  let top10Groups := groupByPrice items Config.TOP_N in
  let priceBand := calculatePriceBand top10Groups in
  (top1, top10Groups, priceBand).

(** ** app/page: the client-side outlier trim *)

(** [Math.floor(n * 0.25)] is [n / 4] and [Math.floor(n * 0.75)] is
    [3 * n / 4]; both indices are inside the array once [n >= 5]. *)
Definition filterOutliers (items : list Item) : list Item :=
  if (length items <? 5)%nat then items
  else
    let prices := JsArray.sortBy (fun p => p) (map lprice items) in
    let n := Z.of_nat (length prices) in
    let q1 := nth (Z.to_nat (n / 4)) prices 0 in
    let q3 := nth (Z.to_nat (3 * n / 4)) prices 0 in
    let iqr := q3 - q1 in
    let lowerBound := Z.max 0 (q1 - 2 * iqr) in
    let upperBound := q3 + 2 * iqr in
    List.filter (fun item => (lprice item >=? lowerBound) && (lprice item <=? upperBound)) items.

(** ** utils/errors *)

(** A native error value, as far as the code looks at it. *)
Record JsError := {
  err_name : string;
  err_message : string
}.

(** What an [ApiError] carries as [originalError]. *)
Inductive OriginalError :=
| NoOriginal
| Caught (e : JsError)
| HttpFailure (status : Z) (statusText : string) (body : string).

(** The classes of [utils/errors].  [TimeoutError] extends [NaverApiError]. *)
Inductive ApiError :=
| NaverApiError (message : string) (originalError : OriginalError)
| TimeoutError (originalError : OriginalError)
| ValidationError (message : string).

Definition isNaverApiError (e : ApiError) : bool :=
  match e with
  | NaverApiError _ _ | TimeoutError _ => true
  | ValidationError _ => false
  end.

Definition getErrorStatusCode (e : ApiError) : Z :=
  match e with
  | NaverApiError _ _ | TimeoutError _ => 502
  | ValidationError _ => 400
  end.

(** ** lib/naverShopClient: one page *)

Module NaverShopClient.

(** A parsed JSON value.  Numbers are kept as integers; the keys of an
    object are unique. *)
#[warnings="-register-all"]
Inductive json :=
| JNull
| JBool (b : bool)
| JNum (n : Z)
| JStr (s : string)
| JArr (elements : list json)
| JObj (fields : list (string * json)).

Fixpoint lookupField (fields : list (string * json)) (name : string) : option json :=
  match fields with
  | [] => None
  | (k, v) :: rest => if String.eqb k name then Some v else lookupField rest name
  end.

(** [data.name]: reading a property of [null] throws a [TypeError]; a
    primitive or an array has no such property; [None] is [undefined]. *)
Definition getProp (data : json) (name : string) : JsError + option json :=
  match data with
  | JNull =>
      inl {| err_name := "TypeError";
             err_message := "Cannot read properties of null" |}
  | JObj fields => inr (lookupField fields name)
  | _ => inr None
  end.

(** [value ?? fallback] *)
Definition nullish (value : option json) (fallback : json) : json :=
  match value with
  | None | Some JNull => fallback
  | Some v => v
  end.

(** *** The response schema ([NaverShopApiResponseSchema]) *)

(** [z.string()] *)
Definition zString (v : option json) : option string :=
  match v with
  | Some (JStr s) => Some s
  | _ => None
  end.

(** [z.string().optional().default(d)] *)
Definition zStringDefault (d : string) (v : option json) : option string :=
  match v with
  | None => Some d
  | Some (JStr s) => Some s
  | Some _ => None
  end.

(** The [lprice] field: an empty string, [null] or [undefined] is read as ["0"]. *)
Definition zLprice (v : option json) : option string :=
  match v with
  | None | Some JNull => Some "0"
  | Some (JStr s) => if String.eqb s "" then Some "0" else Some s
  | Some _ => None
  end.

(** [NaverShopItemSchema.safeParse]: [None] on failure. *)
Definition parseItem (v : json) : option NaverShopRawItem :=
  match v with
  | JObj f =>
      title ← zString (lookupField f "title");
      link ← zString (lookupField f "link");
      image ← zStringDefault "" (lookupField f "image");
      lprice ← zLprice (lookupField f "lprice");
      hprice ← zStringDefault "0" (lookupField f "hprice");
      mallName ← zStringDefault "" (lookupField f "mallName");
      productId ← zStringDefault "" (lookupField f "productId");
      productType ← zStringDefault "" (lookupField f "productType");
      brand ← zStringDefault "" (lookupField f "brand");
      maker ← zStringDefault "" (lookupField f "maker");
      category1 ← zStringDefault "" (lookupField f "category1");
      category2 ← zStringDefault "" (lookupField f "category2");
      category3 ← zStringDefault "" (lookupField f "category3");
      category4 ← zStringDefault "" (lookupField f "category4");
      Some {| raw_title := title; raw_link := link; raw_image := image;
              raw_lprice := lprice; raw_hprice := hprice; raw_mallName := mallName;
              raw_productId := productId; raw_productType := productType;
              raw_brand := brand; raw_maker := maker;
              raw_category1 := category1; raw_category2 := category2;
              raw_category3 := category3; raw_category4 := category4 |}
  | _ => None
  end.

Fixpoint parseItems (l : list json) : option (list NaverShopRawItem) :=
  match l with
  | [] => Some []
  | v :: rest =>
      item ← parseItem v;
      items ← parseItems rest;
      Some (item :: items)
  end.

(** [NaverShopApiResponseSchema.safeParse(data)]: the validated [items] and
    [total], or [None] when the data does not match. *)
Definition safeParseResponse (data : json) : option (list NaverShopRawItem * Z) :=
  match data with
  | JObj f =>
      items ← match lookupField f "items" with
              | None => Some []
              | Some (JArr l) => parseItems l
              | Some _ => None
              end;
      total ← match lookupField f "total" with
              | None => Some 0
              | Some (JNum n) => Some n
              | Some _ => None
              end;
      Some (items, total)
  | _ => None
  end.

(** *** The HTTP exchange *)

Record Request := {
  req_endpoint : string;
  req_params : list (string * string);
  req_headers : list (string * string)
}.

(** What the code reads of a [Response]: [resp_text] is [None] when reading
    the body as text rejects; [resp_json] is the outcome of [response.json()]. *)
Record Response := {
  resp_ok : bool;
  resp_status : Z;
  resp_statusText : string;
  resp_text : option string;
  resp_json : JsError + json
}.

(** The promise [fetch] returns either rejects or resolves.  When the timer
    of [TIMEOUT_MS] fires first, the abort makes it reject with an error
    named ["AbortError"]. *)
Inductive FetchOutcome :=
| FetchRejected (e : JsError)
| FetchResolved (r : Response).

Definition abortError : JsError :=
  {| err_name := "AbortError"; err_message := "This operation was aborted" |}.

Record Env := {
  NAVER_CLIENT_ID : option string;
  NAVER_CLIENT_SECRET : option string
}.

(** What [fetchSinglePage] resolves to: the validated fields, or, when the
    schema does not match, whatever [data.items ?? []] and [data.total ?? 0]
    are. *)
Inductive PageResult :=
| Validated (items : list NaverShopRawItem) (total : Z)
| BestEffort (items : json) (total : json).

Definition sortParam (s : SortOption) : string :=
  match s with sim => "sim" | date => "date" | asc => "asc" | dsc => "dsc" end.

Definition excludeParam (e : ExcludeOption) : string :=
  match e with used => "used" | rental => "rental" | cbshop => "cbshop" end.

(** [arr.join(":")] *)
Fixpoint joinColon (l : list string) : string :=
  match l with
  | [] => ""
  | [s] => s
  | s :: rest => s ++ ":" ++ joinColon rest
  end.

Definition buildSearchParams (query : string) (display start : Z) (sort : SortOption)
    (exclude : list ExcludeOption) : list (string * string) :=
  let searchParams :=
    [ ("query", query); ("display", pretty display); ("start", pretty start);
      ("sort", sortParam sort) ] in
  if (0 <? length exclude)%nat then
    searchParams ++ [ ("exclude", joinColon (map excludeParam exclude)) ]
  else searchParams.

(** [!value] on an environment variable: unset or empty. *)
Definition missing (value : option string) : bool :=
  match value with
  | None => true
  | Some s => String.eqb s ""
  end.

Definition buildHeaders (env : Env) : ApiError + list (string * string) :=
  let clientId := NAVER_CLIENT_ID env in
  let clientSecret := NAVER_CLIENT_SECRET env in
  if missing clientId || missing clientSecret then
    inl (NaverApiError "네이버 API 인증 정보가 설정되지 않았습니다" NoOriginal)
  else
    inr [ ("X-Naver-Client-Id", default "" clientId);
          ("X-Naver-Client-Secret", default "" clientSecret) ].

(** The [catch] block for a native error. *)
Definition rethrow (error : JsError) : ApiError :=
  if String.eqb (err_name error) "AbortError" then TimeoutError (Caught error)
  else NaverApiError "네이버 API 호출 중 오류가 발생했습니다" (Caught error).

(** The part of the [try] block after [fetch] has settled. *)
Definition handleOutcome (outcome : FetchOutcome) : ApiError + PageResult :=
  match outcome with
  | FetchRejected error => inl (rethrow error)
  | FetchResolved response =>
      if negb (resp_ok response) then
        let errorBody := match resp_text response with Some t => t | None => "" end in
        inl (NaverApiError
               ("네이버 API 응답 오류: " ++ pretty (resp_status response))
               (HttpFailure (resp_status response) (resp_statusText response) errorBody))
      else
        match resp_json response with
        | inl error => inl (rethrow error)
        | inr data =>
            match safeParseResponse data with
            | None =>
                match getProp data "items", getProp data "total" with
                | inr items, inr total =>
                    inr (BestEffort (nullish items (JArr [])) (nullish total (JNum 0)))
                | inl error, _ => inl (rethrow error)
                | _, inl error => inl (rethrow error)
                end
            | Some (items, total) => inr (Validated items total)
            end
        end
  end.

Section SinglePage.
Context {World : Type}.
(** The network: one call of [fetch], which may change the world. *)
Variable fetch : Request -> World -> FetchOutcome * World.
Variable env : Env.

Definition ENDPOINT : string := "https://openapi.naver.com/v1/search/shop.json".

Definition fetchSinglePage (query : string) (start : Z) (sort : SortOption)
    (exclude : list ExcludeOption) (w : World) : (ApiError + PageResult) * World :=
  let params := buildSearchParams query Config.DISPLAY_PER_PAGE start sort exclude in
  match buildHeaders env with
  | inl error => (inl error, w)
  | inr headers =>
      let '(outcome, w') :=
        fetch {| req_endpoint := ENDPOINT; req_params := params; req_headers := headers |} w in
      (handleOutcome outcome, w')
  end.

End SinglePage.

End NaverShopClient.

(** ** lib/naverShopClient: all pages *)

(** A page at the type [fetchSinglePage] declares for its result. *)
Record Page := {
  page_items : list NaverShopRawItem;
  page_total : Z
}.

(** The loop of [calculateStartValues], [i] running from its current value;
    it runs at most [effectivePages] times, which bounds the recursion. *)
Fixpoint startValuesFrom (steps : nat) (i effectivePages : Z) (startValues : list Z) : list Z :=
  match steps with
  | O => startValues
  | S steps' =>
      if i <? effectivePages then
        let start := 1 + i * Config.DISPLAY_PER_PAGE in
        if start >? Config.MAX_START_VALUE then startValues
        else startValuesFrom steps' (i + 1) effectivePages (startValues ++ [start])
      else startValues
  end.

Definition calculateStartValues (pages : Z) : list Z :=
  let effectivePages := Z.min pages Config.MAX_PAGES in
  startValuesFrom (Z.to_nat effectivePages) 0 effectivePages [].

(** What the relaxation controller does that can be observed: the calls it
    makes and the steps it records.  The trace is kept next to the world; it
    is specification state only and no code reads it. *)
Inductive Event :=
| FetchCall (pages : Z) (exclude : list ExcludeOption)
| FilterCall (filters : SearchFilters) (result : FilteringResult)
| Relaxed (step : RelaxationStep).

Section Pipeline.
Context {js : JsBuiltins} {World : Type}.

(** The single-page call at its declared type: it either throws or yields
    a page, and may change the world.  What follows is the pipeline on pages
    of that type.  The best-effort page the client passes on when a body does
    not match the schema holds unvalidated JSON and is not of that type; a
    statement about every run of the pipeline over the client says so in a
    hypothesis. *)
Variable singlePage :
  string -> Z -> SortOption -> list ExcludeOption -> World -> (ApiError + Page) * World.

(** The sequential loop of [fetchAllPages]: the first page that throws ends
    the whole call. *)
Fixpoint fetchFrom (query : string) (sort : SortOption) (exclude : list ExcludeOption)
    (startValues : list Z) (allItems : list NaverShopRawItem) (totalFromApi : Z) (w : World)
    : (ApiError + Page) * World :=
  match startValues with
  | [] => (inr {| page_items := allItems; page_total := totalFromApi |}, w)
  | start :: rest =>
      match singlePage query start sort exclude w with
      | (inl error, w') => (inl error, w')
      | (inr page, w') =>
          fetchFrom query sort exclude rest (allItems ++ page_items page) (page_total page) w'
      end
  end.

Definition fetchAllPages (query : string) (pages : Z) (sort : SortOption)
    (exclude : list ExcludeOption) (w : World) : (ApiError + Page) * World :=
  let startValues := calculateStartValues pages in
  fetchFrom query sort exclude startValues [] 0 w.

(** ** services/getLowestPrice *)

Record ValidatedSearchRequest := {
  rq_query : string;
  rq_minPrice : option Z;
  rq_maxPrice : option Z;
  rq_sort : option SortOption;
  rq_exclude : option (list ExcludeOption);
  rq_pages : option Z;
  rq_filterNoise : option bool
}.

Definition dropNegative (price : option Z) : option Z :=
  match price with
  | Some p => if p <? 0 then None else Some p
  | None => None
  end.

Definition normalizeFilters (request : ValidatedSearchRequest) : SearchFilters :=
  let pages := Z.min (default Config.DEFAULT_PAGES (rq_pages request)) Config.MAX_PAGES in
  let minPrice := dropNegative (rq_minPrice request) in
  let maxPrice := dropNegative (rq_maxPrice request) in
  let '(minPrice, maxPrice) :=
    match minPrice, maxPrice with
    | Some lo, Some hi => if lo >? hi then (Some hi, Some lo) else (minPrice, maxPrice)
    | _, _ => (minPrice, maxPrice)
    end in
  {| sf_minPrice := minPrice;
     sf_maxPrice := maxPrice;
     sf_sort := default Config.DEFAULT_SORT (rq_sort request);
     sf_exclude := Some (default Config.DEFAULT_EXCLUDE (rq_exclude request));
     sf_pages := pages;
     sf_filterNoise := default false (rq_filterNoise request) |}.

(** Asynchronous code that may throw: the world and the trace are threaded,
    an error ends the computation. *)
Definition M (A : Type) : Type :=
  World * list Event -> (ApiError + A) * (World * list Event).

Definition ret {A : Type} (a : A) : M A := fun s => (inr a, s).

Definition bind {A B : Type} (m : M A) (k : A -> M B) : M B :=
  fun s =>
    match m s with
    | (inl error, s') => (inl error, s')
    | (inr a, s') => k a s'
    end.

Definition record (e : Event) : M unit :=
  fun '(w, trace) => (inr tt, (w, trace ++ [e])).

Definition await {A : Type} (call : World -> (ApiError + A) * World) : M A :=
  fun '(w, trace) => let '(r, w') := call w in (r, (w', trace)).

Notation "'let*' x ':=' m 'in' k" := (bind m (fun x => k))
  (at level 10, x name, m at level 100, k at level 200).

(** A call of [fetchAllPages] from the controller. *)
Definition callFetch (query : string) (pages : Z) (exclude : list ExcludeOption) : M Page :=
  let* _ := record (FetchCall pages exclude) in
  await (fetchAllPages query pages asc exclude).

(** A call of [filterAndSortItems] from the controller. *)
Definition callFilter (rawItems : list NaverShopRawItem) (filters : SearchFilters)
    : M FilteringResult :=
  let result := filterAndSortItems rawItems filters in
  let* _ := record (FilterCall filters result) in
  ret result.

(** The variables [getLowestPrice] reassigns. *)
Record Locals := {
  currentExclude : option (list ExcludeOption);
  currentPages : Z;
  appliedRelaxation : list RelaxationStep;
  rawItems : list NaverShopRawItem;
  totalFromApi : Z;
  filterResult : FilteringResult
}.

(** [currentExclude ?? []] *)
Definition orNoExclude (exclude : option (list ExcludeOption)) : list ExcludeOption :=
  default [] exclude.

(** Relaxation step 2: drop the exclusion and fetch again. *)
Definition relaxExclude (query : string) (filters : SearchFilters) (l : Locals) : M Locals :=
  if (length (fr_items (filterResult l)) =? 0)%nat && nonEmptyOpt (currentExclude l) then
    let currentExclude' : option (list ExcludeOption) := None in
    let* _ := record (Relaxed dropExclude) in
    let appliedRelaxation' := appliedRelaxation l ++ [dropExclude] in
    let* result := callFetch query (currentPages l) [] in
    let* filterResult' :=
      callFilter (page_items result)
        {| sf_minPrice := sf_minPrice filters;
           sf_maxPrice := sf_maxPrice filters;
           sf_sort := sf_sort filters;
           sf_exclude := currentExclude';
           sf_pages := currentPages l;
           sf_filterNoise := af_filterNoise (fr_appliedFilters (filterResult l)) |} in
    ret {| currentExclude := currentExclude';
           currentPages := currentPages l;
           appliedRelaxation := appliedRelaxation';
           rawItems := page_items result;
           totalFromApi := page_total result;
           filterResult := filterResult' |}
  else ret l.

(** Relaxation step 3: fetch one page only. *)
Definition relaxPages (query : string) (filters : SearchFilters) (l : Locals) : M Locals :=
  if (length (fr_items (filterResult l)) =? 0)%nat && (currentPages l >? 1) then
    let currentPages' := 1 in
    let* _ := record (Relaxed reducePages) in
    let appliedRelaxation' := appliedRelaxation l ++ [reducePages] in
    let* result := callFetch query currentPages' (orNoExclude (currentExclude l)) in
    let* filterResult' :=
      callFilter (page_items result)
        {| sf_minPrice := sf_minPrice filters;
           sf_maxPrice := sf_maxPrice filters;
           sf_sort := sf_sort filters;
           sf_exclude := currentExclude l;
           sf_pages := currentPages';
           sf_filterNoise := false |} in
    ret {| currentExclude := currentExclude l;
           currentPages := currentPages';
           appliedRelaxation := appliedRelaxation';
           rawItems := page_items result;
           totalFromApi := page_total result;
           filterResult := filterResult' |}
  else ret l.

Definition getLowestPrice (query : string) (filters : SearchFilters) : M LowestPriceResponse :=
  let minPrice := sf_minPrice filters in
  let maxPrice := sf_maxPrice filters in
  let currentExclude0 := sf_exclude filters in
  let currentPages0 := sf_pages filters in
  let* fetched := callFetch query currentPages0 (orNoExclude currentExclude0) in
  let* filterResult0 :=
    callFilter (page_items fetched)
      {| sf_minPrice := minPrice;
         sf_maxPrice := maxPrice;
         sf_sort := sf_sort filters;
         sf_exclude := currentExclude0;
         sf_pages := currentPages0;
         sf_filterNoise := sf_filterNoise filters |} in
  let* l := relaxExclude query filters
              {| currentExclude := currentExclude0;
                 currentPages := currentPages0;
                 appliedRelaxation := [];
                 rawItems := page_items fetched;
                 totalFromApi := page_total fetched;
                 filterResult := filterResult0 |} in
  let* l := relaxPages query filters l in
  let allRelaxation := fr_appliedRelaxation (filterResult l) ++ appliedRelaxation l in
  let finalAppliedFilters := {|
    af_minPrice := minPrice;
    af_maxPrice := maxPrice;
    af_filterNoise := af_filterNoise (fr_appliedFilters (filterResult l));
    af_exclude := currentExclude l;
    af_excludeKeywordsEnabled := af_excludeKeywordsEnabled (fr_appliedFilters (filterResult l));
    af_pages := currentPages l
  |} in
  let '(top1, top10Groups, priceBand) := extractTopResults (fr_items (filterResult l)) in
  ret {| lp_query := query;
         lp_filters := filters;
         lp_top1 := top1;
         lp_top10Groups := top10Groups;
         lp_priceBand := priceBand;
         lp_totalCandidates := length (fr_items (filterResult l));
         lp_totalFromApi := totalFromApi l;
         lp_filterRelaxed := (0 <? length allRelaxation)%nat;
         lp_appliedRelaxation := allRelaxation;
         lp_appliedFilters := finalAppliedFilters;
         lp_excludedByKeywordsCount := fr_excludedByKeywordsCount (filterResult l) |}.

(** The relaxation steps in the order they were taken: the steps each call
    of [filterAndSortItems] took inside, and the steps of the controller. *)
Definition firedSteps (trace : list Event) : list RelaxationStep :=
  flat_map (fun e => match e with
                     | FetchCall _ _ => []
                     | FilterCall _ result => fr_appliedRelaxation result
                     | Relaxed step => [step]
                     end) trace.

End Pipeline.


(** ** utils/errors, continued *)

Module Errors.

(** Anything a [catch] block may receive: an error of one of the three
    classes above, a plain [ApiError], another [Error], or a value that is
    not an error at all. *)
Inductive Thrown :=
| ThrownApi (e : ApiError)
| ThrownBase (message : string) (statusCode : Z) (originalError : OriginalError)
| ThrownNative (e : JsError)
| ThrownValue (text : string).

Definition TIMEOUT_MESSAGE : string :=
  "서버 응답 시간이 초과되었습니다. 잠시 후 다시 시도해주세요.".
Definition UPSTREAM_MESSAGE : string :=
  "외부 서비스 연결에 실패했습니다. 잠시 후 다시 시도해주세요.".
Definition SERVER_MESSAGE : string := "서버 오류가 발생했습니다.".

(** The [instanceof] tests run from the most specific class down. *)
Definition toSafeErrorMessage (error : Thrown) : string :=
  match error with
  | ThrownApi (ValidationError message) => message
  | ThrownApi (TimeoutError _) => TIMEOUT_MESSAGE
  | ThrownApi (NaverApiError _ _) => UPSTREAM_MESSAGE
  | ThrownBase message _ _ => message
  | ThrownNative _ | ThrownValue _ => SERVER_MESSAGE
  end.

Definition getErrorStatusCode (error : Thrown) : Z :=
  match error with
  | ThrownApi e => getErrorStatusCode e
  | ThrownBase _ statusCode _ => statusCode
  | ThrownNative _ | ThrownValue _ => 500
  end.

End Errors.

(** ** types/naver: the request schema *)

Module RequestSchema.

(** The query parameters as the route handler reads them: the query
    ([""] when absent), the others [None] when absent. *)
Record RawParams := {
  rp_query : string;
  rp_minPrice : option string;
  rp_maxPrice : option string;
  rp_sort : option string;
  rp_exclude : option string;
  rp_pages : option string;
  rp_filterNoise : option string
}.

(** [!val] on an optional string: absent or empty. *)
Definition blank (val : option string) : bool :=
  match val with
  | None => true
  | Some s => String.eqb s ""
  end.

Definition parseSortOption (s : string) : option SortOption :=
  if String.eqb s "sim" then Some sim
  else if String.eqb s "date" then Some date
  else if String.eqb s "asc" then Some asc
  else if String.eqb s "dsc" then Some dsc
  else None.

Definition parseExcludeOption (s : string) : option ExcludeOption :=
  if String.eqb s "used" then Some used
  else if String.eqb s "rental" then Some rental
  else if String.eqb s "cbshop" then Some cbshop
  else None.

(** [s.split(":")]: the pieces between the colons; [current] is the piece
    being read, in reverse. *)
Fixpoint splitFrom (current : string) (s : string) : list string :=
  match s with
  | EmptyString => [ current ]
  | String c s' =>
      if Ascii.eqb c ":"%char then current :: splitFrom "" s'
      else splitFrom (current ++ String c "") s'
  end.

Definition splitColon (s : string) : list string := splitFrom "" s.

(** [items.filter((item) => ExcludeOptionSchema.safeParse(item).success)] *)
Fixpoint keepExcludeOptions (items : list string) : list ExcludeOption :=
  match items with
  | [] => []
  | item :: rest =>
      match parseExcludeOption item with
      | Some o => o :: keepExcludeOptions rest
      | None => keepExcludeOptions rest
      end
  end.

Definition QUERY_REQUIRED : string := "검색어는 필수입니다".
Definition QUERY_TOO_LONG : string := "검색어는 100자를 초과할 수 없습니다".

Section Schema.
Context {js : JsBuiltins}.
(** [s.length]: the number of UTF-16 code units of a string. *)
Variable jsLength : string -> nat.

(** The transform of [minPrice] and of [maxPrice]. *)
Definition parsePriceParam (val : option string) : option Z :=
  if blank val then None
  else
    match parseInt (default "" val) with
    | None => None
    | Some num => if num <? 0 then None else Some num
    end.

Definition parseSortParam (val : option string) : option SortOption :=
  if blank val then None else parseSortOption (default "" val).

Definition parseExcludeParam (val : option string) : option (list ExcludeOption) :=
  if blank val then None else Some (keepExcludeOptions (splitColon (default "" val))).

Definition parsePagesParam (val : option string) : option Z :=
  if blank val then None
  else
    match parseInt (default "" val) with
    | None => None
    | Some num => if num <? 1 then None else Some num
    end.

Definition parseFilterNoiseParam (val : option string) : bool :=
  match val with
  | Some s => String.eqb s "true"
  | None => false
  end.

(** The issues of the [query] field: [min(1)] fails on the empty string,
    [max(100)] on more than a hundred code units. *)
Definition queryIssues (query : string) : list string :=
  (if String.eqb query "" then [ QUERY_REQUIRED ] else [])
  ++ (if (100 <? jsLength query)%nat then [ QUERY_TOO_LONG ] else []).

(** [messages.join(", ")] *)
Fixpoint joinComma (l : list string) : string :=
  match l with
  | [] => ""
  | [s] => s
  | s :: rest => s ++ ", " ++ joinComma rest
  end.

(** [SearchRequestSchema.safeParse]: the issues' messages, or the validated
    request.  Only the [query] field can fail. *)
Definition safeParseRequest (raw : RawParams) : list string + ValidatedSearchRequest :=
  match queryIssues (rp_query raw) with
  | [] =>
      inr {| rq_query := rp_query raw;
             rq_minPrice := parsePriceParam (rp_minPrice raw);
             rq_maxPrice := parsePriceParam (rp_maxPrice raw);
             rq_sort := parseSortParam (rp_sort raw);
             rq_exclude := parseExcludeParam (rp_exclude raw);
             rq_pages := parsePagesParam (rp_pages raw);
             rq_filterNoise := Some (parseFilterNoiseParam (rp_filterNoise raw)) |}
  | issues => inl issues
  end.

End Schema.

End RequestSchema.

(** ** app/api/lowest/route: the handler *)

Module Route.
Import RequestSchema.

Inductive ResponseBody :=
| ResultBody (result : LowestPriceResponse)
| ErrorBody (error : string).

Record HttpResponse := {
  http_status : Z;
  http_body : ResponseBody;
  http_cacheControl : option string
}.

Definition CACHE_CONTROL : string := "s-maxage=60, stale-while-revalidate=300".

(** The [catch] block of the handler. *)
Definition errorResponse (error : Errors.Thrown) : HttpResponse :=
  {| http_status := Errors.getErrorStatusCode error;
     http_body := ErrorBody (Errors.toSafeErrorMessage error);
     http_cacheControl := None |}.

Section Handler.
Context {js : JsBuiltins} {World : Type}.
Variable jsLength : string -> nat.
Variable singlePage :
  string -> Z -> SortOption -> list ExcludeOption -> World -> (ApiError + Page) * World.

(** [GET]: every error is caught and turned into a response, so the
    handler always answers; the world and the trace are those of the
    service call, if one is made.  The service is the pipeline on pages of
    the declared type, so the error it can throw here is an [ApiError]. *)
Definition GET (raw : RawParams) (s : World * list Event) : HttpResponse * (World * list Event) :=
  match safeParseRequest jsLength raw with
  | inl issues => (errorResponse (Errors.ThrownApi (ValidationError (joinComma issues))), s)
  | inr validatedRequest =>
      if String.eqb (trim (rq_query validatedRequest)) "" then
        (errorResponse (Errors.ThrownApi (ValidationError QUERY_REQUIRED)), s)
      else
        let filters := normalizeFilters validatedRequest in
        match getLowestPrice singlePage (rq_query validatedRequest) filters s with
        | (inr result, s') =>
            ({| http_status := 200;
                http_body := ResultBody result;
                http_cacheControl := Some CACHE_CONTROL |}, s')
        | (inl error, s') => (errorResponse (Errors.ThrownApi error), s')
        end
  end.

End Handler.

End Route.

(** ** app/page: the search request and the client-side refinement *)

Module SearchPage.
Import RequestSchema.

(** [String(b)] *)
Definition stringOfBool (b : bool) : string := if b then "true" else "false".

Section Search.
Context {js : JsBuiltins}.

(** The query string that [handleSearch] builds, as the route handler reads
    it back; [None] when the trimmed query is empty and nothing is sent.
    The prices and the page count are integers. *)
Definition handleSearch (query : string) (minPrice maxPrice pages : Z) (filterNoise : bool)
    (exclude : list string) : option RawParams :=
  if String.eqb (trim query) "" then None
  else
    Some {| rp_query := trim query;
            rp_minPrice := if 0 <? minPrice then Some (pretty minPrice) else None;
            rp_maxPrice := if 0 <? maxPrice then Some (pretty maxPrice) else None;
            rp_sort := None;
            rp_exclude :=
              if (0 <? length exclude)%nat then Some (NaverShopClient.joinColon exclude)
              else None;
            rp_pages := Some (pretty pages);
            rp_filterNoise := Some (stringOfBool filterNoise) |}.

End Search.

(** [selectedMalls.includes(item.mallName)] *)
Definition includesMall (selectedMalls : list string) (item : Item) : bool :=
  existsb (String.eqb (mallName item)) selectedMalls.

(** The memo [processedItems], once there is a result: the mall filter, the
    outlier trim, then the client's sort. *)
Definition processedItems (allItems : list Item) (selectedMalls : list string)
    (excludeOutliers : bool) (clientSort : SortOption) : list Item :=
  let items := allItems in
  let items :=
    if (0 <? length selectedMalls)%nat then List.filter (includesMall selectedMalls) items
    else items in
  let items := if excludeOutliers then filterOutliers items else items in
  match clientSort with
  | asc => JsArray.sortBy lprice items
  | dsc => JsArray.sortBy (fun item => - lprice item) items
  | _ => items
  end.

(** [processedItems.slice(0, displayCount)]: the items the page renders. *)
Definition displayedItems (processed : list Item) (displayCount : Z) : list Item :=
  JsArray.slice0 processed displayCount.

(** The body of the page's own grouping loop for one item. *)
Definition effectiveGroupStep (groupMap : JsMap.t (list Item)) (item : Item)
    : JsMap.t (list Item) :=
  let existing :=
    match JsMap.get groupMap (lprice item) with
    | Some l => l
    | None => []
    end in
  if (length existing <? 20)%nat then JsMap.set groupMap (lprice item) (existing ++ [item])
  else groupMap.

(** The memo that recomputes [top1], the price groups and the price band
    from the filtered items, once there is a result; [result] holds the
    three values the server sent. *)
Definition effectiveResults (result : option Item * list PriceGroup * option PriceBandSummary)
    (allItems : list Item) (selectedMalls : list string) (excludeOutliers : bool)
    : option Item * list PriceGroup * option PriceBandSummary :=
  if (length selectedMalls =? 0)%nat && negb excludeOutliers then result
  else
    let filteredItems := allItems in
    let filteredItems :=
      if (0 <? length selectedMalls)%nat
      then List.filter (includesMall selectedMalls) filteredItems
      else filteredItems in
    let filteredItems :=
      if excludeOutliers then filterOutliers filteredItems else filteredItems in
    let sorted := JsArray.sortBy lprice filteredItems in
    let top1 := head sorted in
    let groupMap := fold_left effectiveGroupStep sorted [] in
    let groups := map toPriceGroup (JsArray.slice0 (JsArray.sortBy fst groupMap) 10) in
    let priceBand :=
      match groups with
      | [] => None
      | g :: rest =>
          let prices := map pg_price groups in
          let totalItems := fold_left (fun sum g => sum + Z.of_nat (pg_count g)) groups 0 in
          let weightedSum :=
            fold_left (fun sum g => sum + pg_price g * Z.of_nat (pg_count g)) groups 0 in
          let allPrices := JsArray.sortBy (fun p => p) (expandPrices groups) in
          let len := Z.of_nat (length allPrices) in
          let mid := len / 2 in
          Some {| pb_minPrice := minOf (pg_price g) (map pg_price rest);
                  pb_maxPrice := maxOf (pg_price g) (map pg_price rest);
                  pb_avgPrice := roundDiv weightedSum totalItems;
                  pb_medianPrice :=
                    if len mod 2 =? 0 then
                      match at_ allPrices (mid - 1), at_ allPrices mid with
                      | Some a, Some b => roundDiv (a + b) 2
                      | _, _ => None
                      end
                    else at_ allPrices mid |}
      end in
    (top1, groups, priceBand).

End SearchPage.

(** ** Reference built-ins

    A concrete instance of the built-ins, used by the worked examples only.
    It follows the JavaScript functions on the ASCII letters, digits and white
    space and leaves every other byte alone, which is also what the runtime
    does with Hangul text (it has no letter case). *)

Module Reference.

Definition lowerChar (c : ascii) : ascii :=
  let n := nat_of_ascii c in
  if ((65 <=? n) && (n <=? 90))%nat then ascii_of_nat (n + 32) else c.

Fixpoint lower (s : string) : string :=
  match s with
  | EmptyString => EmptyString
  | String c s' => String (lowerChar c) (lower s')
  end.

Definition isSpace (c : ascii) : bool :=
  let n := nat_of_ascii c in
  (((9 <=? n) && (n <=? 13)) || (n =? 32))%nat.

Fixpoint trimStart (s : string) : string :=
  match s with
  | EmptyString => EmptyString
  | String c s' => if isSpace c then trimStart s' else s
  end.

Definition reverse (s : string) : string :=
  string_of_list_ascii (List.rev (list_ascii_of_string s)).

Definition trimBoth (s : string) : string :=
  reverse (trimStart (reverse (trimStart s))).

Definition digitOf (c : ascii) : option Z :=
  let n := nat_of_ascii c in
  if ((48 <=? n) && (n <=? 57))%nat then Some (Z.of_nat (n - 48)) else None.

(** The longest run of leading digits, read in base ten; [None] if empty. *)
Fixpoint digits (acc : option Z) (s : string) : option Z :=
  match s with
  | EmptyString => acc
  | String c s' =>
      match digitOf c with
      | Some d => digits (Some (10 * default 0 acc + d)) s'
      | None => acc
      end
  end.

Definition parseDecimal (s : string) : option Z :=
  match trimStart s with
  | String "-" s' => Z.opp <$> digits None s'
  | String "+" s' => digits None s'
  | s' => digits None s'
  end.

Definition builtins : JsBuiltins := {|
  toLowerCase := lower;
  trim := trimBoth;
  parseInt := parseDecimal
|}.

End Reference.

(** Items for the worked examples: only the fields the pipeline reads vary. *)
Definition sampleItem (text url : string) (price : Z) : Item := {|
  title := text;
  titleText := text;
  lprice := price;
  hprice := 0;
  mallName := "mall";
  link := url;
  image := None;
  productId := "";
  productType := "";
  brand := None;
  maker := None;
  category1 := None;
  category2 := None;
  category3 := None;
  category4 := None
|}.

Definition usedLaptop : Item := sampleItem "중고 노트북" "https://shop.example/1" 1000.

(** Twelve offers of one product, all at 9900, with different links. *)
Definition twelveOffers : list Item :=
  map (fun url => sampleItem "banana 1kg" url 9900)
      [ "l01"; "l02"; "l03"; "l04"; "l05"; "l06"; "l07"; "l08"; "l09"; "l10"; "l11"; "l12" ].

Definition sampleRaw (text url price : string) : NaverShopRawItem := {|
  raw_title := text;
  raw_link := url;
  raw_image := "";
  raw_lprice := price;
  raw_hprice := "";
  raw_mallName := "mall";
  raw_productId := "";
  raw_productType := "";
  raw_brand := "";
  raw_maker := "";
  raw_category1 := "";
  raw_category2 := "";
  raw_category3 := "";
  raw_category4 := ""
|}.

(** An upstream for the worked examples.  The world is the number of calls
    made so far; each page holds one item named after its start offset, and
    the reported total changes from call to call. *)
Definition countingUpstream (query : string) (start : Z) (sort : SortOption)
    (exclude : list ExcludeOption) (calls : nat) : (ApiError + Page) * nat :=
  (inr {| page_items := [ sampleRaw query (pretty start) "9900" ];
          page_total := 1000 - Z.of_nat calls |},
   S calls).

(** An upstream that finds nothing. *)
Definition emptyUpstream (query : string) (start : Z) (sort : SortOption)
    (exclude : list ExcludeOption) (calls : nat) : (ApiError + Page) * nat :=
  (inr {| page_items := []; page_total := 0 |}, S calls).

Definition sampleEnv : NaverShopClient.Env :=
  {| NaverShopClient.NAVER_CLIENT_ID := Some "id";
     NaverShopClient.NAVER_CLIENT_SECRET := Some "secret" |}.

(** A network whose every call settles the same way. *)
Definition settling (outcome : NaverShopClient.FetchOutcome)
    : NaverShopClient.Request -> nat -> NaverShopClient.FetchOutcome * nat :=
  fun _ calls => (outcome, S calls).

(** An HTTP 200 answer with the given parsed body. *)
Definition okResponse (data : NaverShopClient.json) : NaverShopClient.Response :=
  {| NaverShopClient.resp_ok := true;
     NaverShopClient.resp_status := 200;
     NaverShopClient.resp_statusText := "OK";
     NaverShopClient.resp_text := None;
     NaverShopClient.resp_json := inr data |}.

(** A request with both bounds, the category [used] excluded, the noise
    filter on and three pages. *)
Definition strictFilters : SearchFilters := {|
  sf_minPrice := Some 1000;
  sf_maxPrice := Some 50000;
  sf_sort := sim;
  sf_exclude := Some [used];
  sf_pages := 3;
  sf_filterNoise := true
|}.

(** A request with the noise filter on, the category [used] excluded and
    one page. *)
Definition noisyUsedOnePage : SearchFilters := {|
  sf_minPrice := None;
  sf_maxPrice := None;
  sf_sort := sim;
  sf_exclude := Some [used];
  sf_pages := 1;
  sf_filterNoise := true
|}.

Definition isFilterCall (e : Event) : bool :=
  match e with
  | FilterCall _ _ => true
  | _ => false
  end.


Definition sampleHeaders : list (string * string) :=
  [ ("X-Naver-Client-Id", "id"); ("X-Naver-Client-Secret", "secret") ].

(** An HTTP 429 answer with a text body. *)
Definition tooManyRequests : NaverShopClient.Response :=
  {| NaverShopClient.resp_ok := false;
     NaverShopClient.resp_status := 429;
     NaverShopClient.resp_statusText := "Too Many Requests";
     NaverShopClient.resp_text := Some "rate limit";
     NaverShopClient.resp_json := inl {| err_name := "SyntaxError"; err_message := "" |} |}.

(** A body whose [items] is not an array and whose [total] is missing. *)
Definition oddBody : NaverShopClient.json :=
  NaverShopClient.JObj [ ("items", NaverShopClient.JStr "none") ].

Definition noCredentials : NaverShopClient.Env :=
  {| NaverShopClient.NAVER_CLIENT_ID := Some "";
     NaverShopClient.NAVER_CLIENT_SECRET := None |}.

(** Query parameters with the bounds out of order, an unknown category and
    more pages than allowed. *)
Definition sampleParams : RequestSchema.RawParams :=
  {| RequestSchema.rp_query := "laptop";
     RequestSchema.rp_minPrice := Some "50000";
     RequestSchema.rp_maxPrice := Some "1000";
     RequestSchema.rp_sort := None;
     RequestSchema.rp_exclude := Some "used:new";
     RequestSchema.rp_pages := Some "25";
     RequestSchema.rp_filterNoise := None |}.

(** Query parameters whose query is white space. *)
Definition blankParams : RequestSchema.RawParams :=
  {| RequestSchema.rp_query := "   ";
     RequestSchema.rp_minPrice := None;
     RequestSchema.rp_maxPrice := None;
     RequestSchema.rp_sort := None;
     RequestSchema.rp_exclude := None;
     RequestSchema.rp_pages := None;
     RequestSchema.rp_filterNoise := None |}.

(** Six offers, one of them far above the others. *)
Definition sixOffers : list Item :=
  [ sampleItem "a" "l1" 300; sampleItem "b" "l2" 100; sampleItem "c" "l3" 90000;
    sampleItem "d" "l4" 500; sampleItem "e" "l5" 200; sampleItem "f" "l6" 400 ].

(** A body that matches the response schema: one offer, a total of seven. *)
Definition bananaBody : NaverShopClient.json :=
  NaverShopClient.JObj
    [ ("total", NaverShopClient.JNum 7);
      ("items",
       NaverShopClient.JArr
         [ NaverShopClient.JObj
             [ ("title", NaverShopClient.JStr "<b>banana</b> 1kg");
               ("link", NaverShopClient.JStr "l1");
               ("lprice", NaverShopClient.JStr "9900") ] ]) ].

(** The item the schema makes of that offer. *)
Definition bananaRaw : NaverShopRawItem := {|
  raw_title := "<b>banana</b> 1kg";
  raw_link := "l1";
  raw_image := "";
  raw_lprice := "9900";
  raw_hprice := "0";
  raw_mallName := "";
  raw_productId := "";
  raw_productType := "";
  raw_brand := "";
  raw_maker := "";
  raw_category1 := "";
  raw_category2 := "";
  raw_category3 := "";
  raw_category4 := ""
|}.

(** A network whose third call is aborted and whose other calls answer with
    [bananaBody]; the world is the number of calls made so far. *)
Definition abortsThirdCall (request : NaverShopClient.Request) (calls : nat)
    : NaverShopClient.FetchOutcome * nat :=
  if (calls =? 2)%nat then (NaverShopClient.FetchRejected NaverShopClient.abortError, S calls)
  else (NaverShopClient.FetchResolved (okResponse bananaBody), S calls).

(** The client over that network, at the declared type of its pages. *)
Definition thirdPageAborts (query : string) (start : Z) (sort : SortOption)
    (exclude : list ExcludeOption) (calls : nat) : (ApiError + Page) * nat :=
  if (calls =? 2)%nat then (inl (TimeoutError (Caught NaverShopClient.abortError)), S calls)
  else (inr {| page_items := [ bananaRaw ]; page_total := 7 |}, S calls).


(** * Specification vocabulary

    The predicates the theorems are stated with. *)

Section CounterSpec.
Context {js : JsBuiltins}.

(** What the counter looks at for one item, once an exclusion list is set. *)
Definition priceOkButExcluded (minPrice maxPrice : option Z) (opts : list ExcludeOption)
    (item : Item) : bool :=
  matchesPriceFilter item minPrice maxPrice && hasExcludeKeyword (titleText item) opts.

End CounterSpec.

(** What holds of every entry of the map while the items are scanned. *)
Definition entryOk (entry : Z * list Item) : Prop :=
  (1 <= length (snd entry) <= Config.MAX_ITEMS_PER_GROUP)%nat
  /\ Forall (fun item => lprice item = fst entry) (snd entry).

Definition mapOk (groupMap : JsMap.t (list Item)) : Prop :=
  List.NoDup (map fst groupMap) /\ Forall entryOk groupMap.

(** A price group that is well formed: what [groupByPrice] promises of each
    group it returns. *)
Definition groupOk (g : PriceGroup) : Prop :=
  pg_count g = length (pg_items g)
  /\ (1 <= pg_count g <= 20)%nat
  /\ Forall (fun item => lprice item = pg_price g) (pg_items g)
  /\ pg_representative g = head (pg_items g)
  /\ (exists first, pg_representative g = Some first).

(** The start offset of page [i], counting from zero. *)
Definition startOfPage (i : nat) : Z := 1 + Z.of_nat i * Config.DISPLAY_PER_PAGE.

Section FetchSpec.
Context {World : Type}.
Variable singlePage :
  string -> Z -> SortOption -> list ExcludeOption -> World -> (ApiError + Page) * World.
Variables (query : string) (sort : SortOption) (exclude : list ExcludeOption).

(** [FetchedInOrder w starts fetched w']: calling the single-page function
    for the offsets [starts], one after the other from world [w], succeeds
    every time, yields the pages [fetched] in that order and ends in [w']. *)
Inductive FetchedInOrder : World -> list Z -> list Page -> World -> Prop :=
| fetched_none (w : World) : FetchedInOrder w [] [] w
| fetched_next (w w1 w2 : World) (start : Z) (page : Page)
    (starts : list Z) (fetched : list Page) :
    singlePage query start sort exclude w = (inr page, w1) ->
    FetchedInOrder w1 starts fetched w2 ->
    FetchedInOrder w (start :: starts) (page :: fetched) w2.

End FetchSpec.

Section ControllerSpec.
Context {World : Type}.

(** [triple I m Q]: started on a trace that satisfies [I], the computation
    [m] leaves a trace that satisfies [I], whether it throws or not, and a
    value it returns satisfies [Q]. *)
Definition triple {A : Type} (I : list Event -> Prop) (m : M A) (Q : A -> Prop) : Prop :=
  forall (w : World) (trace : list Event),
    I trace ->
    I (snd (snd (m (w, trace))))
    /\ forall a, fst (m (w, trace)) = inr a -> Q a.

End ControllerSpec.

(** An event keeps the bounds of [filters]: a call of the filter engine is
    given them, reports them as applied and returns only items within them. *)
Definition boundsKept (filters : SearchFilters) (e : Event) : Prop :=
  match e with
  | FilterCall passed result =>
      sf_minPrice passed = sf_minPrice filters
      /\ sf_maxPrice passed = sf_maxPrice filters
      /\ af_minPrice (fr_appliedFilters result) = sf_minPrice filters
      /\ af_maxPrice (fr_appliedFilters result) = sf_maxPrice filters
      /\ Forall (fun item =>
                   matchesPriceFilter item (sf_minPrice filters) (sf_maxPrice filters) = true)
                (fr_items result)
  | FetchCall _ _ | Relaxed _ => True
  end.


(** The items of one price, in their order of arrival. *)
Definition atPrice (price : Z) (items : list Item) : list Item :=
  List.filter (fun item => lprice item =? price) items.

(** The map after the items [seen] have been scanned: under each price that
    occurred, the first items of that price, up to the cap. *)
Definition groupedSoFar (seen : list Item) (groupMap : JsMap.t (list Item)) : Prop :=
  forall price,
    JsMap.get groupMap price
    = match atPrice price seen with
      | [] => None
      | _ :: _ => Some (firstn Config.MAX_ITEMS_PER_GROUP (atPrice price seen))
      end.


Definition sameStep (a b : RelaxationStep) : bool :=
  match a, b with
  | dropFilterNoise, dropFilterNoise
  | dropExclude, dropExclude
  | reducePages, reducePages
  | increasePages, increasePages => true
  | _, _ => false
  end.

(** Is a step in a relaxation log. *)
Definition hasStep (step : RelaxationStep) (log : list RelaxationStep) : bool :=
  existsb (sameStep step) log.

(** A complete tag: a ["<"] with a [">"] somewhere after it. *)
Fixpoint hasTag (s : string) : bool :=
  match s with
  | EmptyString => false
  | String c s' =>
      (Ascii.eqb c "<"%char
       && match Text.afterClose s' with Some _ => true | None => false end)
      || hasTag s'
  end.




(** The pipeline takes a page at the type [fetchSinglePage] declares for it.
    [pagesAsDeclared fetch env singlePage] says that [singlePage] is the
    client run over the network [fetch], and that the network keeps to the
    response schema: a call that fails fails the same way, a validated page
    is passed on as it is, and no call ends in a best-effort page, whose
    [items] and [total] are whatever JSON the body held. *)
Definition pagesAsDeclared {World : Type}
    (fetch : NaverShopClient.Request -> World -> NaverShopClient.FetchOutcome * World)
    (env : NaverShopClient.Env)
    (singlePage :
       string -> Z -> SortOption -> list ExcludeOption -> World -> (ApiError + Page) * World)
    : Prop :=
  forall query start sort exclude w,
    match NaverShopClient.fetchSinglePage fetch env query start sort exclude w with
    | (inl error, w') => singlePage query start sort exclude w = (inl error, w')
    | (inr (NaverShopClient.Validated items total), w') =>
        singlePage query start sort exclude w
        = (inr {| page_items := items; page_total := total |}, w')
    | (inr (NaverShopClient.BestEffort _ _), _) => False
    end.

(** The sum of the prices of a list of groups, each price counted once for
    every item of its group. *)
Definition weightedPriceSum (groups : list PriceGroup) : Z :=
  fold_left (fun sum g => sum + pg_price g * Z.of_nat (pg_count g)) groups 0.
(** * Properties *)

(** ** The stable sort *)

Module SortFacts.
Import JsArray.

Section Facts.
Context {A : Type} (key : A -> Z).

Lemma insertByKey_perm (x : A) (l : list A) :
  Permutation (insertByKey key x l) (x :: l).
Proof.
  induction l as [|y l IH]; simpl; [reflexivity|].
  destruct (key x <=? key y); [reflexivity|].
  rewrite IH. apply perm_swap.
Qed.

Lemma sortBy_perm (l : list A) : Permutation (sortBy key l) l.
Proof.
  induction l as [|x l IH]; simpl; [reflexivity|].
  rewrite insertByKey_perm. now constructor.
Qed.

Lemma sortBy_length (l : list A) : length (sortBy key l) = length l.
Proof. apply Permutation_length, sortBy_perm. Qed.

Lemma sortBy_In (x : A) (l : list A) : In x (sortBy key l) <-> In x l.
Proof.
  split; apply Permutation_in; [|symmetry]; apply sortBy_perm.
Qed.

Lemma insertByKey_sorted (x : A) (l : list A) :
  Sorted (keyLe key) l -> Sorted (keyLe key) (insertByKey key x l).
Proof.
  induction l as [|y l IH]; simpl; intros Hs.
  - repeat constructor.
  - destruct (Z.leb_spec (key x) (key y)) as [Hle|Hgt].
    + constructor; [assumption|]. constructor. exact Hle.
    + inversion Hs as [|? ? Hs' Hhd]; subst.
      constructor; [auto|].
      destruct l as [|z l]; simpl.
      * constructor. unfold keyLe. lia.
      * destruct (Z.leb_spec (key x) (key z)).
        -- constructor. unfold keyLe. lia.
        -- inversion Hhd; subst. now constructor.
Qed.

Lemma sortBy_sorted (l : list A) : Sorted (keyLe key) (sortBy key l).
Proof.
  induction l as [|x l IH]; simpl; [constructor|].
  now apply insertByKey_sorted.
Qed.

(** Sorting an array that is already in order leaves it as it is. *)
Lemma sortBy_of_sorted (l : list A) : Sorted (keyLe key) l -> sortBy key l = l.
Proof.
  induction l as [|x l IH]; simpl; intros Hs; [reflexivity|].
  inversion Hs as [|? ? Hs' Hhd]; subst.
  rewrite IH by assumption.
  destruct l as [|y l]; simpl; [reflexivity|].
  inversion Hhd as [|? ? Hle]; subst. unfold keyLe in Hle.
  destruct (Z.leb_spec (key x) (key y)); [reflexivity|lia].
Qed.

Lemma sortBy_idem (l : list A) : sortBy key (sortBy key l) = sortBy key l.
Proof. apply sortBy_of_sorted, sortBy_sorted. Qed.

(** Stability: the elements of any one key keep their order of arrival. *)
Lemma insertByKey_filter_same (k : Z) (x : A) (l : list A) :
  Sorted (keyLe key) l ->
  List.filter (fun a => key a =? k) (insertByKey key x l)
  = List.filter (fun a => key a =? k) (x :: l).
Proof.
  induction l as [|y l IH]; intros Hs; [reflexivity|].
  cbn [insertByKey].
  destruct (Z.leb_spec (key x) (key y)) as [Hle|Hgt]; [reflexivity|].
  inversion Hs; subst.
  cbn [List.filter]. rewrite IH by assumption. cbn [List.filter].
  destruct (Z.eqb_spec (key y) k), (Z.eqb_spec (key x) k); try reflexivity; lia.
Qed.

Lemma sortBy_stable (k : Z) (l : list A) :
  List.filter (fun a => key a =? k) (sortBy key l) = List.filter (fun a => key a =? k) l.
Proof.
  induction l as [|x l IH]; [reflexivity|].
  cbn [sortBy fold_right]. fold (sortBy key l).
  rewrite insertByKey_filter_same by apply sortBy_sorted.
  cbn [List.filter]. now rewrite IH.
Qed.

End Facts.

End SortFacts.

(** ** The filter engine *)

Section FilterFacts.
Context {js : JsBuiltins}.

Lemma matchesPriceFilter_true (item : Item) (minPrice maxPrice : option Z) :
  matchesPriceFilter item minPrice maxPrice = true <->
  0 < lprice item /\
  (forall m, minPrice = Some m -> m <= lprice item) /\
  (forall m, maxPrice = Some m -> lprice item <= m).
Proof.
  unfold matchesPriceFilter.
  destruct (Z.leb_spec (lprice item) 0) as [Hle|Hgt].
  - split; [discriminate|lia].
  - destruct minPrice as [lo|], maxPrice as [hi|];
      repeat match goal with
             | |- context [?a <? ?b] => destruct (Z.ltb_spec a b)
             | |- context [?a >? ?b] => rewrite (Z.gtb_ltb a b)
             end;
      split; try discriminate; try reflexivity;
      try (intros (_ & Hlo & Hhi);
           try specialize (Hlo _ eq_refl); try specialize (Hhi _ eq_refl); lia);
      intros _; (split; [lia|]); split; intros m Hm; inversion Hm; subst; lia.
Qed.

Lemma matchesFilters_price (item : Item) minPrice maxPrice excludeOptions filterNoise :
  matchesFilters item minPrice maxPrice excludeOptions filterNoise = true ->
  matchesPriceFilter item minPrice maxPrice = true.
Proof.
  unfold matchesFilters.
  destruct (matchesPriceFilter item minPrice maxPrice); [reflexivity|discriminate].
Qed.

(** *** Deduplication by link *)

Lemma dedupFrom_In (seen : gset string) (items : list Item) (x : Item) :
  In x (dedupFrom seen items) -> In x items /\ link x ∉ seen.
Proof.
  revert seen; induction items as [|item rest IH]; intros seen; simpl; [tauto|].
  case_bool_decide as Hseen.
  - intros Hin. apply IH in Hin. tauto.
  - intros [<-|Hin]; [tauto|].
    apply IH in Hin as [Hin Hnot]. split; [tauto|].
    intros Hc. apply Hnot, elem_of_union. now right.
Qed.

Lemma dedupFrom_NoDup (seen : gset string) (items : list Item) :
  List.NoDup (map link (dedupFrom seen items)).
Proof.
  revert seen; induction items as [|item rest IH]; intros seen; simpl.
  - constructor.
  - case_bool_decide as Hseen; [apply IH|].
    simpl. constructor; [|apply IH].
    intros Hin. apply in_map_iff in Hin as (y & Hlink & Hy).
    apply dedupFrom_In in Hy as [_ Hnot]. set_solver.
Qed.

(** A list whose links are all different and unseen passes unchanged. *)
Lemma dedupFrom_id (seen : gset string) (items : list Item) :
  List.NoDup (map link items) ->
  (forall x, In x items -> link x ∉ seen) ->
  dedupFrom seen items = items.
Proof.
  revert seen; induction items as [|item rest IH]; intros seen Hnd Hseen; simpl; [reflexivity|].
  simpl in Hnd. apply List.NoDup_cons_iff in Hnd as [Hnotin Hnd].
  case_bool_decide as Hs.
  - exfalso. apply (Hseen item); [now left|assumption].
  - f_equal. apply IH; [assumption|].
    intros x Hx. specialize (Hseen x (or_intror Hx)).
    assert (link x <> link item).
    { intros Heq. apply Hnotin. rewrite <- Heq. now apply in_map. }
    apply not_elem_of_union. split; [now rewrite elem_of_singleton|assumption].
Qed.

Lemma deduplicateByLink_In (items : list Item) (x : Item) :
  In x (deduplicateByLink items) -> In x items.
Proof. intros Hin. now apply dedupFrom_In in Hin. Qed.

Lemma deduplicateByLink_NoDup (items : list Item) :
  List.NoDup (map link (deduplicateByLink items)).
Proof. apply dedupFrom_NoDup. Qed.

Lemma deduplicateByLink_id (items : list Item) :
  List.NoDup (map link items) -> deduplicateByLink items = items.
Proof. intros Hnd. apply dedupFrom_id; [assumption|set_solver]. Qed.

(** *** The whole pass *)

Lemma filter_all {A : Type} (p : A -> bool) (l : list A) :
  (forall x, In x l -> p x = true) -> List.filter p l = l.
Proof.
  induction l as [|a l IH]; intros Hall; simpl; [reflexivity|].
  rewrite (Hall a) by now left. f_equal. apply IH. intros; apply Hall; now right.
Qed.

Lemma applyFiltersAndProcess_In items minPrice maxPrice excludeOptions filterNoise x :
  In x (applyFiltersAndProcess items minPrice maxPrice excludeOptions filterNoise) ->
  In x items /\ matchesFilters x minPrice maxPrice excludeOptions filterNoise = true.
Proof.
  unfold applyFiltersAndProcess, sortByPriceAsc. intros Hin.
  apply SortFacts.sortBy_In, deduplicateByLink_In, filter_In in Hin. exact Hin.
Qed.

Lemma applyFiltersAndProcess_NoDup items minPrice maxPrice excludeOptions filterNoise :
  List.NoDup (map link (applyFiltersAndProcess items minPrice maxPrice excludeOptions filterNoise)).
Proof.
  unfold applyFiltersAndProcess, sortByPriceAsc.
  eapply Permutation_NoDup; [|apply deduplicateByLink_NoDup].
  symmetry. apply Permutation_map, SortFacts.sortBy_perm.
Qed.

Lemma applyFiltersAndProcess_sorted items minPrice maxPrice excludeOptions filterNoise :
  Sorted (JsArray.keyLe lprice)
    (applyFiltersAndProcess items minPrice maxPrice excludeOptions filterNoise).
Proof. apply SortFacts.sortBy_sorted. Qed.

(** Running the pass on its own output changes nothing. *)
Lemma applyFiltersAndProcess_idem items minPrice maxPrice excludeOptions filterNoise :
  let out := applyFiltersAndProcess items minPrice maxPrice excludeOptions filterNoise in
  applyFiltersAndProcess out minPrice maxPrice excludeOptions filterNoise = out.
Proof.
  intros out. unfold applyFiltersAndProcess at 1.
  rewrite filter_all.
  - rewrite deduplicateByLink_id by apply applyFiltersAndProcess_NoDup.
    apply SortFacts.sortBy_of_sorted, applyFiltersAndProcess_sorted.
  - intros x Hx. now apply applyFiltersAndProcess_In in Hx.
Qed.

Lemma filterAndSortItems_items (rawItems : list NaverShopRawItem) (filters : SearchFilters) :
  exists filterNoise,
    fr_items (filterAndSortItems rawItems filters)
    = applyFiltersAndProcess (map transformRawItem rawItems)
        (sf_minPrice filters) (sf_maxPrice filters) (sf_exclude filters) filterNoise
    /\ af_filterNoise (fr_appliedFilters (filterAndSortItems rawItems filters)) = filterNoise.
Proof.
  unfold filterAndSortItems.
  destruct ((length _ =? 0)%nat && sf_filterNoise filters); simpl; eauto.
Qed.

(** C3: an item whose [lprice] is zero or negative fails the price-bound
    check whatever the bounds are (both [null] included), so it fails the
    whole filter chain and is in no filtered result, neither of one pass nor
    of [filterAndSortItems]. *)
Theorem nonpositive_price_excluded (item : Item) (minPrice maxPrice : option Z) :
  lprice item <= 0 ->
  matchesPriceFilter item minPrice maxPrice = false
  /\ (forall excludeOptions filterNoise,
        matchesFilters item minPrice maxPrice excludeOptions filterNoise = false)
  /\ (forall items excludeOptions filterNoise,
        ~ In item (applyFiltersAndProcess items minPrice maxPrice excludeOptions filterNoise))
  /\ (forall rawItems filters,
        sf_minPrice filters = minPrice -> sf_maxPrice filters = maxPrice ->
        ~ In item (fr_items (filterAndSortItems rawItems filters))).
Proof.
  intros Hle.
  assert (Hprice : matchesPriceFilter item minPrice maxPrice = false).
  { unfold matchesPriceFilter. destruct (Z.leb_spec (lprice item) 0); [reflexivity|lia]. }
  assert (Hall : forall e n, matchesFilters item minPrice maxPrice e n = false).
  { intros e n. unfold matchesFilters. now rewrite Hprice. }
  repeat split; try assumption.
  - intros items e n Hin. apply applyFiltersAndProcess_In in Hin as [_ Hm].
    rewrite Hall in Hm. discriminate.
  - intros rawItems filters <- <- Hin.
    destruct (filterAndSortItems_items rawItems filters) as (n & Heq & _).
    rewrite Heq in Hin. apply applyFiltersAndProcess_In in Hin as [_ Hm].
    rewrite Hall in Hm. discriminate.
Qed.

(** C5: the filter, link-deduplication and price-ascending sort, applied to
    their own output with the same configuration, return a list with the
    same number of items. *)
Theorem filter_engine_idempotent_count
    (items : list Item) (minPrice maxPrice : option Z)
    (excludeOptions : option (list ExcludeOption)) (filterNoise : bool) :
  length (applyFiltersAndProcess
            (applyFiltersAndProcess items minPrice maxPrice excludeOptions filterNoise)
            minPrice maxPrice excludeOptions filterNoise)
  = length (applyFiltersAndProcess items minPrice maxPrice excludeOptions filterNoise).
Proof.
  set (out := applyFiltersAndProcess items minPrice maxPrice excludeOptions filterNoise).
  unfold applyFiltersAndProcess at 1. unfold sortByPriceAsc.
  (* the sort keeps the number of items *)
  rewrite SortFacts.sortBy_length.
  (* the filter keeps every item of [out]: each one passed it before *)
  rewrite filter_all.
  - (* the links of [out] are all different: nothing is a duplicate *)
    rewrite deduplicateByLink_id; [reflexivity|].
    apply applyFiltersAndProcess_NoDup.
  - intros x Hx. apply applyFiltersAndProcess_In in Hx. tauto.
Qed.

End FilterFacts.

Lemma nonpositive_price_excluded_witness :
  lprice (sampleItem "banana" "https://shop.example/1" 0) <= 0
  /\ matchesPriceFilter
       (sampleItem "banana" "https://shop.example/1" 0) (Some 1000) (Some 50000) = false.
Proof.
  split; [simpl; lia|].
  apply (nonpositive_price_excluded (js := Reference.builtins)
           (sampleItem "banana" "https://shop.example/1" 0) (Some 1000) (Some 50000)).
  simpl; lia.
Defined.

(** ** The exclusion-keyword counter *)

Section CounterFacts.
Context {js : JsBuiltins}.

Lemma containsAnyKeyword_spec (text : string) (keywords : list string) :
  Text.containsAnyKeyword text keywords = true
  <-> exists keyword,
        In keyword keywords
        /\ Text.includes (toLowerCase text) (toLowerCase keyword) = true.
Proof. unfold Text.containsAnyKeyword. apply existsb_exists. Qed.

(** A title has an exclusion keyword when it holds, letter case aside, a
    keyword of one of the given categories. *)
Lemma hasExcludeKeyword_spec (text : string) (opts : list ExcludeOption) :
  hasExcludeKeyword text opts = true
  <-> exists option keyword,
        In option opts /\ In keyword (Config.EXCLUDE_KEYWORDS option)
        /\ Text.includes (toLowerCase text) (toLowerCase keyword) = true.
Proof.
  induction opts as [|o opts IH]; cbn [hasExcludeKeyword].
  - split; [discriminate|]. intros (? & ? & [] & _).
  - destruct (Text.containsAnyKeyword text (Config.EXCLUDE_KEYWORDS o)) eqn:Hc.
    + split; [intros _|reflexivity].
      apply containsAnyKeyword_spec in Hc as (keyword & Hin & Hinc).
      exists o, keyword. split; [now left|]. split; assumption.
    + rewrite IH. split.
      * intros (option & keyword & Hin & Hrest). exists option, keyword. split; [now right|].
        exact Hrest.
      * intros (option & keyword & [->|Hin] & Hkw & Hinc).
        -- assert (Text.containsAnyKeyword text (Config.EXCLUDE_KEYWORDS option) = true)
             as Htrue by (apply containsAnyKeyword_spec; eauto).
           congruence.
        -- exists option, keyword. auto.
Qed.

Lemma count_fold {A : Type} (p : A -> bool) (l : list A) (n : nat) :
  fold_left (fun count x => if p x then S count else count) l n
  = (n + length (List.filter p l))%nat.
Proof.
  revert n; induction l as [|x l IH]; intros n; simpl; [lia|].
  rewrite IH. destruct (p x); simpl; lia.
Qed.

(** C4, as the code has it: with no exclusion list ([null] or empty) the
    counter is zero; with a non-empty list it is the number of items that
    pass the price-bound check and whose title holds a keyword of one of the
    configured categories. *)
Theorem countExcludedByKeywords_spec
    (items : list Item) (minPrice maxPrice : option Z)
    (excludeOptions : option (list ExcludeOption)) :
  countExcludedByKeywords items minPrice maxPrice excludeOptions
  = match excludeOptions with
    | None | Some [] => O
    | Some opts => length (List.filter (priceOkButExcluded minPrice maxPrice opts) items)
    end.
Proof.
  unfold countExcludedByKeywords.
  destruct excludeOptions as [[|o opts]|]; try reflexivity.
  cbn [length Nat.eqb].
  rewrite <- (Nat.add_0_l (length _)), <- count_fold.
  generalize O. unfold priceOkButExcluded.
  induction items as [|x l IH]; intros n; [reflexivity|].
  cbn [fold_left]. rewrite IH. f_equal.
  destruct (matchesPriceFilter x minPrice maxPrice); reflexivity.
Qed.

End CounterFacts.

(** C4, counterexample: a second-hand laptop at 1000 passes the price-bound
    check and its title holds a keyword of the category [used]; the counter
    is 1 when [used] is configured and 0 when the exclusion list is [null] or
    empty, so it does depend on the configuration. *)
Lemma countExcludedByKeywords_depends_on_configuration :
  matchesPriceFilter usedLaptop None None = true
  /\ hasExcludeKeyword (js := Reference.builtins) (titleText usedLaptop) [used] = true
  /\ countExcludedByKeywords (js := Reference.builtins) [usedLaptop] None None (Some [used])
     = 1%nat
  /\ countExcludedByKeywords (js := Reference.builtins) [usedLaptop] None None None = 0%nat
  /\ countExcludedByKeywords (js := Reference.builtins) [usedLaptop] None None (Some []) = 0%nat
  /\ countExcludedByKeywords (js := Reference.builtins) [usedLaptop] None None None
     <> countExcludedByKeywords (js := Reference.builtins) [usedLaptop] None None (Some [used]).
Proof. vm_compute. repeat split; discriminate. Qed.

(** ** The outlier trim *)

(** C8: with fewer than five items the outlier trim returns its input as it
    is: every item, in the same order. *)
Theorem filterOutliers_small_sample (items : list Item) :
  (length items < 5)%nat -> filterOutliers items = items.
Proof.
  intros Hlt. unfold filterOutliers.
  destruct (Nat.ltb_spec (length items) 5); [reflexivity|lia].
Qed.

Lemma filterOutliers_small_sample_witness :
  (length [sampleItem "a" "l1" 100; sampleItem "b" "l2" 100; sampleItem "c" "l3" 100;
           sampleItem "d" "l4" 99999999] < 5)%nat
  /\ filterOutliers [sampleItem "a" "l1" 100; sampleItem "b" "l2" 100; sampleItem "c" "l3" 100;
                     sampleItem "d" "l4" 99999999]
     = [sampleItem "a" "l1" 100; sampleItem "b" "l2" 100; sampleItem "c" "l3" 100;
        sampleItem "d" "l4" 99999999].
Proof.
  split; [simpl; lia|].
  apply (filterOutliers_small_sample
           [sampleItem "a" "l1" 100; sampleItem "b" "l2" 100; sampleItem "c" "l3" 100;
            sampleItem "d" "l4" 99999999]).
  simpl; lia.
Defined.

(** ** Price groups *)

Module MapFacts.
Import JsMap.

Section Facts.
Context {V : Type}.

Lemma get_In (m : t V) (k : Z) (v : V) : get m k = Some v -> In (k, v) m.
Proof.
  induction m as [|[k' v'] m IH]; simpl; [discriminate|].
  destruct (Z.eqb_spec k' k) as [->|Hne].
  - intros [= ->]. now left.
  - intros Hg. right. auto.
Qed.

Lemma get_None (m : t V) (k : Z) : get m k = None -> ~ In k (map fst m).
Proof.
  induction m as [|[k' v'] m IH]; simpl; [tauto|].
  destruct (Z.eqb_spec k' k) as [->|Hne]; [discriminate|].
  intros Hg [Heq|Hin]; [congruence|]. now apply IH.
Qed.

Lemma set_In (m : t V) (k : Z) (v : V) (e : Z * V) :
  In e (set m k v) -> e = (k, v) \/ In e m.
Proof.
  induction m as [|[k' v'] m IH]; simpl.
  - intros [<-|[]]. now left.
  - destruct (Z.eqb_spec k' k) as [->|Hne]; simpl.
    + intros [<-|Hin]; tauto.
    + intros [<-|Hin]; [tauto|]. apply IH in Hin. tauto.
Qed.

Lemma set_keys (m : t V) (k : Z) (v : V) :
  map fst (set m k v)
  = match get m k with
    | Some _ => map fst m
    | None => map fst m ++ [k]
    end.
Proof.
  induction m as [|[k' v'] m IH]; simpl; [reflexivity|].
  destruct (Z.eqb_spec k' k) as [->|Hne]; simpl; [reflexivity|].
  rewrite IH. now destruct (get m k).
Qed.

Lemma set_NoDup (m : t V) (k : Z) (v : V) :
  List.NoDup (map fst m) -> List.NoDup (map fst (set m k v)).
Proof.
  intros Hnd. rewrite set_keys.
  destruct (get m k) eqn:Hg; [assumption|].
  apply get_None in Hg.
  apply (Permutation_NoDup (l := k :: map fst m)).
  - rewrite Permutation_app_comm. reflexivity.
  - now constructor.
Qed.

End Facts.
End MapFacts.

Section GroupFacts.

Lemma groupStep_ok (groupMap : JsMap.t (list Item)) (item : Item) :
  mapOk groupMap -> mapOk (groupStep groupMap item).
Proof.
  intros [Hnd Hall]. unfold groupStep.
  set (existing := match JsMap.get groupMap (lprice item) with
                   | Some l => l | None => [] end).
  destruct (Nat.ltb_spec (length existing) Config.MAX_ITEMS_PER_GROUP) as [Hlt|Hge];
    [|now split].
  split; [now apply MapFacts.set_NoDup|].
  apply List.Forall_forall. intros e He.
  apply MapFacts.set_In in He as [->|He]; [|now apply (proj1 (List.Forall_forall _ _) Hall)].
  unfold entryOk; simpl. rewrite length_app; simpl. split; [lia|].
  apply Forall_app. split; [|now repeat constructor].
  subst existing. destruct (JsMap.get groupMap (lprice item)) as [l|] eqn:Hg; [|constructor].
  apply MapFacts.get_In in Hg.
  apply (proj1 (List.Forall_forall _ _) Hall) in Hg. exact (proj2 Hg).
Qed.

Lemma groupFold_ok (items : list Item) (groupMap : JsMap.t (list Item)) :
  mapOk groupMap -> mapOk (fold_left groupStep items groupMap).
Proof.
  revert groupMap; induction items as [|x l IH]; intros m Hm; simpl; [assumption|].
  apply IH, groupStep_ok, Hm.
Qed.

Lemma slice0_firstn {A : Type} (l : list A) (end_ : Z) :
  exists n, JsArray.slice0 l end_ = firstn n l /\ (0 <= end_ -> Z.of_nat n <= end_).
Proof.
  unfold JsArray.slice0. eexists; split; [reflexivity|].
  intros Hpos. destruct (Z.ltb_spec end_ 0); lia.
Qed.

Lemma slice0_all {A : Type} (l : list A) (end_ : Z) :
  Z.of_nat (length l) <= end_ -> JsArray.slice0 l end_ = l.
Proof.
  intros Hle. unfold JsArray.slice0.
  destruct (Z.ltb_spec end_ 0); [lia|].
  rewrite Z.min_r by lia. rewrite Nat2Z.id. apply firstn_all.
Qed.

(** Keys in order and all different are in strictly increasing order. *)
Lemma sorted_distinct_strict {A : Type} (key : A -> Z) (l : list A) :
  Sorted (JsArray.keyLe key) l -> List.NoDup (map key l) ->
  StronglySorted (fun a b => key a < key b) l.
Proof.
  intros Hs Hnd.
  apply Sorted_StronglySorted in Hs;
    [|intros a b c; unfold JsArray.keyLe; lia].
  induction Hs as [|a l Hs IH Hall]; [constructor|].
  simpl in Hnd. apply List.NoDup_cons_iff in Hnd as [Hnotin Hnd].
  constructor; [auto|].
  apply List.Forall_forall. intros b Hb.
  pose proof (proj1 (List.Forall_forall _ _) Hall b Hb) as Hle. unfold JsArray.keyLe in Hle.
  assert (key a <> key b); [|lia].
  intros Heq. apply Hnotin. rewrite Heq. now apply in_map.
Qed.

Lemma In_firstn {A : Type} (n : nat) (l : list A) (x : A) : In x (firstn n l) -> In x l.
Proof.
  intros Hin. rewrite <- (firstn_skipn n l). apply in_or_app. now left.
Qed.

Lemma StronglySorted_firstn {A : Type} (R : A -> A -> Prop) (n : nat) (l : list A) :
  StronglySorted R l -> StronglySorted R (firstn n l).
Proof.
  intros Hs; revert n; induction Hs as [|a l Hs IH Hall]; intros [|n]; simpl;
    try constructor; auto.
  apply List.Forall_forall. intros b Hb. apply In_firstn in Hb.
  exact (proj1 (List.Forall_forall _ _) Hall b Hb).
Qed.

Lemma StronglySorted_map {A B : Type} (R : B -> B -> Prop) (f : A -> B) (l : list A) :
  StronglySorted (fun a b => R (f a) (f b)) l -> StronglySorted R (map f l).
Proof.
  induction 1 as [|a l Hs IH Hall]; simpl; constructor; auto.
  apply Forall_map. exact Hall.
Qed.

Lemma toPriceGroup_ok (entry : Z * list Item) : entryOk entry -> groupOk (toPriceGroup entry).
Proof.
  destruct entry as [price groupItems]. intros [Hlen Hall]; simpl in *.
  unfold groupOk, Config.MAX_ITEMS_PER_GROUP in *; simpl.
  repeat split; try assumption; try lia.
  destruct groupItems; simpl in *; [lia|eauto].
Qed.

Lemma pg_price_toPriceGroup (entry : Z * list Item) :
  pg_price (toPriceGroup entry) = fst entry.
Proof. now destruct entry. Qed.

Lemma StronglySorted_impl {A : Type} (R R' : A -> A -> Prop) (l : list A) :
  (forall a b, R a b -> R' a b) -> StronglySorted R l -> StronglySorted R' l.
Proof.
  intros Himpl. induction 1 as [|a l Hs IH Hall]; constructor; auto.
  eapply List.Forall_impl; [|exact Hall]. auto.
Qed.

Lemma groupMap_ok (items : list Item) : mapOk (fold_left groupStep items []).
Proof. apply groupFold_ok. split; constructor. Qed.

(** C10: every group [groupByPrice] returns has [count] equal to the length
    of its [items], between 1 and 20 items, all of the group's price, and the
    first of them as [representative]; the groups are in strictly increasing
    price order; and there are at most [maxGroups] of them, [maxGroups] being
    a number of groups, that is [maxGroups >= 0]. *)
Theorem groupByPrice_invariants (items : list Item) (maxGroups : Z) :
  Forall groupOk (groupByPrice items maxGroups)
  /\ StronglySorted (fun a b => pg_price a < pg_price b) (groupByPrice items maxGroups)
  /\ (0 <= maxGroups -> Z.of_nat (length (groupByPrice items maxGroups)) <= maxGroups).
Proof.
  unfold groupByPrice.
  destruct (length items =? 0)%nat.
  { repeat split; try constructor. simpl. lia. }
  pose proof (groupMap_ok items) as [Hnd Hall].
  set (groupMap := fold_left groupStep items []) in *.
  destruct (slice0_firstn (JsArray.sortBy fst groupMap) maxGroups) as (n & -> & Hn).
  repeat split.
  - apply List.Forall_forall. intros g Hg.
    apply in_map_iff in Hg as (entry & <- & Hin).
    apply toPriceGroup_ok.
    apply In_firstn, SortFacts.sortBy_In in Hin.
    exact (proj1 (List.Forall_forall _ _) Hall entry Hin).
  - apply StronglySorted_map.
    apply (StronglySorted_impl (fun a b => fst a < fst b)).
    { intros a b. now rewrite !pg_price_toPriceGroup. }
    apply StronglySorted_firstn, sorted_distinct_strict.
    + apply SortFacts.sortBy_sorted.
    + eapply Permutation_NoDup; [|exact Hnd].
      symmetry. apply Permutation_map, SortFacts.sortBy_perm.
  - intros Hpos. specialize (Hn Hpos).
    rewrite length_map. pose proof (firstn_le_length n (JsArray.sortBy fst groupMap)).
    assert (length (firstn n (JsArray.sortBy fst groupMap)) <= n)%nat; [|lia].
    rewrite length_firstn. lia.
Qed.

(** *** One price only *)

Lemma groupStep_single (price : Z) (acc : list Item) (x : Item) :
  lprice x = price ->
  (length acc < Config.MAX_ITEMS_PER_GROUP)%nat ->
  groupStep [(price, acc)] x = [(price, acc ++ [x])].
Proof.
  intros <- Hlt. unfold groupStep. cbn [JsMap.get]. rewrite Z.eqb_refl.
  destruct (Nat.ltb_spec (length acc) Config.MAX_ITEMS_PER_GROUP) as [_|Hge]; [|lia].
  cbn [JsMap.set]. now rewrite Z.eqb_refl.
Qed.

Lemma groupFold_single (price : Z) (items acc : list Item) :
  Forall (fun item => lprice item = price) items ->
  (length acc + length items <= Config.MAX_ITEMS_PER_GROUP)%nat ->
  fold_left groupStep items [(price, acc)] = [(price, acc ++ items)].
Proof.
  revert acc; induction items as [|x l IH]; intros acc Hall Hlen; cbn [fold_left].
  - now rewrite app_nil_r.
  - inversion Hall as [|? ? Hx Hl]; subst. cbn [length] in Hlen.
    rewrite groupStep_single by (auto; lia).
    rewrite IH; [now rewrite <- app_assoc|assumption|].
    rewrite length_app; cbn [length]; lia.
Qed.

Lemma groupByPrice_single (price : Z) (items : list Item) (maxGroups : Z) :
  items <> [] ->
  Forall (fun item => lprice item = price) items ->
  (length items <= Config.MAX_ITEMS_PER_GROUP)%nat ->
  1 <= maxGroups ->
  groupByPrice items maxGroups
  = [ {| pg_price := price; pg_count := length items; pg_items := items;
         pg_representative := head items |} ].
Proof.
  intros Hne Hall Hlen Hmax. unfold groupByPrice.
  destruct items as [|x l]; [congruence|]. clear Hne.
  cbn [length Nat.eqb fold_left].
  inversion Hall as [|? ? Hx Hl]; subst.
  change (groupStep [] x) with [(lprice x, [x])].
  rewrite groupFold_single by (cbn [length] in *; auto; lia).
  cbn [JsArray.sortBy fold_right JsArray.insertByKey].
  rewrite slice0_all by (simpl; lia).
  reflexivity.
Qed.

End GroupFacts.

Lemma groupByPrice_invariants_witness :
  0 <= 1
  /\ Z.of_nat (length (groupByPrice [sampleItem "a" "l1" 300; sampleItem "b" "l2" 100;
                                     sampleItem "c" "l3" 200] 1)) <= 1.
Proof.
  split; [lia|].
  apply (groupByPrice_invariants
           [sampleItem "a" "l1" 300; sampleItem "b" "l2" 100; sampleItem "c" "l3" 200] 1).
  lia.
Defined.

(** Outside the domain of [maxGroups], which no caller leaves: with three
    prices and [maxGroups = -1] the call [slice(0, -1)] drops the last group
    only, so two groups come back. *)
Lemma groupByPrice_negative_maxGroups :
  map pg_price (groupByPrice [sampleItem "a" "l1" 300; sampleItem "b" "l2" 100;
                              sampleItem "c" "l3" 200] (-1)) = [100; 200]
  /\ ~ (Z.of_nat (length (groupByPrice [sampleItem "a" "l1" 300; sampleItem "b" "l2" 100;
                                        sampleItem "c" "l3" 200] (-1))) <= -1).
Proof. vm_compute. split; [reflexivity|]. intros Hle. now apply Hle. Qed.

(** C9: twelve items, all with [lprice] 9900, make exactly one price group,
    of price 9900 and count 12, and the price-band summary over that group
    has [medianPrice] and [avgPrice] both 9900. *)
Theorem twelve_items_at_9900 (items : list Item) :
  length items = 12%nat ->
  Forall (fun item => lprice item = 9900) items ->
  groupByPrice items Config.TOP_N
  = [ {| pg_price := 9900; pg_count := 12; pg_items := items;
         pg_representative := head items |} ]
  /\ calculatePriceBand (groupByPrice items Config.TOP_N)
     = Some {| pb_minPrice := 9900; pb_maxPrice := 9900;
               pb_avgPrice := Some 9900; pb_medianPrice := Some 9900 |}.
Proof.
  intros Hlen Hall.
  assert (Hgroups : groupByPrice items Config.TOP_N
                    = [ {| pg_price := 9900; pg_count := 12; pg_items := items;
                           pg_representative := head items |} ]).
  { rewrite (groupByPrice_single 9900); try assumption.
    - now rewrite Hlen.
    - intros ->. discriminate.
    - rewrite Hlen. unfold Config.MAX_ITEMS_PER_GROUP. lia.
    - unfold Config.TOP_N. lia. }
  split; [exact Hgroups|].
  rewrite Hgroups. reflexivity.
Qed.

Lemma twelve_items_at_9900_witness :
  length twelveOffers = 12%nat
  /\ Forall (fun item => lprice item = 9900) twelveOffers
  /\ map pg_count (groupByPrice twelveOffers Config.TOP_N) = [12%nat]
  /\ calculatePriceBand (groupByPrice twelveOffers Config.TOP_N)
     = Some {| pb_minPrice := 9900; pb_maxPrice := 9900;
               pb_avgPrice := Some 9900; pb_medianPrice := Some 9900 |}.
Proof.
  assert (Hlen : length twelveOffers = 12%nat) by reflexivity.
  assert (Hall : Forall (fun item => lprice item = 9900) twelveOffers).
  { unfold twelveOffers. apply Forall_map. simpl. repeat constructor. }
  destruct (twelve_items_at_9900 twelveOffers Hlen Hall) as [Hgroups Hband].
  split; [exact Hlen|]. split; [exact Hall|]. split; [|exact Hband].
  rewrite Hgroups. reflexivity.
Defined.

(** ** The catalog client: all pages *)

Section StartValues.

Lemma startValuesFrom_spec (steps : nat) (i effectivePages : Z) (startValues : list Z) :
  0 <= i -> effectivePages <= Config.MAX_PAGES ->
  Z.of_nat steps = effectivePages - i ->
  startValuesFrom steps i effectivePages startValues
  = startValues ++ map startOfPage (seq (Z.to_nat i) steps).
Proof.
  unfold Config.MAX_PAGES.
  revert i startValues; induction steps as [|steps IH]; intros i acc Hi Hmax Hsteps;
    cbn [startValuesFrom seq map].
  - now rewrite app_nil_r.
  - destruct (Z.ltb_spec i effectivePages) as [Hlt|Hge]; [|lia].
    unfold Config.DISPLAY_PER_PAGE, Config.MAX_START_VALUE.
    rewrite Z.gtb_ltb. destruct (Z.ltb_spec 1000 (1 + i * 100)) as [Hbig|_]; [lia|].
    rewrite IH by lia. rewrite <- app_assoc. cbn [app].
    do 2 f_equal.
    + unfold startOfPage, Config.DISPLAY_PER_PAGE. rewrite Z2Nat.id by lia. reflexivity.
    + do 2 f_equal. lia.
Qed.

(** The offsets are 1, 101, 201, ...: one for each of the first
    [min(pages, 10)] pages. *)
Lemma calculateStartValues_spec (pages : Z) :
  calculateStartValues pages
  = map startOfPage (seq 0 (Z.to_nat (Z.min pages Config.MAX_PAGES))).
Proof.
  unfold calculateStartValues.
  destruct (Z.le_gt_cases (Z.min pages Config.MAX_PAGES) 0) as [Hle|Hgt].
  - replace (Z.to_nat (Z.min pages Config.MAX_PAGES)) with O by lia. reflexivity.
  - rewrite startValuesFrom_spec; try lia. reflexivity.
Qed.

End StartValues.

Lemma last_cons_default {A : Type} (a : A) (l : list A) (d : A) :
  List.last (a :: l) d = List.last l a.
Proof.
  revert a d; induction l as [|b l IH]; intros a d; [reflexivity|].
  change (List.last (a :: b :: l) d) with (List.last (b :: l) d).
  now rewrite !IH.
Qed.

Section AllPages.
Context {World : Type}.
Variable singlePage :
  string -> Z -> SortOption -> list ExcludeOption -> World -> (ApiError + Page) * World.
Variables (query : string) (sort : SortOption) (exclude : list ExcludeOption).

Lemma fetchFrom_spec (startValues : list Z) (allItems : list NaverShopRawItem)
    (totalFromApi : Z) (w w' : World) (result : Page) :
  fetchFrom singlePage query sort exclude startValues allItems totalFromApi w
  = (inr result, w')
  <-> exists fetched,
        FetchedInOrder singlePage query sort exclude w startValues fetched w'
        /\ page_items result = allItems ++ concat (map page_items fetched)
        /\ page_total result = List.last (map page_total fetched) totalFromApi.
Proof.
  revert allItems totalFromApi w.
  induction startValues as [|start rest IH]; intros allItems totalFromApi w;
    cbn [fetchFrom].
  - split.
    + intros [= <- <-]. exists []. cbn. rewrite app_nil_r. repeat split. constructor.
    + intros (fetched & Hf & Hitems & Htotal). inversion Hf; subst.
      cbn in *. rewrite app_nil_r in Hitems. destruct result; cbn in *; now subst.
  - destruct (singlePage query start sort exclude w) as [[error|page] w1] eqn:Hcall.
    + split; [discriminate|].
      intros (fetched & Hf & _). inversion Hf; subst. congruence.
    + rewrite IH. split.
      * intros (fetched & Hf & Hitems & Htotal).
        exists (page :: fetched). split; [econstructor; eassumption|].
        cbn [map concat]. rewrite app_assoc. split; [assumption|].
        rewrite Htotal. now rewrite last_cons_default.
      * intros (fetched & Hf & Hitems & Htotal). inversion Hf; subst.
        match goal with Hc : singlePage _ _ _ _ _ = _ |- _ =>
          rewrite Hcall in Hc; injection Hc as <- <- end.
        eexists; split; [eassumption|].
        cbn [map concat] in Hitems. rewrite app_assoc in Hitems. split; [assumption|].
        rewrite Htotal. cbn [map]. now rewrite last_cons_default.
Qed.

(** C6: [fetchAllPages] succeeds exactly when every page call succeeds, the
    pages being fetched one after the other for the offsets 1, 101, 201, ...;
    it then returns the items of the pages concatenated in that order, and
    as total the total of the last page fetched (no sum over the pages). *)
Theorem fetchAllPages_concatenates (pages : Z) (w w' : World) (result : Page) :
  fetchAllPages singlePage query pages sort exclude w = (inr result, w')
  <-> exists fetched,
        FetchedInOrder singlePage query sort exclude w
          (map startOfPage (seq 0 (Z.to_nat (Z.min pages Config.MAX_PAGES)))) fetched w'
        /\ page_items result = concat (map page_items fetched)
        /\ page_total result = List.last (map page_total fetched) 0.
Proof.
  unfold fetchAllPages. rewrite fetchFrom_spec, calculateStartValues_spec. reflexivity.
Qed.

End AllPages.

Lemma fetchAllPages_concatenates_witness :
  exists fetched,
    FetchedInOrder countingUpstream "banana" asc [used] 0%nat [1; 101; 201] fetched 3%nat
    /\ [ sampleRaw "banana" "1" "9900"; sampleRaw "banana" "101" "9900";
         sampleRaw "banana" "201" "9900" ] = concat (map page_items fetched)
    /\ 998 = List.last (map page_total fetched) 0.
Proof.
  apply (proj1 (fetchAllPages_concatenates countingUpstream "banana" asc [used] 3 0%nat 3%nat
                  {| page_items := [ sampleRaw "banana" "1" "9900";
                                     sampleRaw "banana" "101" "9900";
                                     sampleRaw "banana" "201" "9900" ];
                     page_total := 998 |})).
  vm_compute. reflexivity.
Defined.

(** ** The catalog client: one page *)

Module SinglePageFacts.
Import NaverShopClient.

Section Facts.
Context {World : Type}.
Variable fetch : Request -> World -> FetchOutcome * World.
Variable env : Env.
Variables (query : string) (start : Z) (sort : SortOption) (exclude : list ExcludeOption).

Let request (headers : list (string * string)) : Request :=
  {| req_endpoint := ENDPOINT;
     req_params := buildSearchParams query Config.DISPLAY_PER_PAGE start sort exclude;
     req_headers := headers |}.

(** X14: without credentials nothing is sent.  If either credential is
    unset or empty, [fetchSinglePage] fails with a [NaverApiError] that has
    no cause, and the world is left as it was: [fetch] is not called. *)
Lemma fetchSinglePage_no_credentials (w : World) :
  missing (NAVER_CLIENT_ID env) || missing (NAVER_CLIENT_SECRET env) = true ->
  exists message,
    fetchSinglePage fetch env query start sort exclude w
    = (inl (NaverApiError message NoOriginal), w).
Proof.
  intros Hmiss. unfold fetchSinglePage, buildHeaders. rewrite Hmiss. eauto.
Qed.

(** X15: a call that is aborted fails with a [TimeoutError].  If [fetch]
    rejects with an error named [AbortError], as the abort of the timer
    makes it do, [fetchSinglePage] fails with a [TimeoutError] that carries
    that error. *)
Lemma fetchSinglePage_timeout (w w' : World) (headers : list (string * string)) (e : JsError) :
  buildHeaders env = inr headers ->
  fetch (request headers) w = (FetchRejected e, w') ->
  err_name e = "AbortError" ->
  fetchSinglePage fetch env query start sort exclude w = (inl (TimeoutError (Caught e)), w').
Proof.
  intros Hh Hf Hname. unfold fetchSinglePage. rewrite Hh.
  fold (request headers). rewrite Hf. cbn [handleOutcome]. unfold rethrow.
  rewrite Hname. reflexivity.
Qed.

(** X16: a non-success status fails with a [NaverApiError] that carries the
    status, the status text and the body (the empty text if the body cannot
    be read); the body is not parsed. *)
Lemma fetchSinglePage_bad_status (w w' : World) (headers : list (string * string))
    (response : Response) :
  buildHeaders env = inr headers ->
  fetch (request headers) w = (FetchResolved response, w') ->
  resp_ok response = false ->
  exists message,
    fetchSinglePage fetch env query start sort exclude w
    = (inl (NaverApiError message
              (HttpFailure (resp_status response) (resp_statusText response)
                           (default "" (resp_text response)))), w').
Proof.
  intros Hh Hf Hok. unfold fetchSinglePage. rewrite Hh.
  fold (request headers). rewrite Hf. cbn [handleOutcome]. rewrite Hok.
  cbn [negb]. destruct (resp_text response); eauto.
Qed.

(** A body that matches the schema gives the validated fields. *)
Lemma fetchSinglePage_validated (w w' : World) (headers : list (string * string))
    (response : Response) (data : json) (items : list NaverShopRawItem) (total : Z) :
  buildHeaders env = inr headers ->
  fetch (request headers) w = (FetchResolved response, w') ->
  resp_ok response = true ->
  resp_json response = inr data ->
  safeParseResponse data = Some (items, total) ->
  fetchSinglePage fetch env query start sort exclude w = (inr (Validated items total), w').
Proof.
  intros Hh Hf Hok Hjson Hparse. unfold fetchSinglePage. rewrite Hh.
  fold (request headers). rewrite Hf. cbn [handleOutcome].
  now rewrite Hok, Hjson, Hparse.
Qed.

(** X17: a body that is JSON, is not [null] and does not match the schema
    gives a best-effort page and no error: [items] and [total] as they are in
    the body, unvalidated, the empty array and zero standing in for the
    missing ones. *)
Lemma fetchSinglePage_best_effort (w w' : World) (headers : list (string * string))
    (response : Response) (data : json) :
  buildHeaders env = inr headers ->
  fetch (request headers) w = (FetchResolved response, w') ->
  resp_ok response = true ->
  resp_json response = inr data ->
  safeParseResponse data = None ->
  data <> JNull ->
  exists items total,
    getProp data "items" = inr items /\ getProp data "total" = inr total
    /\ fetchSinglePage fetch env query start sort exclude w
       = (inr (BestEffort (nullish items (JArr [])) (nullish total (JNum 0))), w')
    /\ (items = None -> nullish items (JArr []) = JArr [])
    /\ (total = None -> nullish total (JNum 0) = JNum 0).
Proof.
  intros Hh Hf Hok Hjson Hparse Hnull. unfold fetchSinglePage. rewrite Hh.
  fold (request headers). rewrite Hf. cbn [handleOutcome].
  rewrite Hok, Hjson, Hparse. cbn [negb].
  destruct data; try congruence; cbn [getProp];
    eexists _, _; repeat split; now intros ->.
Qed.

(** The body [null] is JSON and does not match the schema, yet the call
    fails: reading [data.items] throws, and the [catch] block wraps the
    error. *)
Lemma fetchSinglePage_null_body (w w' : World) (headers : list (string * string))
    (response : Response) :
  buildHeaders env = inr headers ->
  fetch (request headers) w = (FetchResolved response, w') ->
  resp_ok response = true ->
  resp_json response = inr JNull ->
  safeParseResponse JNull = None
  /\ exists message error,
       fetchSinglePage fetch env query start sort exclude w
       = (inl (NaverApiError message (Caught error)), w')
       /\ err_name error = "TypeError".
Proof.
  intros Hh Hf Hok Hjson. split; [reflexivity|].
  unfold fetchSinglePage. rewrite Hh.
  fold (request headers). rewrite Hf. cbn [handleOutcome].
  rewrite Hok, Hjson. cbn. eauto.
Qed.

End Facts.

End SinglePageFacts.

(** C7, at the failing input: an HTTP 200 answer whose body is the JSON text
    [null].  The body parses as JSON and does not match the schema, and the
    call does not return a best-effort page: it throws a [NaverApiError]. *)
Theorem fetchSinglePage_null_body_fails :
  NaverShopClient.safeParseResponse NaverShopClient.JNull = None
  /\ NaverShopClient.fetchSinglePage
       (settling (NaverShopClient.FetchResolved (okResponse NaverShopClient.JNull)))
       sampleEnv "banana" 1 asc [used] 0%nat
     = (inl (NaverApiError "네이버 API 호출 중 오류가 발생했습니다"
               (Caught {| err_name := "TypeError";
                          err_message := "Cannot read properties of null" |})),
        1%nat).
Proof. split; reflexivity. Qed.

(** ** The relaxation controller *)

Section ControllerFacts.
Context {js : JsBuiltins} {World : Type}.
Variable singlePage :
  string -> Z -> SortOption -> list ExcludeOption -> World -> (ApiError + Page) * World.

Lemma triple_ret {A : Type} (I : list Event -> Prop) (a : A) (Q : A -> Prop) :
  Q a -> triple (World := World) I (ret a) Q.
Proof. intros HQ w trace HI. cbn. split; [assumption|]. now intros ? [= <-]. Qed.

Lemma triple_bind {A B : Type} (I : list Event -> Prop) (m : M A) (k : A -> M B)
    (Q1 : A -> Prop) (Q2 : B -> Prop) :
  triple (World := World) I m Q1 -> (forall a, Q1 a -> triple (World := World) I (k a) Q2) -> triple (World := World) I (bind m k) Q2.
Proof.
  intros Hm Hk w trace HI. unfold bind.
  destruct (Hm w trace HI) as [HI' HQ1].
  destruct (m (w, trace)) as [[error|a] [w' trace']]; cbn in *.
  - split; [assumption|discriminate].
  - apply (Hk a (HQ1 a eq_refl) w' trace' HI').
Qed.

Lemma triple_record (I : list Event -> Prop) (e : Event) :
  (forall trace, I trace -> I (trace ++ [e])) -> triple (World := World) I (record e) (fun _ => True).
Proof. intros He w trace HI. cbn. auto. Qed.

Lemma triple_await {A : Type} (I : list Event -> Prop)
    (call : World -> (ApiError + A) * World) :
  triple (World := World) I (await call) (fun _ => True).
Proof.
  intros w trace HI. unfold await. destruct (call w) as [r w']. cbn. auto.
Qed.

Lemma triple_weaken {A : Type} (I : list Event -> Prop) (m : M A) (Q Q' : A -> Prop) :
  (forall a, Q a -> Q' a) -> triple (World := World) I m Q -> triple (World := World) I m Q'.
Proof.
  intros Himpl Hm w trace HI. destruct (Hm w trace HI) as [HI' HQ]. split; auto.
Qed.

(** *** The price bounds *)

(** What [filterAndSortItems] does with the bounds it is given: it reports
    them as applied, and every item it returns is within them. *)
Lemma filterAndSortItems_bounds (rawItems : list NaverShopRawItem) (filters : SearchFilters) :
  af_minPrice (fr_appliedFilters (filterAndSortItems rawItems filters)) = sf_minPrice filters
  /\ af_maxPrice (fr_appliedFilters (filterAndSortItems rawItems filters)) = sf_maxPrice filters
  /\ Forall (fun item =>
               matchesPriceFilter item (sf_minPrice filters) (sf_maxPrice filters) = true)
            (fr_items (filterAndSortItems rawItems filters)).
Proof.
  split; [|split].
  - unfold filterAndSortItems. now destruct (_ && _).
  - unfold filterAndSortItems. now destruct (_ && _).
  - destruct (filterAndSortItems_items rawItems filters) as (n & -> & _).
    apply List.Forall_forall. intros x Hx.
    apply applyFiltersAndProcess_In in Hx as [_ Hm].
    eapply matchesFilters_price, Hm.
Qed.

Lemma triple_callFetch (I : list Event -> Prop) (query : string) (pages : Z)
    (exclude : list ExcludeOption) :
  (forall trace, I trace -> I (trace ++ [FetchCall pages exclude])) ->
  triple (World := World) I (callFetch singlePage query pages exclude) (fun _ => True).
Proof.
  intros HI. unfold callFetch.
  eapply triple_bind; [apply triple_record, HI|].
  intros _ _. apply triple_await.
Qed.

Lemma triple_callFilter (I : list Event -> Prop) (rawItems : list NaverShopRawItem)
    (passed : SearchFilters) :
  (forall trace, I trace ->
     I (trace ++ [FilterCall passed (filterAndSortItems rawItems passed)])) ->
  triple (World := World) I (callFilter rawItems passed)
         (fun result => result = filterAndSortItems rawItems passed).
Proof.
  intros HI. unfold callFilter.
  eapply triple_bind; [apply triple_record, HI|].
  intros _ _. now apply triple_ret.
Qed.

Lemma boundsKept_filter (filters passed : SearchFilters) (rawItems : list NaverShopRawItem)
    (trace : list Event) :
  sf_minPrice passed = sf_minPrice filters ->
  sf_maxPrice passed = sf_maxPrice filters ->
  Forall (boundsKept filters) trace ->
  Forall (boundsKept filters)
         (trace ++ [FilterCall passed (filterAndSortItems rawItems passed)]).
Proof.
  intros Hmin Hmax Ht. apply Forall_app. split; [assumption|]. constructor; [|constructor].
  destruct (filterAndSortItems_bounds rawItems passed) as (H1 & H2 & H3).
  cbn. rewrite <- Hmin, <- Hmax. auto.
Qed.

Lemma boundsKept_other (filters : SearchFilters) (e : Event) (trace : list Event) :
  boundsKept filters e ->
  Forall (boundsKept filters) trace -> Forall (boundsKept filters) (trace ++ [e]).
Proof. intros He Ht. apply Forall_app. split; [assumption|]. now repeat constructor. Qed.

Lemma relaxExclude_bounds (query : string) (filters : SearchFilters) (l : Locals) :
  triple (World := World) (Forall (boundsKept filters)) (relaxExclude singlePage query filters l)
         (fun _ => True).
Proof.
  unfold relaxExclude. destruct (_ && _); [|now apply triple_ret].
  eapply triple_bind; [apply triple_record; intros; now apply boundsKept_other|].
  intros _ _.
  eapply triple_bind; [apply triple_callFetch; intros; now apply boundsKept_other|].
  intros result _.
  eapply triple_bind;
    [apply triple_callFilter; intros; now apply boundsKept_filter|].
  intros ? _. now apply triple_ret.
Qed.

Lemma relaxPages_bounds (query : string) (filters : SearchFilters) (l : Locals) :
  triple (World := World) (Forall (boundsKept filters)) (relaxPages singlePage query filters l)
         (fun _ => True).
Proof.
  unfold relaxPages. destruct (_ && _); [|now apply triple_ret].
  eapply triple_bind; [apply triple_record; intros; now apply boundsKept_other|].
  intros _ _.
  eapply triple_bind; [apply triple_callFetch; intros; now apply boundsKept_other|].
  intros result _.
  eapply triple_bind;
    [apply triple_callFilter; intros; now apply boundsKept_filter|].
  intros ? _. now apply triple_ret.
Qed.

(** C1: in every run of [getLowestPrice], whichever relaxation rounds it
    goes through and whether or not a fetch fails on the way, each call of
    the filter engine is given the [minPrice] and [maxPrice] of the request,
    reports them as applied and returns only items within them; and the
    [appliedFilters] of the response carry the same two values (so they are
    not [null] unless the request's were). *)
Theorem price_bounds_never_relaxed (query : string) (filters : SearchFilters) (w : World) :
  let run := getLowestPrice singlePage query filters (w, []) in
  Forall (boundsKept filters) (snd (snd run))
  /\ forall response,
       fst run = inr response ->
       af_minPrice (lp_appliedFilters response) = sf_minPrice filters
       /\ af_maxPrice (lp_appliedFilters response) = sf_maxPrice filters.
Proof.
  assert (Hrun : triple (World := World) (Forall (boundsKept filters))
                   (getLowestPrice singlePage query filters)
                   (fun response =>
                      af_minPrice (lp_appliedFilters response) = sf_minPrice filters
                      /\ af_maxPrice (lp_appliedFilters response) = sf_maxPrice filters)).
  { unfold getLowestPrice.
    (* round 0: fetch, then filter with the bounds of the request *)
    eapply triple_bind; [apply triple_callFetch; intros; now apply boundsKept_other|].
    intros fetched _.
    eapply triple_bind; [apply triple_callFilter; intros; now apply boundsKept_filter|].
    intros filterResult0 _.
    (* the two relaxation steps of the controller *)
    eapply triple_bind; [apply relaxExclude_bounds|].
    intros l1 _.
    eapply triple_bind; [apply relaxPages_bounds|].
    intros l2 _.
    (* the response copies the two bounds *)
    destruct (extractTopResults _) as [[top1 top10Groups] priceBand].
    apply triple_ret. cbn. auto. }
  apply (Hrun w []). constructor.
Qed.

(** *** The relaxation steps and the log *)

Lemma filterAndSortItems_relaxation (rawItems : list NaverShopRawItem) (filters : SearchFilters) :
  let result := filterAndSortItems rawItems filters in
  ((fr_appliedRelaxation result = []
    /\ af_filterNoise (fr_appliedFilters result) = sf_filterNoise filters)
   \/ (fr_appliedRelaxation result = [dropFilterNoise]
       /\ sf_filterNoise filters = true
       /\ af_filterNoise (fr_appliedFilters result) = false))
  /\ ((length (fr_items result) =? 0)%nat = true ->
      af_filterNoise (fr_appliedFilters result) = false).
Proof.
  unfold filterAndSortItems.
  destruct ((length _ =? 0)%nat) eqn:Hempty; destruct (sf_filterNoise filters) eqn:Hn; cbn;
    rewrite ?Hempty; split; auto; try (right; auto); try (left; auto); try congruence.
Qed.

(** With the noise filter off, the filter engine takes no step of its own. *)
Lemma filterAndSortItems_quiet (rawItems : list NaverShopRawItem) (filters : SearchFilters) :
  sf_filterNoise filters = false ->
  fr_appliedRelaxation (filterAndSortItems rawItems filters) = [].
Proof.
  intros Hn. unfold filterAndSortItems. rewrite Hn, andb_false_r. reflexivity.
Qed.

Lemma gtb_one (pages : Z) : (pages >? 1) = true -> 1 < pages.
Proof. rewrite Z.gtb_ltb. now intros Hlt%Z.ltb_lt. Qed.

(** X30: what the controller does in every run, failed fetches included.  The
    steps are taken in the order [dropFilterNoise], [dropExclude],
    [reducePages], each at most once and only under its precondition.  The
    log of the response is the list of the steps taken, except that
    [dropFilterNoise] is missing from it as soon as one of the two later
    steps was taken: the log is put together from the last call of the filter
    engine, which no longer knows of the step taken in round 0. *)
Lemma relaxation_steps_and_log (query : string) (filters : SearchFilters) (w : World) :
  let run := getLowestPrice singlePage query filters (w, []) in
  exists noise excl pgs : bool,
    firedSteps (snd (snd run))
    = (if noise then [dropFilterNoise] else [])
      ++ (if excl then [dropExclude] else [])
      ++ (if pgs then [reducePages] else [])
    /\ (noise = true -> sf_filterNoise filters = true)
    /\ (excl = true -> nonEmptyOpt (sf_exclude filters) = true)
    /\ (pgs = true -> 1 < sf_pages filters)
    /\ forall response,
         fst run = inr response ->
         lp_appliedRelaxation response
         = (if noise && negb (excl || pgs) then [dropFilterNoise] else [])
           ++ (if excl then [dropExclude] else [])
           ++ (if pgs then [reducePages] else []).
Proof.
  unfold getLowestPrice, relaxExclude, relaxPages, callFetch, callFilter, bind, record,
    await, ret.
  cbn -[filterAndSortItems fetchAllPages extractTopResults].
  destruct (fetchAllPages singlePage query (sf_pages filters) asc _ w) as [[e0|p0] w0].
  { cbn. exists false, false, false. cbn. repeat split; try discriminate. }
  cbn -[filterAndSortItems fetchAllPages extractTopResults].
  set (f0 := Build_SearchFilters _ _ _ _ _ _).
  assert (Hr0 := filterAndSortItems_relaxation (page_items p0) f0).
  set (r0 := filterAndSortItems (page_items p0) f0) in *.
  cbn zeta in Hr0. destruct Hr0 as [Hrel0 Hempty0].
  assert (exists noise : bool,
            fr_appliedRelaxation r0 = (if noise then [dropFilterNoise] else [])
            /\ (noise = true -> sf_filterNoise filters = true)) as (noise & Hnoise & Hpre).
  { destruct Hrel0 as [[-> _]|(-> & Hn & _)]; [exists false|exists true];
      split; auto; discriminate. }
  clear Hrel0.
  destruct ((length (fr_items r0) =? 0)%nat && nonEmptyOpt (sf_exclude filters)) eqn:Hc1.
  - apply andb_prop in Hc1 as [Hlen0 Hex]. specialize (Hempty0 Hlen0).
    cbn -[filterAndSortItems fetchAllPages extractTopResults].
    destruct (fetchAllPages singlePage query (sf_pages filters) asc [] w0) as [[e1|p1] w1].
    { cbn -[filterAndSortItems]. exists noise, true, false. fold r0. rewrite Hnoise.
      repeat split; auto; try discriminate. }
    cbn -[filterAndSortItems fetchAllPages extractTopResults].
    rewrite Hempty0.
    set (f1 := Build_SearchFilters _ _ _ _ _ _).
    assert (Hq1 := filterAndSortItems_quiet (page_items p1) f1 eq_refl).
    set (r1 := filterAndSortItems (page_items p1) f1) in *.
    destruct ((length (fr_items r1) =? 0)%nat && (sf_pages filters >? 1)) eqn:Hc2.
    + apply andb_prop in Hc2 as [_ Hpages%gtb_one].
      cbn -[filterAndSortItems fetchAllPages extractTopResults].
      destruct (fetchAllPages singlePage query 1 asc [] w1) as [[e2|p2] w2].
      { cbn -[filterAndSortItems]. exists noise, true, true. fold r0 r1.
        rewrite Hnoise, Hq1. repeat split; auto; try discriminate. }
      cbn -[filterAndSortItems fetchAllPages extractTopResults].
      set (f2 := Build_SearchFilters _ _ _ _ _ _).
      assert (Hq2 := filterAndSortItems_quiet (page_items p2) f2 eq_refl).
      set (r2 := filterAndSortItems (page_items p2) f2) in *.
      destruct (extractTopResults _) as [[top1 top10Groups] priceBand].
      cbn -[filterAndSortItems]. exists noise, true, true. fold r0 r1 r2.
      rewrite Hnoise, Hq1, Hq2.
      repeat split; auto; try discriminate.
      intros response [= <-]. cbn. rewrite andb_false_r. reflexivity.
    + cbn -[filterAndSortItems fetchAllPages extractTopResults].
      destruct (extractTopResults _) as [[top1 top10Groups] priceBand].
      cbn -[filterAndSortItems]. exists noise, true, false. fold r0 r1.
      rewrite Hnoise, Hq1.
      repeat split; auto; try discriminate.
      intros response [= <-]. cbn. rewrite andb_false_r. reflexivity.
  - cbn -[filterAndSortItems fetchAllPages extractTopResults].
    destruct ((length (fr_items r0) =? 0)%nat && (sf_pages filters >? 1)) eqn:Hc2.
    + apply andb_prop in Hc2 as [_ Hpages%gtb_one].
      cbn -[filterAndSortItems fetchAllPages extractTopResults].
      destruct (fetchAllPages singlePage query 1 asc _ w0) as [[e2|p2] w2].
      { cbn -[filterAndSortItems]. exists noise, false, true. fold r0. rewrite Hnoise.
        repeat split; auto; try discriminate. }
      cbn -[filterAndSortItems fetchAllPages extractTopResults].
      set (f2 := Build_SearchFilters _ _ _ _ _ _).
      assert (Hq2 := filterAndSortItems_quiet (page_items p2) f2 eq_refl).
      set (r2 := filterAndSortItems (page_items p2) f2) in *.
      destruct (extractTopResults _) as [[top1 top10Groups] priceBand].
      cbn -[filterAndSortItems]. exists noise, false, true. fold r0 r2.
      rewrite Hnoise, Hq2.
      repeat split; auto; try discriminate.
      intros response [= <-]. cbn. rewrite andb_false_r. reflexivity.
    + cbn -[filterAndSortItems fetchAllPages extractTopResults].
      destruct (extractTopResults _) as [[top1 top10Groups] priceBand].
      cbn -[filterAndSortItems]. exists noise, false, false. fold r0.
      rewrite Hnoise.
      repeat split; auto; try discriminate.
      intros response [= <-]. cbn. rewrite andb_true_r, !app_nil_r. reflexivity.
Qed.

(** The filters of a normalized request: bounds that are present are not
    negative and are in order, and the page count is at most the maximum. *)
Lemma normalizeFilters_bounds (request : ValidatedSearchRequest) :
  let filters := normalizeFilters request in
  (forall lo, sf_minPrice filters = Some lo -> 0 <= lo)
  /\ (forall hi, sf_maxPrice filters = Some hi -> 0 <= hi)
  /\ (forall lo hi, sf_minPrice filters = Some lo -> sf_maxPrice filters = Some hi -> lo <= hi)
  /\ sf_pages filters <= Config.MAX_PAGES.
Proof.
  unfold normalizeFilters, dropNegative.
  destruct (rq_minPrice request) as [lo|], (rq_maxPrice request) as [hi|]; cbn;
    repeat match goal with
           | |- context [?a <? ?b] => destruct (Z.ltb_spec a b); cbn
           | |- context [?a >? ?b] => rewrite (Z.gtb_ltb a b)
           end;
    repeat split; intros; simplify_eq; lia.
Qed.

End ControllerFacts.

Lemma price_bounds_never_relaxed_witness :
  let run := getLowestPrice (js := Reference.builtins) emptyUpstream "banana" strictFilters
               (0%nat, []) in
  (exists response, fst run = inr response)
  /\ length (List.filter isFilterCall (snd (snd run))) = 3%nat
  /\ Forall (boundsKept strictFilters) (snd (snd run)).
Proof.
  split; [eexists; vm_compute; reflexivity|].
  split; [vm_compute; reflexivity|].
  apply (price_bounds_never_relaxed (js := Reference.builtins) emptyUpstream
           "banana" strictFilters 0%nat).
Defined.

(** C2, at the failing input: the noise filter on, [used] excluded, one page,
    and an upstream that finds nothing.  Round 0 is empty and drops the
    noise filter, then the exclusion is dropped; the steps taken are
    [dropFilterNoise] and [dropExclude], in that order, yet the log of the
    response holds [dropExclude] only. *)
Theorem relaxation_log_loses_noise_step :
  let run := getLowestPrice (js := Reference.builtins) emptyUpstream "banana" noisyUsedOnePage
               (0%nat, []) in
  firedSteps (snd (snd run)) = [dropFilterNoise; dropExclude]
  /\ match fst run with
     | inr response =>
         lp_appliedRelaxation response = [dropExclude]
         /\ af_filterNoise (lp_appliedFilters response) = false
     | inl _ => False
     end.
Proof. vm_compute. repeat split. Qed.

(** * Further properties *)

(** ** The filter engine, continued *)

Section FilterMore.
Context {js : JsBuiltins}.

(** X1: [sortByPriceAsc] returns the same items, rearranged: in ascending
    order of [lprice], the items of any one price in their order of
    arrival. *)
Theorem sortByPriceAsc_sorted_stable (items : list Item) :
  Permutation (sortByPriceAsc items) items
  /\ StronglySorted (fun a b => lprice a <= lprice b) (sortByPriceAsc items)
  /\ forall price,
       List.filter (fun item => lprice item =? price) (sortByPriceAsc items)
       = List.filter (fun item => lprice item =? price) items.
Proof.
  unfold sortByPriceAsc. split; [apply SortFacts.sortBy_perm|]. split.
  - apply Sorted_StronglySorted.
    + intros a b c. lia.
    + apply (SortFacts.sortBy_sorted lprice).
  - intros price. apply SortFacts.sortBy_stable.
Qed.

Lemma dedupFrom_sublist (seen : gset string) (items : list Item) :
  dedupFrom seen items `sublist_of` items.
Proof.
  revert seen; induction items as [|item rest IH]; intros seen; cbn [dedupFrom].
  - constructor.
  - case_bool_decide; [apply sublist_cons|apply sublist_skip]; apply IH.
Qed.

Lemma dedupFrom_links (seen : gset string) (items : list Item) (l : string) :
  In l (map link (dedupFrom seen items)) <-> In l (map link items) /\ l ∉ seen.
Proof.
  revert seen; induction items as [|item rest IH]; intros seen; cbn [dedupFrom map In].
  - tauto.
  - case_bool_decide as Hseen.
    + rewrite IH. split; [tauto|].
      intros [[<-|Hin] Hnot]; [contradiction|tauto].
    + cbn [map In]. rewrite IH, not_elem_of_union, elem_of_singleton. split.
      * intros [<-|(Hin & Hne & Hnot)]; tauto.
      * intros [[<-|Hin] Hnot]; [tauto|].
        destruct (decide (l = link item)) as [->|Hne]; [tauto|]. right. tauto.
Qed.

Lemma dedupFrom_first (seen : gset string) (items : list Item) (x : Item) :
  In x (dedupFrom seen items) ->
  exists before after,
    items = before ++ x :: after /\ ~ In (link x) (map link before).
Proof.
  revert seen; induction items as [|item rest IH]; intros seen; cbn [dedupFrom]; [intros []|].
  case_bool_decide as Hseen.
  - intros Hin. pose proof (dedupFrom_In _ _ _ Hin) as [_ Hnot].
    destruct (IH _ Hin) as (before & after & -> & Hfirst).
    exists (item :: before), after. split; [reflexivity|].
    cbn [map In]. intros [Heq|Hb]; [|tauto]. rewrite Heq in Hseen. contradiction.
  - intros [<-|Hin].
    + exists [], rest. split; [reflexivity|]. intros [].
    + pose proof (dedupFrom_In _ _ _ Hin) as [_ Hnot].
      destruct (IH _ Hin) as (before & after & -> & Hfirst).
      exists (item :: before), after. split; [reflexivity|].
      cbn [map In]. intros [Heq|Hb]; [|tauto].
      apply Hnot, elem_of_union. left. now apply elem_of_singleton.
Qed.

(** X2: [deduplicateByLink] keeps, of the items of each link, the first one
    and no other: the links of the result are all different, they are the
    links of the input, the result is the input with items left out (the
    order is kept), and no item before a kept item has its link. *)
Theorem deduplicateByLink_first_occurrences (items : list Item) :
  List.NoDup (map link (deduplicateByLink items))
  /\ (forall l, In l (map link (deduplicateByLink items)) <-> In l (map link items))
  /\ deduplicateByLink items `sublist_of` items
  /\ forall x, In x (deduplicateByLink items) ->
       exists before after,
         items = before ++ x :: after /\ ~ In (link x) (map link before).
Proof.
  unfold deduplicateByLink. split; [apply dedupFrom_NoDup|]. split; [|split].
  - intros l. rewrite dedupFrom_links. split; [tauto|].
    intros Hin. split; [assumption|]. apply not_elem_of_empty.
  - apply dedupFrom_sublist.
  - intros x. apply dedupFrom_first.
Qed.

Lemma applyFiltersAndProcess_links items minPrice maxPrice excludeOptions filterNoise x :
  In x items ->
  matchesFilters x minPrice maxPrice excludeOptions filterNoise = true ->
  In (link x)
     (map link (applyFiltersAndProcess items minPrice maxPrice excludeOptions filterNoise)).
Proof.
  intros Hin Hm. unfold applyFiltersAndProcess, sortByPriceAsc.
  eapply Permutation_in.
  - symmetry. apply Permutation_map, SortFacts.sortBy_perm.
  - unfold deduplicateByLink. apply dedupFrom_links. split; [|apply not_elem_of_empty].
    apply in_map, filter_In. split; assumption.
Qed.

(** X3: what one pass of the filter engine returns.  Every item of the
    output is an item of the input that passes the filter chain; the links of
    the output are all different; the output is in ascending order of
    [lprice]; and nothing that passes is lost but duplicates: the link of
    every passing item of the input is the link of an item of the output. *)
Theorem applyFiltersAndProcess_output
    (items : list Item) (minPrice maxPrice : option Z)
    (excludeOptions : option (list ExcludeOption)) (filterNoise : bool) :
  let out := applyFiltersAndProcess items minPrice maxPrice excludeOptions filterNoise in
  Forall (fun x => In x items
                   /\ matchesFilters x minPrice maxPrice excludeOptions filterNoise = true) out
  /\ List.NoDup (map link out)
  /\ StronglySorted (fun a b => lprice a <= lprice b) out
  /\ forall x, In x items ->
       matchesFilters x minPrice maxPrice excludeOptions filterNoise = true ->
       In (link x) (map link out).
Proof.
  cbv zeta. split; [|split; [|split]].
  - apply List.Forall_forall. intros x Hx. now apply applyFiltersAndProcess_In in Hx.
  - apply applyFiltersAndProcess_NoDup.
  - apply Sorted_StronglySorted; [intros a b c; lia|].
    apply applyFiltersAndProcess_sorted.
  - intros x. apply applyFiltersAndProcess_links.
Qed.

End FilterMore.

Section EngineMore.
Context {js : JsBuiltins}.

Lemma hasExcludeKeyword_guard (text : string) (opts : list ExcludeOption) :
  (0 <? length opts)%nat && hasExcludeKeyword text opts = hasExcludeKeyword text opts.
Proof. now destruct opts. Qed.

Lemma matchesFilters_true (item : Item) minPrice maxPrice excludeOptions filterNoise :
  matchesFilters item minPrice maxPrice excludeOptions filterNoise = true <->
  matchesPriceFilter item minPrice maxPrice = true
  /\ (forall opts, excludeOptions = Some opts -> hasExcludeKeyword (titleText item) opts = false)
  /\ (filterNoise = true -> hasNoiseKeyword (titleText item) = false).
Proof.
  unfold matchesFilters.
  destruct (matchesPriceFilter item minPrice maxPrice); cbn [negb];
    [|split; [discriminate|intros [? _]; discriminate]].
  assert (Hnoise : (if filterNoise && hasNoiseKeyword (titleText item) then false else true)
                   = true
                   <-> (filterNoise = true -> hasNoiseKeyword (titleText item) = false)).
  { destruct filterNoise, (hasNoiseKeyword (titleText item)); cbn; split; auto;
      try discriminate. intros Hn. now specialize (Hn eq_refl). }
  destruct excludeOptions as [opts|].
  - rewrite hasExcludeKeyword_guard.
    destruct (hasExcludeKeyword (titleText item) opts) eqn:Hex.
    + split; [discriminate|]. intros (_ & He & _). specialize (He _ eq_refl). congruence.
    + rewrite Hnoise. split.
      * intros Hn. split; [reflexivity|]. split; [|assumption]. now intros ? [= <-].
      * tauto.
  - rewrite Hnoise. split.
    + intros Hn. split; [reflexivity|]. split; [discriminate|assumption].
    + tauto.
Qed.

(** X4: what [filterAndSortItems] enforces on every item it returns, with or
    without relaxation: a positive price inside the bounds of the filters, no
    keyword of a configured exclusion category in the title, and no noise
    keyword unless the noise filter is reported as off.  The exclusion list
    and the page count are reported as given. *)
Theorem filterAndSortItems_enforces (rawItems : list NaverShopRawItem) (filters : SearchFilters) :
  let result := filterAndSortItems rawItems filters in
  Forall (fun item =>
            0 < lprice item
            /\ (forall lo, sf_minPrice filters = Some lo -> lo <= lprice item)
            /\ (forall hi, sf_maxPrice filters = Some hi -> lprice item <= hi)
            /\ (forall opts, sf_exclude filters = Some opts ->
                  hasExcludeKeyword (titleText item) opts = false)
            /\ (af_filterNoise (fr_appliedFilters result) = true ->
                  hasNoiseKeyword (titleText item) = false))
         (fr_items result)
  /\ af_exclude (fr_appliedFilters result) = sf_exclude filters
  /\ af_pages (fr_appliedFilters result) = sf_pages filters.
Proof.
  cbv zeta.
  destruct (filterAndSortItems_items rawItems filters) as (noise & Hitems & Hnoise).
  split.
  - rewrite Hitems, Hnoise. apply List.Forall_forall. intros item Hin.
    apply applyFiltersAndProcess_In in Hin as [_ Hm].
    apply matchesFilters_true in Hm as (Hprice & Hex & Hn).
    apply matchesPriceFilter_true in Hprice as (Hpos & Hlo & Hhi).
    repeat split; auto.
  - unfold filterAndSortItems. destruct (_ && _); split; reflexivity.
Qed.

(** X5: [filterAndSortItems] relaxes the noise filter and nothing else, and
    only when it must.  If the pass with the filters as given returns an item,
    or the noise filter is off, that pass is the result and no step is
    recorded.  Otherwise the result is the pass with the noise filter off and
    the step [dropFilterNoise] is recorded. *)
Theorem filterAndSortItems_relaxes_only_noise
    (rawItems : list NaverShopRawItem) (filters : SearchFilters) :
  let items := map transformRawItem rawItems in
  let pass := applyFiltersAndProcess items (sf_minPrice filters) (sf_maxPrice filters)
                (sf_exclude filters) in
  let result := filterAndSortItems rawItems filters in
  (pass (sf_filterNoise filters) <> [] \/ sf_filterNoise filters = false ->
     fr_items result = pass (sf_filterNoise filters)
     /\ fr_appliedRelaxation result = []
     /\ fr_filterRelaxed result = false
     /\ af_filterNoise (fr_appliedFilters result) = sf_filterNoise filters)
  /\ (pass (sf_filterNoise filters) = [] /\ sf_filterNoise filters = true ->
        fr_items result = pass false
        /\ fr_appliedRelaxation result = [dropFilterNoise]
        /\ fr_filterRelaxed result = true
        /\ af_filterNoise (fr_appliedFilters result) = false).
Proof.
  cbv zeta. unfold filterAndSortItems.
  set (strict := applyFiltersAndProcess _ _ _ _ (sf_filterNoise filters)).
  destruct strict as [|x strict'] eqn:Hstrict; cbn [length Nat.eqb andb].
  - destruct (sf_filterNoise filters) eqn:Hn; cbn.
    + split; [intros [Hne|Hf]; [congruence|discriminate]|]. intros _. repeat split.
    + split; [|intros [_ Hf]; discriminate]. intros _. rewrite <- Hstrict. repeat split.
  - split; [|intros [Hf _]; discriminate]. intros _. repeat split.
Qed.

Lemma dedup_length_mono (p q : Item -> bool) (items : list Item) :
  (forall x, p x = true -> q x = true) ->
  incl (map link (deduplicateByLink (List.filter p items)))
       (map link (deduplicateByLink (List.filter q items))).
Proof.
  intros Hpq l Hin. unfold deduplicateByLink in *.
  apply dedupFrom_links in Hin as [Hin _].
  apply dedupFrom_links. split; [|apply not_elem_of_empty].
  apply in_map_iff in Hin as (x & <- & Hx). apply filter_In in Hx as [Hx Hp].
  apply in_map, filter_In. auto.
Qed.

(** X6: turning the noise filter off never loses a product.  Every link
    returned by a pass with the noise filter on is returned by the pass with
    it off (the other filters the same), which therefore returns at least as
    many items. *)
Theorem noise_filter_off_never_loses
    (items : list Item) (minPrice maxPrice : option Z)
    (excludeOptions : option (list ExcludeOption)) :
  incl (map link (applyFiltersAndProcess items minPrice maxPrice excludeOptions true))
       (map link (applyFiltersAndProcess items minPrice maxPrice excludeOptions false))
  /\ (length (applyFiltersAndProcess items minPrice maxPrice excludeOptions true)
      <= length (applyFiltersAndProcess items minPrice maxPrice excludeOptions false))%nat.
Proof.
  assert (Hincl : incl
            (map link (applyFiltersAndProcess items minPrice maxPrice excludeOptions true))
            (map link (applyFiltersAndProcess items minPrice maxPrice excludeOptions false))).
  { unfold applyFiltersAndProcess, sortByPriceAsc. intros l Hin.
    eapply Permutation_in; [symmetry; apply Permutation_map, SortFacts.sortBy_perm|].
    eapply Permutation_in in Hin; [|apply Permutation_map, SortFacts.sortBy_perm].
    revert l Hin. apply dedup_length_mono. intros x Hm.
    apply matchesFilters_true in Hm as (Hprice & Hex & _).
    apply matchesFilters_true. repeat split; auto. discriminate. }
  split; [exact Hincl|].
  rewrite <- (length_map link), <- (length_map link (applyFiltersAndProcess _ _ _ _ false)).
  apply NoDup_incl_length; [apply applyFiltersAndProcess_NoDup|exact Hincl].
Qed.

End EngineMore.

(** ** The aggregator, continued *)

Section MapMore.
Context {V : Type}.

Lemma get_set_same (m : JsMap.t V) (k : Z) (v : V) : JsMap.get (JsMap.set m k v) k = Some v.
Proof.
  induction m as [|[k' v'] m IH]; cbn [JsMap.set JsMap.get].
  - now rewrite Z.eqb_refl.
  - destruct (Z.eqb_spec k' k) as [->|Hne]; cbn [JsMap.get].
    + now rewrite Z.eqb_refl.
    + destruct (Z.eqb_spec k' k); [contradiction|assumption].
Qed.

Lemma get_set_other (m : JsMap.t V) (k k' : Z) (v : V) :
  k <> k' -> JsMap.get (JsMap.set m k v) k' = JsMap.get m k'.
Proof.
  intros Hne. induction m as [|[k0 v0] m IH]; cbn [JsMap.set JsMap.get].
  - destruct (Z.eqb_spec k k'); [contradiction|reflexivity].
  - destruct (Z.eqb_spec k0 k) as [->|Hne0]; cbn [JsMap.get].
    + destruct (Z.eqb_spec k k'); [contradiction|reflexivity].
    + now rewrite IH.
Qed.

Lemma In_get (m : JsMap.t V) (k : Z) (v : V) :
  List.NoDup (map fst m) -> In (k, v) m -> JsMap.get m k = Some v.
Proof.
  induction m as [|[k' v'] m IH]; cbn [map fst In JsMap.get]; [tauto|].
  intros Hnd%List.NoDup_cons_iff [[= -> ->]|Hin].
  - now rewrite Z.eqb_refl.
  - destruct Hnd as [Hnotin Hnd].
    destruct (Z.eqb_spec k' k) as [->|Hne]; [|auto].
    exfalso. apply Hnotin. change k with (fst (k, v)). now apply in_map.
Qed.

End MapMore.

Section GroupMore.

Lemma atPrice_app (price : Z) (l1 l2 : list Item) :
  atPrice price (l1 ++ l2) = atPrice price l1 ++ atPrice price l2.
Proof. apply List.filter_app. Qed.

Lemma groupedSoFar_get (seen : list Item) (groupMap : JsMap.t (list Item)) (price : Z) :
  groupedSoFar seen groupMap ->
  match JsMap.get groupMap price with Some l => l | None => [] end
  = firstn Config.MAX_ITEMS_PER_GROUP (atPrice price seen).
Proof.
  intros Hinv. rewrite (Hinv price). now destruct (atPrice price seen).
Qed.

Lemma atPrice_single (price : Z) (item : Item) :
  atPrice price [item] = if lprice item =? price then [item] else [].
Proof. reflexivity. Qed.

Lemma groupStep_grouped (seen : list Item) (groupMap : JsMap.t (list Item)) (item : Item) :
  groupedSoFar seen groupMap -> groupedSoFar (seen ++ [item]) (groupStep groupMap item).
Proof.
  intros Hinv price. unfold groupStep.
  rewrite (groupedSoFar_get seen groupMap (lprice item) Hinv).
  rewrite atPrice_app, atPrice_single.
  set (here := atPrice (lprice item) seen).
  destruct (Nat.ltb_spec (length (firstn Config.MAX_ITEMS_PER_GROUP here))
                         Config.MAX_ITEMS_PER_GROUP) as [Hlt|Hge].
  - assert (Hshort : (length here < Config.MAX_ITEMS_PER_GROUP)%nat)
      by (rewrite length_firstn in Hlt; lia).
    rewrite (firstn_all2 here) by lia.
    destruct (Z.eqb_spec (lprice item) price) as [Heq|Hne].
    + subst price. rewrite get_set_same. fold here.
      change (if true then [item] else []) with [item].
      rewrite firstn_all2 by (rewrite length_app; cbn [length]; lia).
      destruct here; reflexivity.
    + rewrite get_set_other by assumption.
      change (if false then [item] else []) with (@nil Item).
      rewrite app_nil_r. apply Hinv.
  - rewrite length_firstn in Hge.
    destruct (Z.eqb_spec (lprice item) price) as [Heq|Hne].
    + subst price. fold here. rewrite (Hinv (lprice item)). fold here.
      change (if true then [item] else []) with [item].
      rewrite firstn_app.
      replace (Config.MAX_ITEMS_PER_GROUP - length here)%nat with O by lia.
      cbn [firstn]. rewrite app_nil_r.
      destruct here as [|x here'];
        [cbn in Hge; unfold Config.MAX_ITEMS_PER_GROUP in Hge; lia|].
      reflexivity.
    + change (if false then [item] else []) with (@nil Item).
      rewrite app_nil_r. apply Hinv.
Qed.

Lemma groupFold_grouped (items seen : list Item) (groupMap : JsMap.t (list Item)) :
  groupedSoFar seen groupMap ->
  groupedSoFar (seen ++ items) (fold_left groupStep items groupMap).
Proof.
  revert seen groupMap; induction items as [|x items IH]; intros seen groupMap Hinv;
    cbn [fold_left].
  - now rewrite app_nil_r.
  - replace (seen ++ x :: items) with ((seen ++ [x]) ++ items) by now rewrite <- app_assoc.
    apply IH, groupStep_grouped, Hinv.
Qed.

Lemma groupMap_grouped (items : list Item) :
  groupedSoFar items (fold_left groupStep items []).
Proof. apply (groupFold_grouped items [] []). intros price. reflexivity. Qed.

(** The groups come from the entries of the map. *)
Lemma groupByPrice_entries (items : list Item) (maxGroups : Z) (g : PriceGroup) :
  In g (groupByPrice items maxGroups) ->
  exists price groupItems,
    In (price, groupItems) (fold_left groupStep items [])
    /\ g = toPriceGroup (price, groupItems).
Proof.
  unfold groupByPrice. destruct (length items =? 0)%nat; [intros []|].
  intros Hin. apply in_map_iff in Hin as ([price groupItems] & <- & Hin).
  destruct (slice0_firstn (JsArray.sortBy fst (fold_left groupStep items [])) maxGroups)
    as (n & Heq & _).
  rewrite Heq in Hin. apply In_firstn, SortFacts.sortBy_In in Hin.
  exists price, groupItems. split; [exact Hin|reflexivity].
Qed.

Lemma groupByPrice_group_contents_aux (items : list Item) (maxGroups : Z) :
  Forall (fun g =>
            pg_items g = firstn 20 (atPrice (pg_price g) items)
            /\ atPrice (pg_price g) items <> [])
         (groupByPrice items maxGroups).
Proof.
  apply List.Forall_forall. intros g Hg.
  apply groupByPrice_entries in Hg as (price & groupItems & Hin & ->).
  pose proof (groupMap_ok items) as [Hnd _].
  apply In_get in Hin; [|exact Hnd].
  rewrite (groupMap_grouped items price) in Hin.
  cbn [toPriceGroup pg_items pg_count pg_price].
  destruct (atPrice price items) as [|x here] eqn:Hhere; [discriminate|].
  injection Hin as <-. unfold Config.MAX_ITEMS_PER_GROUP.
  split; [reflexivity|discriminate].
Qed.

(** X7: what a price group holds.  The [items] of every group returned by
    [groupByPrice] are the input items of the group's price, in their order
    of arrival, cut after the first twenty; there is at least one. *)
Theorem groupByPrice_group_contents (items : list Item) (maxGroups : Z) :
  Forall (fun g =>
            pg_items g = firstn 20 (atPrice (pg_price g) items)
            /\ atPrice (pg_price g) items <> []
            /\ pg_count g = Nat.min 20 (length (atPrice (pg_price g) items)))
         (groupByPrice items maxGroups).
Proof.
  apply List.Forall_forall. intros g Hg.
  apply groupByPrice_entries in Hg as (price & groupItems & Hin & ->).
  pose proof (groupMap_ok items) as [Hnd _].
  apply In_get in Hin; [|exact Hnd].
  rewrite (groupMap_grouped items price) in Hin.
  cbn [toPriceGroup pg_items pg_count pg_price].
  destruct (atPrice price items) as [|x here] eqn:Hhere; [discriminate|].
  injection Hin as <-. unfold Config.MAX_ITEMS_PER_GROUP.
  split; [reflexivity|]. split; [discriminate|].
  apply (length_firstn 20 (x :: here)).
Qed.

End GroupMore.

Section TopMore.

Lemma groupMap_has_price (items : list Item) (x : Item) :
  In x items -> exists groupItems, In (lprice x, groupItems) (fold_left groupStep items []).
Proof.
  intros Hin. pose proof (groupMap_grouped items (lprice x)) as Hget.
  assert (Hhere : In x (atPrice (lprice x) items)).
  { apply filter_In. split; [assumption|apply Z.eqb_refl]. }
  destruct (atPrice (lprice x) items) as [|y here]; [destruct Hhere|].
  eexists. apply MapFacts.get_In. exact Hget.
Qed.

Lemma slice0_cons {A : Type} (x : A) (l : list A) (end_ : Z) :
  1 <= end_ -> exists rest, JsArray.slice0 (x :: l) end_ = x :: rest.
Proof.
  intros Hend. unfold JsArray.slice0.
  destruct (Z.ltb_spec end_ 0); [lia|].
  destruct (Z.to_nat (Z.min end_ (Z.of_nat (length (x :: l))))) as [|n] eqn:Hn.
  - cbn [length] in Hn. lia.
  - cbn [firstn]. eauto.
Qed.

Lemma slice0_head {A : Type} (l : list A) (end_ : Z) (x : A) (rest : list A) :
  JsArray.slice0 l end_ = x :: rest -> exists l', l = x :: l'.
Proof.
  destruct (slice0_firstn l end_) as (n & -> & _).
  destruct n, l; cbn [firstn]; try discriminate. intros [= -> _]. eauto.
Qed.

(** The first group is the group of the lowest price. *)
Lemma groupByPrice_first (items : list Item) (maxGroups : Z) :
  items <> [] -> 1 <= maxGroups ->
  exists g rest,
    groupByPrice items maxGroups = g :: rest
    /\ (forall x, In x items -> pg_price g <= lprice x)
    /\ pg_representative g = head (atPrice (pg_price g) items)
    /\ atPrice (pg_price g) items <> [].
Proof.
  intros Hne Hmax.
  assert (Hall := proj1 (List.Forall_forall _ _) (groupByPrice_group_contents_aux items maxGroups)).
  unfold groupByPrice in *.
  destruct items as [|x0 items0]; [congruence|]. cbn [length Nat.eqb] in *.
  set (items := x0 :: items0) in *.
  set (groupMap := fold_left groupStep items []) in *.
  destruct (JsArray.sortBy fst groupMap) as [|e sorted'] eqn:Hsorted.
  { exfalso. destruct (groupMap_has_price items x0) as (v & Hv); [now left|].
    fold groupMap in Hv. apply (SortFacts.sortBy_In fst) in Hv. rewrite Hsorted in Hv.
    destruct Hv. }
  destruct (slice0_cons e sorted' maxGroups Hmax) as (rest & Hslice).
  rewrite Hslice in *. cbn [map] in *.
  exists (toPriceGroup e), (map toPriceGroup rest). split; [reflexivity|].
  destruct (Hall (toPriceGroup e) (or_introl eq_refl)) as (Hitems & Hnonempty).
  split; [|split; [|exact Hnonempty]].
  - intros x Hx. rewrite pg_price_toPriceGroup.
    destruct (groupMap_has_price items x Hx) as (v & Hv). fold groupMap in Hv.
    apply (SortFacts.sortBy_In fst) in Hv. rewrite Hsorted in Hv.
    pose proof (SortFacts.sortBy_sorted fst groupMap) as Hs. rewrite Hsorted in Hs.
    apply Sorted_StronglySorted in Hs; [|intros a b c; unfold JsArray.keyLe; lia].
    inversion Hs as [|? ? _ Hle]; subst.
    destruct Hv as [->|Hv]; [reflexivity|].
    apply (proj1 (List.Forall_forall _ _) Hle) in Hv. exact Hv.
  - destruct e as [price groupItems]. cbn [toPriceGroup pg_representative pg_price pg_items] in *.
    rewrite Hitems. destruct (atPrice price items); reflexivity.
Qed.

End TopMore.

Section TopTheorems.

(** X8: the cheapest price band comes first.  For a non-empty list and
    [maxGroups >= 1], [groupByPrice] returns at least one group; the price of
    the first group is the lowest [lprice] of the input, and its
    representative is the first input item of that price. *)
Theorem groupByPrice_cheapest_first (items : list Item) (maxGroups : Z) :
  items <> [] -> 1 <= maxGroups ->
  exists g rest first,
    groupByPrice items maxGroups = g :: rest
    /\ (forall x, In x items -> pg_price g <= lprice x)
    /\ pg_representative g = Some first
    /\ head (atPrice (pg_price g) items) = Some first
    /\ In first items /\ lprice first = pg_price g.
Proof.
  intros Hne Hmax.
  destruct (groupByPrice_first items maxGroups Hne Hmax)
    as (g & rest & Hgroups & Hmin & Hrep & Hnonempty).
  destruct (atPrice (pg_price g) items) as [|first here] eqn:Hhere; [congruence|].
  assert (Hin : In first (atPrice (pg_price g) items)) by (rewrite Hhere; now left).
  apply filter_In in Hin as [Hin Heq]. apply Z.eqb_eq in Heq.
  exists g, rest, first.
  split; [exact Hgroups|]. split; [exact Hmin|]. split; [exact Hrep|].
  split; [now rewrite Hhere|]. split; assumption.
Qed.

(** X9: the parts of [extractTopResults] agree on emptiness.  [top1] is the
    first item; and the list is empty exactly when [top1] is [null], exactly
    when there is no price group, and exactly when there is no price-band
    summary. *)
Theorem extractTopResults_empty_together (items : list Item) :
  let top1 := fst (fst (extractTopResults items)) in
  let top10Groups := snd (fst (extractTopResults items)) in
  let priceBand := snd (extractTopResults items) in
  top1 = head items
  /\ (items = [] <-> top1 = None)
  /\ (items = [] <-> top10Groups = [])
  /\ (items = [] <-> priceBand = None).
Proof.
  cbv zeta. unfold extractTopResults. cbn [fst snd].
  split; [reflexivity|].
  destruct items as [|x items].
  - cbn. repeat split; reflexivity.
  - assert (Hne : x :: items <> []) by discriminate.
    assert (Hmax : 1 <= Config.TOP_N) by (unfold Config.TOP_N; lia).
    destruct (groupByPrice_first (x :: items) Config.TOP_N Hne Hmax)
      as (g & rest & Hgroups & _).
    rewrite Hgroups. cbn [head calculatePriceBand].
    repeat split; discriminate.
Qed.

(** X10: on a list in ascending price order, such as the filter engine
    returns, [top1] and the price groups agree: [top1] is the representative
    of the first group, the price of that group is the price of [top1], and no
    item is cheaper. *)
Theorem extractTopResults_top1_leads (items : list Item) :
  Sorted (JsArray.keyLe lprice) items -> items <> [] ->
  exists cheapest g rest,
    fst (fst (extractTopResults items)) = Some cheapest
    /\ snd (fst (extractTopResults items)) = g :: rest
    /\ pg_representative g = Some cheapest
    /\ pg_price g = lprice cheapest
    /\ forall x, In x items -> lprice cheapest <= lprice x.
Proof.
  intros Hsorted Hne. unfold extractTopResults. cbn [fst snd].
  assert (Hmax : 1 <= Config.TOP_N) by (unfold Config.TOP_N; lia).
  destruct (groupByPrice_first items Config.TOP_N Hne Hmax)
    as (g & rest & Hgroups & Hmin & Hrep & Hnonempty).
  destruct items as [|x0 items0]; [congruence|].
  apply Sorted_StronglySorted in Hsorted; [|intros a b c; unfold JsArray.keyLe; lia].
  inversion Hsorted as [|? ? _ Hle]; subst.
  assert (Hlow : forall x, In x (x0 :: items0) -> lprice x0 <= lprice x).
  { intros x [<-|Hx]; [lia|]. exact (proj1 (List.Forall_forall _ _) Hle x Hx). }
  assert (Hprice : pg_price g = lprice x0).
  { apply Z.le_antisymm; [apply Hmin; now left|].
    destruct (atPrice (pg_price g) (x0 :: items0)) as [|y here] eqn:Hhere; [congruence|].
    assert (Hin : In y (atPrice (pg_price g) (x0 :: items0))) by (rewrite Hhere; now left).
    apply filter_In in Hin as [Hin Heq]. apply Z.eqb_eq in Heq. rewrite <- Heq. now apply Hlow. }
  exists x0, g, rest. split; [reflexivity|]. split; [exact Hgroups|].
  split; [|split; [exact Hprice|exact Hlow]].
  rewrite Hrep, Hprice. unfold atPrice. cbn [List.filter]. now rewrite Z.eqb_refl.
Qed.

End TopTheorems.

Lemma groupByPrice_cheapest_first_witness :
  [sampleItem "a" "l1" 300; sampleItem "b" "l2" 100; sampleItem "c" "l3" 100] <> []
  /\ 1 <= 10
  /\ exists g rest first,
       groupByPrice [sampleItem "a" "l1" 300; sampleItem "b" "l2" 100; sampleItem "c" "l3" 100]
         10 = g :: rest
       /\ (forall x, In x [sampleItem "a" "l1" 300; sampleItem "b" "l2" 100;
                           sampleItem "c" "l3" 100] -> pg_price g <= lprice x)
       /\ pg_representative g = Some first
       /\ head (atPrice (pg_price g)
                  [sampleItem "a" "l1" 300; sampleItem "b" "l2" 100; sampleItem "c" "l3" 100])
          = Some first
       /\ In first [sampleItem "a" "l1" 300; sampleItem "b" "l2" 100; sampleItem "c" "l3" 100]
       /\ lprice first = pg_price g.
Proof.
  split; [discriminate|]. split; [lia|].
  apply (groupByPrice_cheapest_first
           [sampleItem "a" "l1" 300; sampleItem "b" "l2" 100; sampleItem "c" "l3" 100] 10);
    [discriminate|lia].
Defined.

Lemma extractTopResults_top1_leads_witness :
  Sorted (JsArray.keyLe lprice)
    [sampleItem "b" "l2" 100; sampleItem "c" "l3" 100; sampleItem "a" "l1" 300]
  /\ exists cheapest g rest,
       fst (fst (extractTopResults
                   [sampleItem "b" "l2" 100; sampleItem "c" "l3" 100; sampleItem "a" "l1" 300]))
       = Some cheapest
       /\ snd (fst (extractTopResults
                      [sampleItem "b" "l2" 100; sampleItem "c" "l3" 100;
                       sampleItem "a" "l1" 300])) = g :: rest
       /\ pg_representative g = Some cheapest
       /\ pg_price g = lprice cheapest
       /\ forall x, In x [sampleItem "b" "l2" 100; sampleItem "c" "l3" 100;
                          sampleItem "a" "l1" 300] -> lprice cheapest <= lprice x.
Proof.
  assert (Hs : Sorted (JsArray.keyLe lprice)
                 [sampleItem "b" "l2" 100; sampleItem "c" "l3" 100; sampleItem "a" "l1" 300]).
  { repeat constructor; unfold JsArray.keyLe; cbn; lia. }
  split; [exact Hs|].
  apply (extractTopResults_top1_leads
           [sampleItem "b" "l2" 100; sampleItem "c" "l3" 100; sampleItem "a" "l1" 300] Hs).
  discriminate.
Defined.

(** *** The price-band summary *)

Section BandMore.

Lemma minOf_spec (first : Z) (rest : list Z) :
  Forall (fun x => minOf first rest <= x) (first :: rest)
  /\ In (minOf first rest) (first :: rest).
Proof.
  unfold minOf. revert first; induction rest as [|y rest IH]; intros first; cbn [fold_left].
  - split; [repeat constructor; lia|now left].
  - destruct (IH (Z.min first y)) as [Hall Hin]. split.
    + inversion Hall as [|? ? Hm Hrest]; subst.
      constructor; [lia|]. constructor; [lia|assumption].
    + destruct Hin as [Hin|Hin]; [|right; now right].
      rewrite <- Hin. destruct (Z.min_spec first y) as [[_ ->]|[_ ->]];
        [now left|right; now left].
Qed.

Lemma maxOf_spec (first : Z) (rest : list Z) :
  Forall (fun x => x <= maxOf first rest) (first :: rest)
  /\ In (maxOf first rest) (first :: rest).
Proof.
  unfold maxOf. revert first; induction rest as [|y rest IH]; intros first; cbn [fold_left].
  - split; [repeat constructor; lia|now left].
  - destruct (IH (Z.max first y)) as [Hall Hin]. split.
    + inversion Hall as [|? ? Hm Hrest]; subst.
      constructor; [lia|]. constructor; [lia|assumption].
    + destruct Hin as [Hin|Hin]; [|right; now right].
      rewrite <- Hin. destruct (Z.max_spec first y) as [[_ ->]|[_ ->]];
        [right; now left|now left].
Qed.

(** The two sums of the weighted mean, with their accumulators. *)
Lemma weighted_sums_bounds (lo hi : Z) (groups : list PriceGroup) (total weighted : Z) :
  Forall (fun g => lo <= pg_price g <= hi) groups ->
  lo * total <= weighted <= hi * total ->
  lo * fold_left (fun sum g => sum + Z.of_nat (pg_count g)) groups total
  <= fold_left (fun sum g => sum + pg_price g * Z.of_nat (pg_count g)) groups weighted
  <= hi * fold_left (fun sum g => sum + Z.of_nat (pg_count g)) groups total.
Proof.
  revert total weighted; induction groups as [|g groups IH]; intros total weighted Hall Hb;
    cbn [fold_left]; [assumption|].
  inversion Hall as [|? ? Hg Hrest]; subst.
  apply IH; [assumption|]. nia.
Qed.

Lemma expandPrices_length (groups : list PriceGroup) :
  Z.of_nat (length (expandPrices groups))
  = fold_left (fun sum g => sum + Z.of_nat (pg_count g)) groups 0.
Proof.
  unfold expandPrices. change 0 with (Z.of_nat (length (@nil Z))).
  generalize (@nil Z) as acc.
  induction groups as [|g groups IH]; intros acc; cbn [fold_left]; [reflexivity|].
  rewrite IH, length_app, repeat_length. f_equal. lia.
Qed.

Lemma roundDiv_between (lo hi weighted total : Z) :
  0 < total -> lo * total <= weighted <= hi * total ->
  exists r, roundDiv weighted total = Some r /\ lo <= r <= hi.
Proof.
  intros Hpos Hb. unfold roundDiv.
  destruct (Z.eqb_spec total 0); [lia|]. destruct (Z.ltb_spec 0 total); [|lia].
  eexists; split; [reflexivity|]. split.
  - apply Z.div_le_lower_bound; nia.
  - apply Z.lt_succ_r. apply Z.div_lt_upper_bound; nia.
Qed.

Lemma expandPrices_In (groups : list PriceGroup) (x : Z) :
  In x (expandPrices groups) -> In x (map pg_price groups).
Proof.
  unfold expandPrices.
  assert (Hgen : forall gs acc,
             In x (fold_left (fun allPrices group =>
                                allPrices ++ repeat (pg_price group) (pg_count group)) gs acc) ->
             In x acc \/ In x (map pg_price gs)).
  { induction gs as [|g gs IH]; intros acc; cbn [fold_left map In]; [tauto|].
    intros Hin. apply IH in Hin as [Hin|Hin]; [|tauto].
    apply in_app_or in Hin as [Hin|Hin]; [tauto|].
    apply repeat_spec in Hin. subst. tauto. }
  intros Hin. apply Hgen in Hin as [[]|Hin]. exact Hin.
Qed.

Lemma at_In {A : Type} (l : list A) (i : Z) :
  0 <= i < Z.of_nat (length l) -> exists a, at_ l i = Some a /\ In a l.
Proof.
  intros Hi. unfold at_. destruct (Z.ltb_spec i 0); [lia|].
  destruct (nth_error l (Z.to_nat i)) as [a|] eqn:Hnth.
  - exists a. split; [reflexivity|]. eapply nth_error_In, Hnth.
  - apply nth_error_None in Hnth. lia.
Qed.

(** X11: the price-band summary stays inside the price range of its groups,
    where the arithmetic of the code is exact.  For a non-empty list of
    groups, each with at least one item and a positive price, whose weighted
    price sum is below [2^52] (the sums and products of the code are then
    whole numbers that a double holds exactly, and the rounded quotient is the
    rounding of the exact one), [calculatePriceBand] returns a summary whose
    [minPrice] and [maxPrice] are the lowest and the highest group price, and
    whose [avgPrice] and [medianPrice] are numbers between the two. *)
Theorem calculatePriceBand_within_range (groups : list PriceGroup) :
  groups <> [] ->
  Forall (fun g => (1 <= pg_count g)%nat) groups ->
  Forall (fun g => 0 < pg_price g) groups ->
  weightedPriceSum groups < 2 ^ 52 ->
  exists band avg median,
    calculatePriceBand groups = Some band
    /\ Forall (fun g => pb_minPrice band <= pg_price g <= pb_maxPrice band) groups
    /\ In (pb_minPrice band) (map pg_price groups)
    /\ In (pb_maxPrice band) (map pg_price groups)
    /\ pb_avgPrice band = Some avg /\ pb_minPrice band <= avg <= pb_maxPrice band
    /\ pb_medianPrice band = Some median
    /\ pb_minPrice band <= median <= pb_maxPrice band.
Proof.
  intros Hne Hcounts _ _. destruct groups as [|g rest]; [congruence|]. clear Hne.
  unfold calculatePriceBand.
  set (groups := g :: rest) in *.
  set (lo := minOf (pg_price g) (map pg_price rest)).
  set (hi := maxOf (pg_price g) (map pg_price rest)).
  destruct (minOf_spec (pg_price g) (map pg_price rest)) as [Hlo Hloin].
  destruct (maxOf_spec (pg_price g) (map pg_price rest)) as [Hhi Hhiin].
  fold lo in Hlo, Hloin. fold hi in Hhi, Hhiin.
  change (pg_price g :: map pg_price rest) with (map pg_price groups) in *.
  assert (Hrange : Forall (fun g => lo <= pg_price g <= hi) groups).
  { apply List.Forall_forall. intros x Hx. apply (in_map pg_price) in Hx. split.
    - exact (proj1 (List.Forall_forall _ _) Hlo _ Hx).
    - exact (proj1 (List.Forall_forall _ _) Hhi _ Hx). }
  pose proof (weighted_sums_bounds lo hi groups 0 0 Hrange ltac:(lia)) as Hsums.
  pose proof (expandPrices_length groups) as Htotal.
  set (totalItems := fold_left (fun sum g => sum + Z.of_nat (pg_count g)) groups 0) in *.
  set (weightedSum := fold_left (fun sum g => sum + pg_price g * Z.of_nat (pg_count g))
                                groups 0) in *.
  assert (Hpos : 0 < totalItems).
  { subst totalItems groups. cbn [fold_left].
    inversion Hcounts as [|? ? Hg _]; subst.
    assert (Hmono : forall gs a, a <= fold_left (fun sum g => sum + Z.of_nat (pg_count g)) gs a).
    { induction gs as [|g' gs IH]; intros a; cbn [fold_left]; [lia|].
      etransitivity; [|apply IH]. lia. }
    specialize (Hmono rest (0 + Z.of_nat (pg_count g))). lia. }
  destruct (roundDiv_between lo hi weightedSum totalItems Hpos Hsums) as (avg & Havg & Havgb).
  set (allPrices := JsArray.sortBy (fun p => p) (expandPrices groups)).
  assert (Hlen : Z.of_nat (length allPrices) = totalItems).
  { subst allPrices. rewrite SortFacts.sortBy_length. lia. }
  assert (Hin : forall a, In a allPrices -> lo <= a <= hi).
  { intros a Ha. apply SortFacts.sortBy_In, expandPrices_In in Ha.
    apply in_map_iff in Ha as (x & <- & Hx).
    exact (proj1 (List.Forall_forall _ _) Hrange x Hx). }
  assert (Hmedian : exists median,
             (if Z.of_nat (length allPrices) mod 2 =? 0
              then match at_ allPrices (Z.of_nat (length allPrices) / 2 - 1),
                         at_ allPrices (Z.of_nat (length allPrices) / 2) with
                   | Some a, Some b => roundDiv (a + b) 2
                   | _, _ => None
                   end
              else at_ allPrices (Z.of_nat (length allPrices) / 2)) = Some median
             /\ lo <= median <= hi).
  { rewrite Hlen.
    destruct (Z.eqb_spec (totalItems mod 2) 0) as [Heven|Hodd].
    - assert (2 <= totalItems).
      { destruct (Z.eq_dec totalItems 1) as [->|]; [discriminate Heven|lia]. }
      destruct (at_In allPrices (totalItems / 2 - 1)) as (a & -> & Ha).
      { rewrite Hlen. split; [|pose proof (Z.div_le_upper_bound totalItems 2 totalItems); nia].
        assert (1 <= totalItems / 2) by (apply Z.div_le_lower_bound; lia). lia. }
      destruct (at_In allPrices (totalItems / 2)) as (b & -> & Hb).
      { rewrite Hlen. split; [apply Z.div_pos; lia|apply Z.div_lt; lia]. }
      apply Hin in Ha. apply Hin in Hb.
      apply roundDiv_between; lia.
    - destruct (at_In allPrices (totalItems / 2)) as (a & -> & Ha).
      { rewrite Hlen. split; [apply Z.div_pos; lia|apply Z.div_lt; lia]. }
      exists a. split; [reflexivity|]. now apply Hin. }
  destruct Hmedian as (median & Hmedian & Hmedianb).
  eexists _, avg, median. split; [reflexivity|].
  cbn [pb_minPrice pb_maxPrice pb_avgPrice pb_medianPrice].
  repeat split; try assumption; lia.
Qed.

End BandMore.

Lemma calculatePriceBand_within_range_witness :
  groupByPrice sixOffers Config.TOP_N <> []
  /\ Forall (fun g => (1 <= pg_count g)%nat) (groupByPrice sixOffers Config.TOP_N)
  /\ Forall (fun g => 0 < pg_price g) (groupByPrice sixOffers Config.TOP_N)
  /\ weightedPriceSum (groupByPrice sixOffers Config.TOP_N) < 2 ^ 52
  /\ calculatePriceBand (groupByPrice sixOffers Config.TOP_N)
     = Some {| pb_minPrice := 100; pb_maxPrice := 90000;
               pb_avgPrice := Some 15250; pb_medianPrice := Some 350 |}
  /\ exists band avg median,
       calculatePriceBand (groupByPrice sixOffers Config.TOP_N) = Some band
       /\ Forall (fun g => pb_minPrice band <= pg_price g <= pb_maxPrice band)
                 (groupByPrice sixOffers Config.TOP_N)
       /\ In (pb_minPrice band) (map pg_price (groupByPrice sixOffers Config.TOP_N))
       /\ In (pb_maxPrice band) (map pg_price (groupByPrice sixOffers Config.TOP_N))
       /\ pb_avgPrice band = Some avg /\ pb_minPrice band <= avg <= pb_maxPrice band
       /\ pb_medianPrice band = Some median
       /\ pb_minPrice band <= median <= pb_maxPrice band.
Proof.
  assert (Hne : groupByPrice sixOffers Config.TOP_N <> []) by (vm_compute; discriminate).
  assert (Hcounts : Forall (fun g => (1 <= pg_count g)%nat)
                      (groupByPrice sixOffers Config.TOP_N))
    by (vm_compute; repeat constructor).
  assert (Hprices : Forall (fun g => 0 < pg_price g) (groupByPrice sixOffers Config.TOP_N))
    by (vm_compute; repeat constructor).
  assert (Hsum : weightedPriceSum (groupByPrice sixOffers Config.TOP_N) < 2 ^ 52)
    by (vm_compute; reflexivity).
  split; [exact Hne|]. split; [exact Hcounts|]. split; [exact Hprices|].
  split; [exact Hsum|]. split; [vm_compute; reflexivity|].
  apply (calculatePriceBand_within_range (groupByPrice sixOffers Config.TOP_N)
           Hne Hcounts Hprices Hsum).
Defined.

(** ** The catalog client, continued *)

(** X12: the start offsets.  [calculateStartValues] returns one offset for
    each of the first [min(pages, 10)] pages, none when [pages <= 0]; the
    offset of page [i] (from zero) is [1 + 100 * i], so the first is 1 and
    none is above 901, below the limit of 1000. *)
Theorem calculateStartValues_offsets (pages : Z) :
  calculateStartValues pages = map startOfPage (seq 0 (Z.to_nat (Z.min pages 10)))
  /\ length (calculateStartValues pages) = Z.to_nat (Z.min pages 10)
  /\ Forall (fun start => 1 <= start <= 901 /\ start <= Config.MAX_START_VALUE)
            (calculateStartValues pages)
  /\ (pages <= 0 <-> calculateStartValues pages = []).
Proof.
  rewrite calculateStartValues_spec. change Config.MAX_PAGES with 10.
  split; [reflexivity|]. split; [now rewrite length_map, length_seq|]. split.
  - apply List.Forall_forall. intros start Hin.
    apply in_map_iff in Hin as (i & <- & Hi). apply in_seq in Hi.
    unfold startOfPage, Config.DISPLAY_PER_PAGE, Config.MAX_START_VALUE. lia.
  - split.
    + intros Hle. replace (Z.to_nat (Z.min pages 10)) with O by lia. reflexivity.
    + intros Hnil. destruct (Z.to_nat (Z.min pages 10)) eqn:Hn; [lia|discriminate].
Qed.

Section AllPagesMore.
Context {World : Type}.
Variable singlePage :
  string -> Z -> SortOption -> list ExcludeOption -> World -> (ApiError + Page) * World.
Variables (query : string) (sort : SortOption) (exclude : list ExcludeOption).

Lemma fetchFrom_failure (startValues : list Z) (allItems : list NaverShopRawItem)
    (totalFromApi : Z) (w w' : World) (error : ApiError) :
  fetchFrom singlePage query sort exclude startValues allItems totalFromApi w
  = (inl error, w')
  <-> exists done failing later fetched w1,
        startValues = done ++ failing :: later
        /\ FetchedInOrder singlePage query sort exclude w done fetched w1
        /\ singlePage query failing sort exclude w1 = (inl error, w').
Proof.
  revert allItems totalFromApi w.
  induction startValues as [|start rest IH]; intros allItems totalFromApi w;
    cbn [fetchFrom].
  - split; [discriminate|].
    intros (done & failing & later & _ & _ & Heq & _). now destruct done.
  - destruct (singlePage query start sort exclude w) as [[e|page] w1] eqn:Hcall.
    + split.
      * intros [= <- <-]. exists [], start, rest, [], w.
        split; [reflexivity|]. split; [constructor|exact Hcall].
      * intros (done & failing & later & fetched & w2 & Heq & Hf & Hfail).
        destruct done as [|d done]; cbn [app] in Heq; injection Heq as Hs Hr; subst.
        -- inversion Hf; subst. congruence.
        -- inversion Hf; subst. congruence.
    + rewrite IH. split.
      * intros (done & failing & later & fetched & w2 & -> & Hf & Hfail).
        exists (start :: done), failing, later, (page :: fetched), w2.
        split; [reflexivity|]. split; [econstructor; eassumption|exact Hfail].
      * intros (done & failing & later & fetched & w2 & Heq & Hf & Hfail).
        destruct done as [|d done]; cbn [app] in Heq; injection Heq as Hs Hr; subst.
        -- inversion Hf; subst. congruence.
        -- inversion Hf; subst.
           match goal with Hc : singlePage _ _ _ _ _ = (inr _, _) |- _ =>
             rewrite Hcall in Hc; injection Hc as <- <- end.
           eexists done, failing, later, _, w2. split; [reflexivity|]. split; eassumption.
Qed.

End AllPagesMore.

Section Boundary.
Import NaverShopClient.
Context {World : Type}.
Variable fetch : Request -> World -> FetchOutcome * World.
Variable env : Env.
Variable singlePage :
  string -> Z -> SortOption -> list ExcludeOption -> World -> (ApiError + Page) * World.
Hypothesis Hdeclared : pagesAsDeclared fetch env singlePage.

(** Over a network that keeps to the schema, a page call of the pipeline
    fails exactly when the client fails, and in the same way. *)
Lemma pagesAsDeclared_failure (query : string) (start : Z) (sort : SortOption)
    (exclude : list ExcludeOption) (w w' : World) (error : ApiError) :
  singlePage query start sort exclude w = (inl error, w')
  <-> fetchSinglePage fetch env query start sort exclude w = (inl error, w').
Proof.
  specialize (Hdeclared query start sort exclude w).
  destruct (fetchSinglePage fetch env query start sort exclude w)
    as [[e|[items total|items total]] w1]; [|  |contradiction].
  - rewrite Hdeclared. split; intros [= <- <-]; reflexivity.
  - rewrite Hdeclared. split; discriminate.
Qed.


(** X13: [fetchAllPages] fails fast and does not retry, over a network
    that keeps to the response schema (so that every page is of the declared
    type).  It fails exactly when, the earlier pages having been fetched one
    after the other, one call of [fetchSinglePage] fails; it then fails with
    the error of that call, in the world that call left, and calls no later
    page. *)
Theorem fetchAllPages_fails_fast
    (query : string) (sort : SortOption) (exclude : list ExcludeOption)
    (pages : Z) (w w' : World) (error : ApiError) :
  fetchAllPages singlePage query pages sort exclude w = (inl error, w')
  <-> exists done failing later fetched w1,
        calculateStartValues pages = done ++ failing :: later
        /\ FetchedInOrder singlePage query sort exclude w done fetched w1
        /\ fetchSinglePage fetch env query failing sort exclude w1 = (inl error, w').
Proof.
  unfold fetchAllPages. rewrite fetchFrom_failure.
  split; intros (done & failing & later & fetched & w1 & Hsplit & Hdone & Hfail);
    exists done, failing, later, fetched, w1; (split; [exact Hsplit|]);
    (split; [exact Hdone|]); now apply pagesAsDeclared_failure.
Qed.

End Boundary.

(** The reference network and its client at the declared type. *)
Lemma abortsThirdCall_declared : pagesAsDeclared abortsThirdCall sampleEnv thirdPageAborts.
Proof.
  intros query start sort exclude w.
  unfold NaverShopClient.fetchSinglePage, abortsThirdCall, thirdPageAborts.
  cbn [NaverShopClient.buildHeaders sampleEnv NaverShopClient.NAVER_CLIENT_ID
       NaverShopClient.NAVER_CLIENT_SECRET].
  change (NaverShopClient.buildHeaders sampleEnv) with
    (@inr ApiError (list (string * string)) sampleHeaders).
  cbn iota. destruct (w =? 2)%nat; reflexivity.
Qed.

Lemma fetchAllPages_fails_fast_witness :
  pagesAsDeclared abortsThirdCall sampleEnv thirdPageAborts
  /\ fetchAllPages thirdPageAborts "banana" 5 asc [] 0%nat
     = (inl (TimeoutError (Caught NaverShopClient.abortError)), 3%nat)
  /\ exists done failing later fetched w1,
       calculateStartValues 5 = done ++ failing :: later
       /\ FetchedInOrder thirdPageAborts "banana" asc [] 0%nat done fetched w1
       /\ NaverShopClient.fetchSinglePage abortsThirdCall sampleEnv "banana" failing
            asc [] w1
          = (inl (TimeoutError (Caught NaverShopClient.abortError)), 3%nat).
Proof.
  split; [exact abortsThirdCall_declared|].
  split; [vm_compute; reflexivity|].
  apply (proj1 (fetchAllPages_fails_fast abortsThirdCall sampleEnv thirdPageAborts
                  abortsThirdCall_declared "banana" asc [] 5 0%nat 3%nat
                  (TimeoutError (Caught NaverShopClient.abortError)))).
  vm_compute. reflexivity.
Defined.

(** ** The catalog client: one page, continued *)

Lemma fetchSinglePage_timeout_witness :
  NaverShopClient.fetchSinglePage
    (settling (NaverShopClient.FetchRejected NaverShopClient.abortError))
    sampleEnv "banana" 1 asc [used] 0%nat
  = (inl (TimeoutError (Caught NaverShopClient.abortError)), 1%nat).
Proof.
  apply (SinglePageFacts.fetchSinglePage_timeout
           (settling (NaverShopClient.FetchRejected NaverShopClient.abortError))
           sampleEnv "banana" 1 asc [used] 0%nat 1%nat sampleHeaders
           NaverShopClient.abortError); reflexivity.
Defined.

Lemma fetchSinglePage_bad_status_witness :
  exists message,
    NaverShopClient.fetchSinglePage
      (settling (NaverShopClient.FetchResolved tooManyRequests))
      sampleEnv "banana" 1 asc [used] 0%nat
    = (inl (NaverApiError message (HttpFailure 429 "Too Many Requests" "rate limit")), 1%nat).
Proof.
  apply (SinglePageFacts.fetchSinglePage_bad_status
           (settling (NaverShopClient.FetchResolved tooManyRequests))
           sampleEnv "banana" 1 asc [used] 0%nat 1%nat sampleHeaders tooManyRequests);
    reflexivity.
Defined.

Lemma fetchSinglePage_no_credentials_witness :
  exists message,
    NaverShopClient.fetchSinglePage
      (settling (NaverShopClient.FetchResolved (okResponse NaverShopClient.JNull)))
      noCredentials "banana" 1 asc [used] 0%nat
    = (inl (NaverApiError message NoOriginal), 0%nat).
Proof.
  apply (SinglePageFacts.fetchSinglePage_no_credentials
           (settling (NaverShopClient.FetchResolved (okResponse NaverShopClient.JNull)))
           noCredentials "banana" 1 asc [used] 0%nat).
  reflexivity.
Defined.

Lemma fetchSinglePage_best_effort_witness :
  exists items total,
    NaverShopClient.getProp oddBody "items" = inr items
    /\ NaverShopClient.getProp oddBody "total" = inr total
    /\ NaverShopClient.fetchSinglePage
         (settling (NaverShopClient.FetchResolved (okResponse oddBody)))
         sampleEnv "banana" 1 asc [used] 0%nat
       = (inr (NaverShopClient.BestEffort
                 (NaverShopClient.nullish items (NaverShopClient.JArr []))
                 (NaverShopClient.nullish total (NaverShopClient.JNum 0))), 1%nat)
    /\ (items = None ->
        NaverShopClient.nullish items (NaverShopClient.JArr []) = NaverShopClient.JArr [])
    /\ (total = None ->
        NaverShopClient.nullish total (NaverShopClient.JNum 0) = NaverShopClient.JNum 0).
Proof.
  apply (SinglePageFacts.fetchSinglePage_best_effort
           (settling (NaverShopClient.FetchResolved (okResponse oddBody)))
           sampleEnv "banana" 1 asc [used] 0%nat 1%nat sampleHeaders (okResponse oddBody)
           oddBody); try reflexivity.
  discriminate.
Defined.

Section SinglePageMore.
Import NaverShopClient.
Context {World : Type}.
Variable fetch : Request -> World -> FetchOutcome * World.
Variable env : Env.

Lemma rethrow_class (error : JsError) : isNaverApiError (rethrow error) = true.
Proof. unfold rethrow. now destruct (String.eqb _ _). Qed.

Lemma handleOutcome_class (outcome : FetchOutcome) (error : ApiError) :
  handleOutcome outcome = inl error -> isNaverApiError error = true.
Proof.
  unfold handleOutcome. destruct outcome as [e|response].
  - intros [= <-]. apply rethrow_class.
  - destruct (negb (resp_ok response)); [now intros [= <-]|].
    destruct (resp_json response) as [e|data]; [intros [= <-]; apply rethrow_class|].
    destruct (safeParseResponse data) as [[items total]|]; [discriminate|].
    destruct (getProp data "items") as [e|items];
      [intros [= <-]; apply rethrow_class|].
    destruct (getProp data "total") as [e|total];
      [intros [= <-]; apply rethrow_class|discriminate].
Qed.

(** X18: every failure of [fetchSinglePage] is an upstream failure.  The
    error is a [NaverApiError] (a [TimeoutError] included), never a
    [ValidationError]; the route answers it with status 502 and one of two
    fixed texts, which hold nothing of the error's own message or cause. *)
Theorem fetchSinglePage_failures_are_upstream
    (query : string) (start : Z) (sort : SortOption) (exclude : list ExcludeOption)
    (w w' : World) (error : ApiError) :
  fetchSinglePage fetch env query start sort exclude w = (inl error, w') ->
  isNaverApiError error = true
  /\ Errors.getErrorStatusCode (Errors.ThrownApi error) = 502
  /\ (Errors.toSafeErrorMessage (Errors.ThrownApi error) = Errors.TIMEOUT_MESSAGE
      \/ Errors.toSafeErrorMessage (Errors.ThrownApi error) = Errors.UPSTREAM_MESSAGE).
Proof.
  intros Hfail.
  assert (Hclass : isNaverApiError error = true).
  { unfold fetchSinglePage in Hfail.
    destruct (buildHeaders env) as [e|headers] eqn:Hh.
    - injection Hfail as <- _. unfold buildHeaders in Hh.
      destruct (missing _ || missing _); [now injection Hh as <-|discriminate].
    - destruct (fetch _ w) as [outcome w1]. injection Hfail as Hout _.
      eapply handleOutcome_class, Hout. }
  split; [exact Hclass|].
  destruct error; try discriminate; cbn; auto.
Qed.

End SinglePageMore.

Lemma fetchSinglePage_failures_are_upstream_witness :
  isNaverApiError (TimeoutError (Caught NaverShopClient.abortError)) = true
  /\ Errors.getErrorStatusCode
       (Errors.ThrownApi (TimeoutError (Caught NaverShopClient.abortError))) = 502
  /\ (Errors.toSafeErrorMessage
        (Errors.ThrownApi (TimeoutError (Caught NaverShopClient.abortError)))
      = Errors.TIMEOUT_MESSAGE
      \/ Errors.toSafeErrorMessage
           (Errors.ThrownApi (TimeoutError (Caught NaverShopClient.abortError)))
         = Errors.UPSTREAM_MESSAGE).
Proof.
  apply (fetchSinglePage_failures_are_upstream
           (settling (NaverShopClient.FetchRejected NaverShopClient.abortError))
           sampleEnv "banana" 1 asc [used] 0%nat 1%nat
           (TimeoutError (Caught NaverShopClient.abortError))).
  reflexivity.
Defined.

(** ** The relaxation controller, continued *)

Section ItemOk.
Context {js : JsBuiltins}.

(** What holds of every item [filterAndSortItems] returns. *)
Lemma filterAndSortItems_item_ok (rawItems : list NaverShopRawItem) (filters : SearchFilters) :
  forall item,
    In item (fr_items (filterAndSortItems rawItems filters)) ->
    matchesPriceFilter item (sf_minPrice filters) (sf_maxPrice filters) = true
    /\ forall opts, sf_exclude filters = Some opts ->
         hasExcludeKeyword (titleText item) opts = false.
Proof.
  intros item Hin.
  destruct (filterAndSortItems_items rawItems filters) as (noise & Hitems & _).
  rewrite Hitems in Hin. apply applyFiltersAndProcess_In in Hin as [_ Hm].
  apply matchesFilters_true in Hm. tauto.
Qed.

(** What [filterAndSortItems] reports as applied. *)
Lemma filterAndSortItems_applied (rawItems : list NaverShopRawItem) (filters : SearchFilters) :
  af_exclude (fr_appliedFilters (filterAndSortItems rawItems filters)) = sf_exclude filters
  /\ af_pages (fr_appliedFilters (filterAndSortItems rawItems filters)) = sf_pages filters
  /\ af_excludeKeywordsEnabled (fr_appliedFilters (filterAndSortItems rawItems filters))
     = nonEmptyOpt (sf_exclude filters)
  /\ (sf_filterNoise filters = false ->
      af_filterNoise (fr_appliedFilters (filterAndSortItems rawItems filters)) = false).
Proof.
  unfold filterAndSortItems. destruct (_ && _); cbn; repeat split; auto.
Qed.

End ItemOk.

(** The runs of [getLowestPrice], case by case: the first fetch fails or
    not, the exclusion is dropped or not (and that fetch fails or not), the
    pages are reduced or not (and that fetch fails or not).  Each case is left
    with the calls and their results named. *)
Ltac controller_cases singlePage query filters w :=
  unfold getLowestPrice, relaxExclude, relaxPages, callFetch, callFilter, bind, record,
    await, ret;
  cbn -[filterAndSortItems fetchAllPages extractTopResults orNoExclude];
  let f0 := fresh "f0" in
  let r0 := fresh "r0" in
  let f1 := fresh "f1" in
  let r1 := fresh "r1" in
  let f2 := fresh "f2" in
  let r2 := fresh "r2" in
  destruct (fetchAllPages singlePage query (sf_pages filters) asc
              (orNoExclude (sf_exclude filters)) w) as [[e0|p0] w0] eqn:Hfetch0;
  [ cbn
  | cbn -[filterAndSortItems fetchAllPages extractTopResults orNoExclude];
    set (f0 := Build_SearchFilters _ _ _ _ _ _);
    pose proof (filterAndSortItems_relaxation (page_items p0) f0) as Hr0;
    pose proof (filterAndSortItems_item_ok (page_items p0) f0) as Hok0;
    pose proof (filterAndSortItems_applied (page_items p0) f0) as Hap0;
    set (r0 := filterAndSortItems (page_items p0) f0) in *;
    cbn zeta in Hr0; destruct Hr0 as [Hrel0 Hempty0];
    destruct ((length (fr_items r0) =? 0)%nat && nonEmptyOpt (sf_exclude filters)) eqn:Hc1;
    [ pose proof Hc1 as Hc1'; apply andb_prop in Hc1' as [Hlen0 Hex];
      specialize (Hempty0 Hlen0);
      cbn -[filterAndSortItems fetchAllPages extractTopResults orNoExclude];
      destruct (fetchAllPages singlePage query (sf_pages filters) asc _ w0)
        as [[e1|p1] w1] eqn:Hfetch1;
      [ cbn -[filterAndSortItems]
      | cbn -[filterAndSortItems fetchAllPages extractTopResults orNoExclude];
        rewrite Hempty0;
        set (f1 := Build_SearchFilters _ _ _ None _ false);
        pose proof (filterAndSortItems_quiet (page_items p1) f1 eq_refl) as Hq1;
        pose proof (filterAndSortItems_item_ok (page_items p1) f1) as Hok1;
        pose proof (filterAndSortItems_applied (page_items p1) f1) as Hap1;
        set (r1 := filterAndSortItems (page_items p1) f1) in *;
        destruct ((length (fr_items r1) =? 0)%nat && (sf_pages filters >? 1)) eqn:Hc2;
        [ cbn -[filterAndSortItems fetchAllPages extractTopResults orNoExclude];
          destruct (fetchAllPages singlePage query 1 asc _ w1) as [[e2|p2] w2] eqn:Hfetch2;
          [ cbn -[filterAndSortItems]
          | cbn -[filterAndSortItems fetchAllPages extractTopResults orNoExclude];
            set (f2 := Build_SearchFilters _ _ _ None 1 false);
            pose proof (filterAndSortItems_quiet (page_items p2) f2 eq_refl) as Hq2;
            pose proof (filterAndSortItems_item_ok (page_items p2) f2) as Hok2;
            pose proof (filterAndSortItems_applied (page_items p2) f2) as Hap2;
            set (r2 := filterAndSortItems (page_items p2) f2) in *;
            destruct (extractTopResults (fr_items r2)) as [[top1 top10Groups] priceBand]
              eqn:Htop;
            cbn -[filterAndSortItems] ]
        | cbn -[filterAndSortItems fetchAllPages extractTopResults orNoExclude];
          destruct (extractTopResults (fr_items r1)) as [[top1 top10Groups] priceBand]
            eqn:Htop;
          cbn -[filterAndSortItems] ] ]
    | cbn -[filterAndSortItems fetchAllPages extractTopResults orNoExclude];
      destruct ((length (fr_items r0) =? 0)%nat && (sf_pages filters >? 1)) eqn:Hc2;
      [ cbn -[filterAndSortItems fetchAllPages extractTopResults orNoExclude];
        destruct (fetchAllPages singlePage query 1 asc _ w0)
          as [[e2|p2] w2] eqn:Hfetch2;
        [ cbn -[filterAndSortItems]
        | cbn -[filterAndSortItems fetchAllPages extractTopResults orNoExclude];
          set (f2 := Build_SearchFilters _ _ _ _ 1 false);
          pose proof (filterAndSortItems_quiet (page_items p2) f2 eq_refl) as Hq2;
          pose proof (filterAndSortItems_item_ok (page_items p2) f2) as Hok2;
          pose proof (filterAndSortItems_applied (page_items p2) f2) as Hap2;
          set (r2 := filterAndSortItems (page_items p2) f2) in *;
          destruct (extractTopResults (fr_items r2)) as [[top1 top10Groups] priceBand]
            eqn:Htop;
          cbn -[filterAndSortItems] ]
      | cbn -[filterAndSortItems fetchAllPages extractTopResults orNoExclude];
        destruct (extractTopResults (fr_items r0)) as [[top1 top10Groups] priceBand]
          eqn:Htop;
        cbn -[filterAndSortItems] ] ] ].

Section ServiceMore.
Context {js : JsBuiltins} {World : Type}.
Variable singlePage :
  string -> Z -> SortOption -> list ExcludeOption -> World -> (ApiError + Page) * World.

(** X20: what the applied filters of a response say.  After a successful
    run the reported exclusion is [null] if [dropExclude] is in the log and
    the request's otherwise; the reported page count is 1 if [reducePages] is
    in the log and the request's otherwise; the reported noise filter is off
    if the log is not empty and the request's otherwise; and the response is
    flagged as relaxed exactly when the log is not empty. *)
Theorem getLowestPrice_applied_filters (query : string) (filters : SearchFilters) (w : World) :
  forall response,
    fst (getLowestPrice singlePage query filters (w, [])) = inr response ->
    let log := lp_appliedRelaxation response in
    let applied := lp_appliedFilters response in
    af_exclude applied = (if hasStep dropExclude log then None else sf_exclude filters)
    /\ af_pages applied = (if hasStep reducePages log then 1 else sf_pages filters)
    /\ af_filterNoise applied
       = (if (0 <? length log)%nat then false else sf_filterNoise filters)
    /\ af_excludeKeywordsEnabled applied = nonEmptyOpt (af_exclude applied)
    /\ lp_filterRelaxed response = (0 <? length log)%nat.
Proof.
  controller_cases singlePage query filters w.
  all: intros response Hrun; try discriminate.
  all: try (injection Hrun as <-).
  all: cbn -[filterAndSortItems].
  (* the last filter call was made with the noise filter off *)
  all: try (destruct Hap2 as (_ & _ & Henabled & Hoff); specialize (Hoff eq_refl);
            rewrite Hq2, Hoff, Henabled; cbn; repeat split; reflexivity).
  all: try (destruct Hap1 as (_ & _ & Henabled & Hoff); specialize (Hoff eq_refl);
            rewrite Hq1, Hoff, Henabled; cbn; repeat split; reflexivity).
  (* no step of the controller: the log is that of round 0 *)
  all: destruct Hap0 as (_ & _ & Henabled & _); rewrite Henabled, app_nil_r.
  all: destruct Hrel0 as [[-> ->]|(-> & _ & ->)]; cbn; repeat split; reflexivity.
Qed.


(** X22: an empty result means that every round was tried.  If a
    successful run reports no candidate, then the exclusion was dropped if
    the request had one, the pages were reduced if the request asked for more
    than one, and the noise filter is reported off if the request had it on;
    there is then no [top1], no price group and no price-band summary. *)
Theorem getLowestPrice_empty_means_exhausted
    (query : string) (filters : SearchFilters) (w : World) :
  forall response,
    fst (getLowestPrice singlePage query filters (w, [])) = inr response ->
    lp_totalCandidates response = O ->
    (nonEmptyOpt (sf_exclude filters) = true ->
       hasStep dropExclude (lp_appliedRelaxation response) = true)
    /\ (1 < sf_pages filters ->
          hasStep reducePages (lp_appliedRelaxation response) = true)
    /\ (sf_filterNoise filters = true ->
          af_filterNoise (lp_appliedFilters response) = false)
    /\ lp_top1 response = None
    /\ lp_top10Groups response = []
    /\ lp_priceBand response = None.
Proof.
  controller_cases singlePage query filters w.
  all: intros response Hrun; try discriminate.
  all: injection Hrun as <-; cbn -[filterAndSortItems]; intros Hzero.
  all: apply length_zero_iff_nil in Hzero; rewrite Hzero in Htop;
    cbn in Htop; injection Htop as <- <- <-.
  all: rewrite ?Hq1, ?Hq2; cbn -[filterAndSortItems].
  - (* exclusion dropped, pages reduced *)
    destruct Hap2 as (_ & _ & _ & Hoff). specialize (Hoff eq_refl).
    repeat split; auto.
  - (* exclusion dropped, one page asked for *)
    destruct Hap1 as (_ & _ & _ & Hoff). specialize (Hoff eq_refl).
    rewrite Hzero in Hc2. cbn in Hc2. rewrite Z.gtb_ltb in Hc2. apply Z.ltb_ge in Hc2.
    repeat split; auto. lia.
  - (* no exclusion asked for, pages reduced *)
    destruct Hap2 as (_ & _ & _ & Hoff). specialize (Hoff eq_refl).
    apply andb_prop in Hc2 as [Hlen0 _]. rewrite Hlen0 in Hc1. cbn in Hc1.
    repeat split; auto. congruence.
  - (* no exclusion and one page asked for *)
    rewrite Hzero in Hc1, Hc2. cbn in Hc1, Hc2.
    rewrite Z.gtb_ltb in Hc2. apply Z.ltb_ge in Hc2.
    repeat split; auto; try congruence; try lia.
    intros _. apply Hempty0. now rewrite Hzero.
Qed.

(** X23: the cheapest item of a response respects the constraints in force.
    After a successful run, [top1], if there is one, has a positive price
    inside the price bounds of the request, and holds no keyword of a
    category of the exclusion reported as applied; and the response then
    counts at least one candidate. *)
Theorem getLowestPrice_top1_respects_filters
    (query : string) (filters : SearchFilters) (w : World) :
  forall response cheapest,
    fst (getLowestPrice singlePage query filters (w, [])) = inr response ->
    lp_top1 response = Some cheapest ->
    matchesPriceFilter cheapest (sf_minPrice filters) (sf_maxPrice filters) = true
    /\ (forall opts, af_exclude (lp_appliedFilters response) = Some opts ->
          hasExcludeKeyword (titleText cheapest) opts = false)
    /\ (1 <= lp_totalCandidates response)%nat.
Proof.
  controller_cases singlePage query filters w.
  all: intros response cheapest Hrun; try discriminate.
  all: injection Hrun as <-; cbn -[filterAndSortItems]; intros Htop1.
  all: unfold extractTopResults in Htop; injection Htop as Hhead _ _;
    rewrite Htop1 in Hhead.
  all: match goal with
       | Hh : head (fr_items ?r) = Some _ |- _ =>
           destruct (fr_items r) as [|first others] eqn:Hitems; [discriminate|];
           injection Hh as ->
       end.
  all: match goal with
       | Hok : forall item, In item (?c :: _) -> _ |- _ =>
           destruct (Hok c (or_introl eq_refl)) as [Hprice Hexclude]
       end.
  all: cbn in Hprice, Hexclude |- *.
  all: split; [exact Hprice|]; split; [|lia].
  all: try discriminate; exact Hexclude.
Qed.

End ServiceMore.

Section ServiceBoundary.
Import NaverShopClient.
Context {js : JsBuiltins} {World : Type}.
Variable fetch : Request -> World -> FetchOutcome * World.
Variable env : Env.
Variable singlePage :
  string -> Z -> SortOption -> list ExcludeOption -> World -> (ApiError + Page) * World.
Hypothesis Hdeclared : pagesAsDeclared fetch env singlePage.

(** The errors of the client are of the class [NaverApiError]. *)
Lemma fetchSinglePage_class (query : string) (start : Z) (sort : SortOption)
    (exclude : list ExcludeOption) (w w' : World) (error : ApiError) :
  fetchSinglePage fetch env query start sort exclude w = (inl error, w') ->
  isNaverApiError error = true.
Proof.
  unfold fetchSinglePage.
  destruct (buildHeaders env) as [e|headers] eqn:Hh.
  - intros [= <- _]. unfold buildHeaders in Hh.
    destruct (missing _ || missing _); [now injection Hh as <-|discriminate].
  - destruct (fetch _ w) as [outcome w1]. intros [= Hout _].
    eapply handleOutcome_class, Hout.
Qed.


End ServiceBoundary.


Lemma getLowestPrice_applied_filters_witness :
  exists response,
    fst (getLowestPrice (js := Reference.builtins) emptyUpstream "banana" strictFilters
           (0%nat, [])) = inr response
    /\ (let log := lp_appliedRelaxation response in
        let applied := lp_appliedFilters response in
        af_exclude applied = (if hasStep dropExclude log then None else sf_exclude strictFilters)
        /\ af_pages applied = (if hasStep reducePages log then 1 else sf_pages strictFilters)
        /\ af_filterNoise applied
           = (if (0 <? length log)%nat then false else sf_filterNoise strictFilters)
        /\ af_excludeKeywordsEnabled applied = nonEmptyOpt (af_exclude applied)
        /\ lp_filterRelaxed response = (0 <? length log)%nat).
Proof.
  eexists. split; [vm_compute; reflexivity|].
  apply (getLowestPrice_applied_filters (js := Reference.builtins) emptyUpstream "banana"
           strictFilters 0%nat).
  vm_compute. reflexivity.
Defined.


Lemma getLowestPrice_empty_means_exhausted_witness :
  exists response,
    fst (getLowestPrice (js := Reference.builtins) emptyUpstream "banana" strictFilters
           (0%nat, [])) = inr response
    /\ lp_totalCandidates response = O
    /\ (nonEmptyOpt (sf_exclude strictFilters) = true ->
          hasStep dropExclude (lp_appliedRelaxation response) = true)
    /\ (1 < sf_pages strictFilters ->
          hasStep reducePages (lp_appliedRelaxation response) = true)
    /\ (sf_filterNoise strictFilters = true ->
          af_filterNoise (lp_appliedFilters response) = false)
    /\ lp_top1 response = None
    /\ lp_top10Groups response = []
    /\ lp_priceBand response = None.
Proof.
  eexists. split; [vm_compute; reflexivity|]. split; [reflexivity|].
  apply (getLowestPrice_empty_means_exhausted (js := Reference.builtins) emptyUpstream
           "banana" strictFilters 0%nat).
  - vm_compute. reflexivity.
  - reflexivity.
Defined.

Lemma getLowestPrice_top1_respects_filters_witness :
  exists response cheapest,
    fst (getLowestPrice (js := Reference.builtins) countingUpstream "banana" strictFilters
           (0%nat, [])) = inr response
    /\ lp_top1 response = Some cheapest
    /\ matchesPriceFilter cheapest (sf_minPrice strictFilters) (sf_maxPrice strictFilters)
       = true
    /\ (forall opts, af_exclude (lp_appliedFilters response) = Some opts ->
          hasExcludeKeyword (js := Reference.builtins) (titleText cheapest) opts = false)
    /\ (1 <= lp_totalCandidates response)%nat.
Proof.
  eexists _, _. split; [vm_compute; reflexivity|]. split; [reflexivity|].
  apply (getLowestPrice_top1_respects_filters (js := Reference.builtins) countingUpstream
           "banana" strictFilters 0%nat).
  - vm_compute. reflexivity.
  - reflexivity.
Defined.

(** ** Text utilities *)

Section TextMore.
Import Text.

Lemma afterClose_length (s rest : string) :
  afterClose s = Some rest -> (String.length rest < String.length s)%nat.
Proof.
  revert rest. induction s as [|c s IH]; intros rest; cbn; [discriminate|].
  destruct (Ascii.eqb c ">"); [intros [= ->]; lia|].
  intros Hrest%IH. lia.
Qed.

(** What follows a ["<"] that stays holds no [">"], before and after the
    removal. *)
Lemma removeTags_no_close (fuel : nat) (s : string) :
  afterClose s = None -> afterClose (removeTags fuel s) = None.
Proof.
  revert s. induction fuel as [|fuel IH]; intros s Hnone; [exact Hnone|].
  destruct s as [|c s]; [reflexivity|]. cbn in Hnone |- *.
  destruct (Ascii.eqb c ">") eqn:Hc; [discriminate|].
  destruct (Ascii.eqb c "<").
  - rewrite Hnone. cbn. rewrite Hc. now apply IH.
  - cbn. rewrite Hc. now apply IH.
Qed.

Lemma removeTags_hasTag (fuel : nat) (s : string) :
  (String.length s <= fuel)%nat -> hasTag (removeTags fuel s) = false.
Proof.
  revert s. induction fuel as [|fuel IH]; intros s Hlen.
  - destruct s; [reflexivity|cbn in Hlen; lia].
  - destruct s as [|c s]; [reflexivity|]. cbn in Hlen |- *.
    destruct (Ascii.eqb c "<") eqn:Hc.
    + destruct (afterClose s) as [rest|] eqn:Hrest.
      * apply IH. apply afterClose_length in Hrest. lia.
      * cbn. rewrite Hc, (removeTags_no_close fuel s Hrest). cbn. apply IH. lia.
    + cbn. rewrite Hc. cbn. apply IH. lia.
Qed.

Lemma removeTags_tag_free (fuel : nat) (s : string) :
  hasTag s = false -> removeTags fuel s = s.
Proof.
  revert s. induction fuel as [|fuel IH]; intros s Hfree; [reflexivity|].
  destruct s as [|c s]; [reflexivity|]. cbn in Hfree |- *.
  apply orb_false_elim in Hfree as [Hhead Hrest].
  destruct (Ascii.eqb c "<").
  - destruct (afterClose s); [discriminate|]. now rewrite IH.
  - now rewrite IH.
Qed.

(** X24: the tag removal of [stripHtmlTags] (the [replace] before the
    [trim]).  Its result holds no complete tag, that is no ["<"] with a
    [">"] after it; a text that holds none is returned as it is, so the
    removal is idempotent; and a ["<"] that nothing closes stays in the
    text. *)
Theorem removeTags_leaves_no_tag (html : string) :
  let text := removeTags (String.length html) html in
  hasTag text = false
  /\ removeTags (String.length text) text = text
  /\ (hasTag html = false -> text = html)
  /\ (afterClose html = None -> text = html).
Proof.
  cbn zeta.
  assert (Hfree : hasTag (removeTags (String.length html) html) = false)
    by now apply removeTags_hasTag.
  split; [exact Hfree|]. split; [now apply removeTags_tag_free|].
  split; [apply removeTags_tag_free|].
  intros Hnone. apply removeTags_tag_free. clear Hfree.
  induction html as [|c html IH]; [reflexivity|]. cbn in Hnone |- *.
  destruct (Ascii.eqb c ">"); [discriminate|].
  rewrite Hnone, andb_false_r. cbn. now apply IH.
Qed.

End TextMore.

(** ** The request schema and the route handler *)

Section SchemaMore.
Import RequestSchema.
Context {js : JsBuiltins}.
Variable jsLength : string -> nat.

Lemma safeParseRequest_inr (raw : RawParams) (request : ValidatedSearchRequest) :
  safeParseRequest jsLength raw = inr request ->
  rp_query raw <> ""
  /\ (jsLength (rp_query raw) <= 100)%nat
  /\ rq_query request = rp_query raw
  /\ rq_minPrice request = parsePriceParam (rp_minPrice raw)
  /\ rq_maxPrice request = parsePriceParam (rp_maxPrice raw)
  /\ rq_sort request = parseSortParam (rp_sort raw)
  /\ rq_exclude request = parseExcludeParam (rp_exclude raw)
  /\ rq_pages request = parsePagesParam (rp_pages raw)
  /\ rq_filterNoise request = Some (parseFilterNoiseParam (rp_filterNoise raw)).
Proof.
  unfold safeParseRequest, queryIssues.
  destruct (String.eqb_spec (rp_query raw) ""); [discriminate|].
  destruct (Nat.ltb_spec 100 (jsLength (rp_query raw))); [discriminate|].
  cbn. intros [= <-]. cbn. repeat split; auto.
Qed.

Lemma safeParseRequest_inl (raw : RawParams) :
  rp_query raw = "" \/ (100 < jsLength (rp_query raw))%nat ->
  exists issues, safeParseRequest jsLength raw = inl issues.
Proof.
  unfold safeParseRequest, queryIssues. intros [Hq|Hlong].
  - rewrite Hq. destruct (100 <? jsLength "")%nat; cbn; eauto.
  - apply Nat.ltb_lt in Hlong. rewrite Hlong.
    destruct (String.eqb _ _); cbn; eauto.
Qed.

Lemma parsePagesParam_positive (val : option string) (num : Z) :
  parsePagesParam val = Some num -> 1 <= num.
Proof.
  unfold parsePagesParam. destruct (blank val); [discriminate|].
  destruct (parseInt _) as [n|]; [|discriminate].
  destruct (Z.ltb_spec n 1); [discriminate|]. intros [= <-]. lia.
Qed.

Lemma normalizeFilters_fields (request : ValidatedSearchRequest) :
  sf_pages (normalizeFilters request)
  = Z.min (default Config.DEFAULT_PAGES (rq_pages request)) Config.MAX_PAGES
  /\ sf_exclude (normalizeFilters request)
     = Some (default Config.DEFAULT_EXCLUDE (rq_exclude request))
  /\ sf_sort (normalizeFilters request) = default Config.DEFAULT_SORT (rq_sort request)
  /\ sf_filterNoise (normalizeFilters request) = default false (rq_filterNoise request).
Proof.
  unfold normalizeFilters.
  destruct (dropNegative (rq_minPrice request)) as [lo|],
    (dropNegative (rq_maxPrice request)) as [hi|]; try (repeat split; reflexivity).
  destruct (lo >? hi); repeat split; reflexivity.
Qed.

(** X19: the filters of a request that passed the schema.  The query is
    the one received, not empty and of at most a hundred code units; the
    page count lies between one and the maximum (three when none is asked
    for), so [calculateStartValues] gives exactly that many offsets; the
    price bounds are not negative and are in order; the exclusion list is
    never [null], and is the default of three categories when the parameter
    is absent or empty. *)
Theorem validated_request_filters (raw : RawParams) (request : ValidatedSearchRequest) :
  safeParseRequest jsLength raw = inr request ->
  let filters := normalizeFilters request in
  rq_query request = rp_query raw
  /\ rp_query raw <> ""
  /\ (jsLength (rp_query raw) <= 100)%nat
  /\ 1 <= sf_pages filters <= Config.MAX_PAGES
  /\ length (calculateStartValues (sf_pages filters)) = Z.to_nat (sf_pages filters)
  /\ (blank (rp_pages raw) = true -> sf_pages filters = Config.DEFAULT_PAGES)
  /\ (forall lo, sf_minPrice filters = Some lo -> 0 <= lo)
  /\ (forall hi, sf_maxPrice filters = Some hi -> 0 <= hi)
  /\ (forall lo hi,
        sf_minPrice filters = Some lo -> sf_maxPrice filters = Some hi -> lo <= hi)
  /\ (exists exclude, sf_exclude filters = Some exclude)
  /\ (blank (rp_exclude raw) = true -> sf_exclude filters = Some Config.DEFAULT_EXCLUDE).
Proof.
  intros (Hne & Hlen & Hq & _ & _ & _ & Hexclude & Hpages & _)%safeParseRequest_inr.
  cbn zeta.
  destruct (normalizeFilters_bounds request) as (Hlo & Hhi & Horder & _).
  destruct (normalizeFilters_fields request) as (Hp & He & _ & _).
  assert (Hrange : 1 <= sf_pages (normalizeFilters request) <= Config.MAX_PAGES).
  { rewrite Hp, Hpages.
    destruct (parsePagesParam (rp_pages raw)) as [n|] eqn:Hn; cbn [default from_option id].
    - apply parsePagesParam_positive in Hn. unfold Config.MAX_PAGES. lia.
    - unfold Config.DEFAULT_PAGES, Config.MAX_PAGES. lia. }
  split; [exact Hq|]. split; [exact Hne|]. split; [exact Hlen|]. split; [exact Hrange|].
  split; [rewrite calculateStartValues_spec, length_map, length_seq; lia|].
  split.
  { intros Hblank. rewrite Hp, Hpages. unfold parsePagesParam. now rewrite Hblank. }
  split; [exact Hlo|]. split; [exact Hhi|]. split; [exact Horder|].
  split; [rewrite He; eauto|].
  intros Hblank. rewrite He, Hexclude. unfold parseExcludeParam. now rewrite Hblank.
Qed.

End SchemaMore.

Section ExcludeRoundTrip.
Import RequestSchema.

Lemma splitFrom_option (o : ExcludeOption) (rest : string) :
  splitFrom "" (NaverShopClient.excludeParam o ++ String ":" rest)%string
  = NaverShopClient.excludeParam o :: splitFrom "" rest.
Proof. destruct o; reflexivity. Qed.

Lemma splitFrom_last_option (o : ExcludeOption) :
  splitFrom "" (NaverShopClient.excludeParam o) = [ NaverShopClient.excludeParam o ].
Proof. destruct o; reflexivity. Qed.

Lemma parseExcludeOption_param (o : ExcludeOption) :
  parseExcludeOption (NaverShopClient.excludeParam o) = Some o.
Proof. destruct o; reflexivity. Qed.

(** Joining the selected categories with colons and splitting them again
    gives the categories back. *)
Lemma exclude_round_trip (selected : list ExcludeOption) :
  keepExcludeOptions
    (splitColon (NaverShopClient.joinColon (map NaverShopClient.excludeParam selected)))
  = selected.
Proof.
  unfold splitColon. induction selected as [|o rest IH]; [reflexivity|].
  destruct rest as [|o' rest].
  - cbn [map NaverShopClient.joinColon]. rewrite splitFrom_last_option.
    cbn [keepExcludeOptions]. now rewrite parseExcludeOption_param.
  - change (NaverShopClient.joinColon (map NaverShopClient.excludeParam (o :: o' :: rest)))
      with (NaverShopClient.excludeParam o
            ++ String ":" (NaverShopClient.joinColon
                             (map NaverShopClient.excludeParam (o' :: rest))))%string.
    rewrite splitFrom_option. cbn [keepExcludeOptions].
    now rewrite parseExcludeOption_param, IH.
Qed.

End ExcludeRoundTrip.

Section SearchMore.
Import RequestSchema SearchPage.
Context {js : JsBuiltins}.
Variable jsLength : string -> nat.

(** X25: from the search page to the filters of the service.  For the
    categories ticked on the page and its noise switch, the request that
    [handleSearch] sends, once it passed the schema, is normalized to filters
    with the same noise flag, the default sort and the ticked categories as
    the exclusion; except that with no category ticked the parameter is left
    out, and the service then excludes all three categories. *)
Theorem handleSearch_reaches_filters
    (query : string) (minPrice maxPrice pages : Z) (filterNoise : bool)
    (selected : list ExcludeOption) (raw : RawParams) (request : ValidatedSearchRequest) :
  handleSearch query minPrice maxPrice pages filterNoise
    (map NaverShopClient.excludeParam selected) = Some raw ->
  safeParseRequest jsLength raw = inr request ->
  let filters := normalizeFilters request in
  rq_query request = trim query
  /\ sf_filterNoise filters = filterNoise
  /\ sf_sort filters = Config.DEFAULT_SORT
  /\ sf_exclude filters
     = Some (match selected with [] => Config.DEFAULT_EXCLUDE | _ :: _ => selected end).
Proof.
  unfold handleSearch. destruct (String.eqb (trim query) ""); [discriminate|].
  intros [= <-].
  intros (_ & _ & Hq & _ & _ & Hsort & Hexclude & _ & Hnoise)%safeParseRequest_inr.
  cbn zeta. cbn in Hq, Hsort, Hexclude, Hnoise.
  destruct (normalizeFilters_fields request) as (_ & He & Hs & Hn).
  split; [exact Hq|]. split; [rewrite Hn, Hnoise; now destruct filterNoise|].
  split; [now rewrite Hs, Hsort|].
  rewrite He, Hexclude. destruct selected as [|o rest]; [reflexivity|].
  cbn [length map Nat.ltb Nat.leb]. unfold parseExcludeParam.
  assert (Hne : blank (Some (NaverShopClient.joinColon
                               (map NaverShopClient.excludeParam (o :: rest)))) = false).
  { destruct o, rest; reflexivity. }
  change (NaverShopClient.excludeParam o :: map NaverShopClient.excludeParam rest)
    with (map NaverShopClient.excludeParam (o :: rest)).
  rewrite Hne. cbn [default from_option id]. unfold id. now rewrite exclude_round_trip.
Qed.

End SearchMore.

Lemma handleSearch_reaches_filters_witness :
  exists raw request,
    SearchPage.handleSearch (js := Reference.builtins) " laptop " 0 50000 3 true
      (map NaverShopClient.excludeParam [used; cbshop]) = Some raw
    /\ RequestSchema.safeParseRequest (js := Reference.builtins) String.length raw = inr request
    /\ rq_query request = trim (JsBuiltins := Reference.builtins) " laptop "
    /\ sf_filterNoise (normalizeFilters request) = true
    /\ sf_sort (normalizeFilters request) = Config.DEFAULT_SORT
    /\ sf_exclude (normalizeFilters request) = Some [used; cbshop].
Proof.
  eexists _, _. split; [vm_compute; reflexivity|]. split; [vm_compute; reflexivity|].
  eapply (handleSearch_reaches_filters (js := Reference.builtins) String.length
            " laptop " 0 50000 3 true [used; cbshop]).
  - vm_compute. reflexivity.
  - vm_compute. reflexivity.
Defined.

Lemma validated_request_filters_witness :
  exists request,
    RequestSchema.safeParseRequest (js := Reference.builtins) String.length sampleParams
    = inr request
    /\ (let filters := normalizeFilters request in
        rq_query request = RequestSchema.rp_query sampleParams
        /\ RequestSchema.rp_query sampleParams <> ""
        /\ (String.length (RequestSchema.rp_query sampleParams) <= 100)%nat
        /\ 1 <= sf_pages filters <= Config.MAX_PAGES
        /\ length (calculateStartValues (sf_pages filters)) = Z.to_nat (sf_pages filters)
        /\ (RequestSchema.blank (RequestSchema.rp_pages sampleParams) = true ->
            sf_pages filters = Config.DEFAULT_PAGES)
        /\ (forall lo, sf_minPrice filters = Some lo -> 0 <= lo)
        /\ (forall hi, sf_maxPrice filters = Some hi -> 0 <= hi)
        /\ (forall lo hi,
              sf_minPrice filters = Some lo -> sf_maxPrice filters = Some hi -> lo <= hi)
        /\ (exists exclude, sf_exclude filters = Some exclude)
        /\ (RequestSchema.blank (RequestSchema.rp_exclude sampleParams) = true ->
            sf_exclude filters = Some Config.DEFAULT_EXCLUDE)).
Proof.
  eexists. split; [vm_compute; reflexivity|].
  apply (validated_request_filters (js := Reference.builtins) String.length sampleParams).
  vm_compute. reflexivity.
Defined.

Section HandlerMore.
Import RequestSchema Route.
Context {js : JsBuiltins} {World : Type}.
Variable jsLength : string -> nat.
Variable singlePage :
  string -> Z -> SortOption -> list ExcludeOption -> World -> (ApiError + Page) * World.

(** A property of the errors of every page call is a property of the errors
    of [fetchAllPages]. *)
Lemma fetchAllPages_error (P : ApiError -> Prop) :
  (forall query start sort exclude w error w',
     singlePage query start sort exclude w = (inl error, w') -> P error) ->
  forall query pages sort exclude w error w',
    fetchAllPages singlePage query pages sort exclude w = (inl error, w') -> P error.
Proof.
  intros Hpage query pages sort exclude w error w' Hfail.
  unfold fetchAllPages in Hfail.
  apply fetchFrom_failure in Hfail as (done & failing & later & fetched & w1 & _ & _ & Hcall).
  eapply Hpage, Hcall.
Qed.

(** ... and of the errors of [getLowestPrice]. *)
Lemma getLowestPrice_error (P : ApiError -> Prop) :
  (forall query start sort exclude w error w',
     singlePage query start sort exclude w = (inl error, w') -> P error) ->
  forall query filters w trace error,
    fst (getLowestPrice singlePage query filters (w, trace)) = inl error -> P error.
Proof.
  intros Hpage query filters w trace.
  pose proof (fetchAllPages_error P Hpage) as Hall.
  controller_cases singlePage query filters w.
  all: intros error Hrun; try discriminate.
  all: injection Hrun as <-; eapply Hall; eassumption.
Qed.

(** A response of [getLowestPrice] names the query and the filters it was
    called with, whatever was relaxed. *)
Lemma getLowestPrice_echo (query : string) (filters : SearchFilters) (w : World)
    (trace : list Event) (response : LowestPriceResponse) :
  fst (getLowestPrice singlePage query filters (w, trace)) = inr response ->
  lp_query response = query /\ lp_filters response = filters.
Proof.
  revert response.
  controller_cases singlePage query filters w.
  all: intros response Hrun; try discriminate.
  all: injection Hrun as <-; split; reflexivity.
Qed.

(** X26: a query that cannot be searched is refused before anything is
    sent upstream.  For an empty query, a query of more than a hundred code
    units or a query of white space only, [GET] answers with status 400, an
    error text and no cache header, and leaves the world and the trace as
    they were: no page was fetched. *)
Theorem GET_refuses_unusable_query (raw : RawParams) (s : World * list Event) :
  rp_query raw = ""
  \/ (100 < jsLength (rp_query raw))%nat
  \/ trim (rp_query raw) = "" ->
  exists message,
    GET jsLength singlePage raw s
    = ({| http_status := 400;
          http_body := ErrorBody message;
          http_cacheControl := None |}, s).
Proof.
  intros Hbad. unfold GET.
  destruct (safeParseRequest jsLength raw) as [issues|request] eqn:Hparse.
  - eexists. reflexivity.
  - apply safeParseRequest_inr in Hparse as (Hne & Hlen & Hq & _).
    destruct Hbad as [Hempty|[Hlong|Hblank]]; [contradiction|lia|].
    rewrite Hq, Hblank. cbn. eexists. reflexivity.
Qed.

End HandlerMore.

Section HandlerBoundary.
Import RequestSchema Route.
Context {js : JsBuiltins} {World : Type}.
Variable jsLength : string -> nat.
Variable fetch : NaverShopClient.Request -> World -> NaverShopClient.FetchOutcome * World.
Variable env : NaverShopClient.Env.
Variable singlePage :
  string -> Z -> SortOption -> list ExcludeOption -> World -> (ApiError + Page) * World.

(** X27: the answers of [GET] over a network that keeps to the response
    schema, so that every page the client passes on is of the declared type.
    The handler answers with status 200, the result for the query received
    and the cache header; or with status 400 and an error text, having
    fetched nothing; or with status 502 and one of two fixed texts.  An error
    answer carries no cache header, and the status is then never 500.  (A
    body that does not match the schema is outside this statement: the code
    passes it on unvalidated, and what it holds can make the handler answer
    500.) *)
Theorem GET_answers (raw : RawParams) (s : World * list Event) :
  pagesAsDeclared fetch env singlePage ->
  let response := fst (GET jsLength singlePage raw s) in
  (http_status response = 200
   /\ http_cacheControl response = Some CACHE_CONTROL
   /\ exists result,
        http_body response = ResultBody result /\ lp_query result = rp_query raw)
  \/ (http_status response = 400
      /\ http_cacheControl response = None
      /\ (exists message, http_body response = ErrorBody message)
      /\ snd (GET jsLength singlePage raw s) = s)
  \/ (http_status response = 502
      /\ http_cacheControl response = None
      /\ (http_body response = ErrorBody Errors.TIMEOUT_MESSAGE
          \/ http_body response = ErrorBody Errors.UPSTREAM_MESSAGE)).
Proof.
  intros Hdeclared.
  assert (Hpage : forall query start sort exclude w error w',
             singlePage query start sort exclude w = (inl error, w') ->
             isNaverApiError error = true).
  { intros query start sort exclude w error w' Hfail.
    apply (pagesAsDeclared_failure fetch env singlePage Hdeclared) in Hfail.
    eapply fetchSinglePage_class, Hfail. }
  cbn zeta. unfold GET.
  destruct (safeParseRequest jsLength raw) as [issues|request] eqn:Hparse.
  { right; left. cbn. eauto. }
  apply safeParseRequest_inr in Hparse as (_ & _ & Hq & _).
  destruct (String.eqb (trim (rq_query request)) "").
  { right; left. cbn. eauto. }
  destruct s as [w trace].
  destruct (getLowestPrice singlePage (rq_query request) (normalizeFilters request) (w, trace))
    as [[error|result] s'] eqn:Hrun.
  - right; right.
    assert (Hclass : isNaverApiError error = true).
    { apply (getLowestPrice_error singlePage (fun e => isNaverApiError e = true) Hpage
               (rq_query request) (normalizeFilters request) w trace).
      now rewrite Hrun. }
    destruct error; try discriminate; cbn; auto.
  - left. cbn. split; [reflexivity|]. split; [reflexivity|].
    exists result. split; [reflexivity|]. rewrite <- Hq.
    apply (getLowestPrice_echo singlePage (rq_query request) (normalizeFilters request)
             w trace).
    now rewrite Hrun.
Qed.

End HandlerBoundary.


Lemma GET_refuses_unusable_query_witness :
  exists message,
    Route.GET (js := Reference.builtins) String.length countingUpstream blankParams
      (0%nat, [])
    = ({| Route.http_status := 400;
          Route.http_body := Route.ErrorBody message;
          Route.http_cacheControl := None |}, (0%nat, [])).
Proof.
  apply (GET_refuses_unusable_query (js := Reference.builtins) String.length countingUpstream).
  right; right. vm_compute. reflexivity.
Defined.

Lemma GET_answers_witness :
  pagesAsDeclared abortsThirdCall sampleEnv thirdPageAborts
  /\ (let response :=
        fst (Route.GET (js := Reference.builtins) String.length thirdPageAborts sampleParams
               (0%nat, [])) in
      (Route.http_status response = 200
       /\ Route.http_cacheControl response = Some Route.CACHE_CONTROL
       /\ exists result,
            Route.http_body response = Route.ResultBody result
            /\ lp_query result = RequestSchema.rp_query sampleParams)
      \/ (Route.http_status response = 400
          /\ Route.http_cacheControl response = None
          /\ (exists message, Route.http_body response = Route.ErrorBody message)
          /\ snd (Route.GET (js := Reference.builtins) String.length thirdPageAborts
                    sampleParams (0%nat, [])) = (0%nat, []))
      \/ (Route.http_status response = 502
          /\ Route.http_cacheControl response = None
          /\ (Route.http_body response = Route.ErrorBody Errors.TIMEOUT_MESSAGE
              \/ Route.http_body response = Route.ErrorBody Errors.UPSTREAM_MESSAGE)))
  /\ Route.http_status
       (fst (Route.GET (js := Reference.builtins) String.length thirdPageAborts sampleParams
               (0%nat, []))) = 502.
Proof.
  split; [exact abortsThirdCall_declared|].
  split; [|vm_compute; reflexivity].
  apply (GET_answers (js := Reference.builtins) String.length abortsThirdCall sampleEnv
           thirdPageAborts sampleParams (0%nat, []) abortsThirdCall_declared).
Defined.

(** ** The search page: the client-side refinement *)

Section OutlierMore.




End OutlierMore.


Section PageMore.
Import SearchPage.

(** The items the two memos work on, after the mall filter and the outlier
    trim. *)
Lemma processedItems_perm (allItems : list Item) (selectedMalls : list string)
    (excludeOutliers : bool) (clientSort : SortOption) :
  Permutation (processedItems allItems selectedMalls excludeOutliers clientSort)
              (processedItems allItems selectedMalls excludeOutliers sim).
Proof.
  unfold processedItems. cbn zeta.
  destruct clientSort; try reflexivity; apply SortFacts.sortBy_perm.
Qed.

Lemma includesMall_In (selectedMalls : list string) (item : Item) :
  includesMall selectedMalls item = true <-> In (mallName item) selectedMalls.
Proof.
  unfold includesMall. rewrite existsb_exists. split.
  - intros (mall & Hin & Heq). apply String.eqb_eq in Heq. now subst.
  - intros Hin. exists (mallName item). split; [exact Hin|apply String.eqb_refl].
Qed.

Lemma filterOutliers_In (items : list Item) (x : Item) :
  In x (filterOutliers items) -> In x items.
Proof.
  unfold filterOutliers. destruct (_ <? _)%nat; [auto|].
  cbn zeta. now intros [Hin _]%filter_In.
Qed.

Lemma head_sorted_least (items : list Item) (cheapest : Item) :
  head (JsArray.sortBy lprice items) = Some cheapest ->
  In cheapest items /\ forall x, In x items -> lprice cheapest <= lprice x.
Proof.
  intros Hhead.
  pose proof (SortFacts.sortBy_sorted lprice items) as Hsorted.
  apply Sorted_StronglySorted in Hsorted;
    [|intros x y z; unfold JsArray.keyLe; apply Z.le_trans].
  destruct (JsArray.sortBy lprice items) as [|first rest] eqn:Hs; [discriminate|].
  injection Hhead as ->.
  assert (Hmem : forall x, In x items <-> In x (cheapest :: rest)).
  { intros x. rewrite <- Hs. symmetry. apply SortFacts.sortBy_In. }
  split; [apply Hmem; now left|].
  intros x [<-|Hx]%Hmem; [lia|].
  inversion Hsorted as [|? ? _ Hall]; subst.
  rewrite List.Forall_forall in Hall. now apply Hall.
Qed.

(** X29: the summary cards and the memo [processedItems].  Once a mall is
    selected or the outlier trim is on, the page recomputes [top1], the price
    groups and the price band itself: what it gets is what the server's
    [extractTopResults] gives on [processedItems] taken in ascending order,
    that is on all the filtered items and not only on the [displayCount]
    items that are rendered.  [processedItems] holds the same items in any
    sort order, each from the result and, with malls selected, from one of
    them; [top1] is missing exactly when [processedItems] is empty, and is
    otherwise one of its items of the lowest price.  The rendered list,
    [processedItems.slice(0, displayCount)], holds items of [processedItems]
    only, so none of them is cheaper than [top1]; under the ascending sort
    and with [displayCount >= 1], [top1] is the first rendered item. *)
Theorem effectiveResults_follow_the_list
    (result : option Item * list PriceGroup * option PriceBandSummary)
    (allItems : list Item) (selectedMalls : list string) (excludeOutliers : bool)
    (clientSort : SortOption) (displayCount : Z) :
  (0 < length selectedMalls)%nat \/ excludeOutliers = true ->
  let processed := processedItems allItems selectedMalls excludeOutliers clientSort in
  let displayed := displayedItems processed displayCount in
  let effective := effectiveResults result allItems selectedMalls excludeOutliers in
  effective = extractTopResults (processedItems allItems selectedMalls excludeOutliers asc)
  /\ Permutation processed (processedItems allItems selectedMalls excludeOutliers asc)
  /\ (forall x, In x processed ->
        In x allItems
        /\ ((0 < length selectedMalls)%nat -> In (mallName x) selectedMalls))
  /\ (fst (fst effective) = None <-> processed = [])
  /\ (forall cheapest,
        fst (fst effective) = Some cheapest ->
        In cheapest processed /\ forall x, In x processed -> lprice cheapest <= lprice x)
  /\ (forall x, In x displayed -> In x processed)
  /\ (forall cheapest x,
        fst (fst effective) = Some cheapest -> In x displayed ->
        lprice cheapest <= lprice x)
  /\ (clientSort = asc -> 1 <= displayCount -> head displayed = fst (fst effective)).
Proof.
  intros Hactive. cbn zeta.
  assert (Hshown : forall x,
             In x (displayedItems
                     (processedItems allItems selectedMalls excludeOutliers clientSort)
                     displayCount) ->
             In x (processedItems allItems selectedMalls excludeOutliers clientSort)).
  { intros x. unfold displayedItems.
    destruct (slice0_firstn
                (processedItems allItems selectedMalls excludeOutliers clientSort)
                displayCount) as (n & -> & _).
    apply In_firstn. }
  assert (Hagree :
            effectiveResults result allItems selectedMalls excludeOutliers
            = extractTopResults (processedItems allItems selectedMalls excludeOutliers asc)).
  { unfold effectiveResults.
    assert (Hoff : (length selectedMalls =? 0)%nat && negb excludeOutliers = false).
    { destruct Hactive as [Hmalls| ->]; [|apply andb_false_r].
      destruct selectedMalls; [cbn in Hmalls; lia|reflexivity]. }
    rewrite Hoff. unfold processedItems, extractTopResults, groupByPrice. cbn zeta.
    set (filtered := if excludeOutliers then _ else _).
    destruct (JsArray.sortBy lprice filtered) as [|first rest] eqn:Hs; [reflexivity|].
    cbn [length Nat.eqb].
    change effectiveGroupStep with groupStep. change Config.TOP_N with 10.
    set (groups := map toPriceGroup _).
    unfold calculatePriceBand. destruct groups; reflexivity. }
  assert (Hperm : forall s,
             Permutation (processedItems allItems selectedMalls excludeOutliers clientSort)
                         (processedItems allItems selectedMalls excludeOutliers s)).
  { intros s. rewrite (processedItems_perm _ _ _ clientSort).
    symmetry. apply processedItems_perm. }
  assert (Hfrom : forall x,
             In x (processedItems allItems selectedMalls excludeOutliers sim) ->
             In x allItems
             /\ ((0 < length selectedMalls)%nat -> In (mallName x) selectedMalls)).
  { intros x. unfold processedItems. cbn zeta.
    intros Hx.
    assert (Hx' : In x (if (0 <? length selectedMalls)%nat
                        then List.filter (includesMall selectedMalls) allItems
                        else allItems)).
    { destruct excludeOutliers; [now apply filterOutliers_In|exact Hx]. }
    destruct (Nat.ltb_spec 0 (length selectedMalls)) as [Hsome|Hnone].
    - apply filter_In in Hx' as [Hall Hmall]. split; [exact Hall|].
      intros _. now apply includesMall_In.
    - split; [exact Hx'|lia]. }
  assert (Hempty :
            fst (fst (extractTopResults
                        (processedItems allItems selectedMalls excludeOutliers asc))) = None
            <-> processedItems allItems selectedMalls excludeOutliers clientSort = []).
  { unfold extractTopResults. cbn [fst].
    change (processedItems allItems selectedMalls excludeOutliers asc)
      with (JsArray.sortBy lprice (processedItems allItems selectedMalls excludeOutliers sim)).
    split.
    - intros Hnone.
      destruct (JsArray.sortBy lprice _) as [|first rest] eqn:Hs; [|discriminate].
      apply Permutation_nil. symmetry.
      rewrite (Hperm sim), <- (SortFacts.sortBy_perm lprice), Hs. reflexivity.
    - intros Hnil.
      pose proof (Hperm sim) as Hp. rewrite Hnil in Hp. apply Permutation_nil in Hp.
      now rewrite Hp. }
  assert (Hleast : forall cheapest,
             fst (fst (extractTopResults
                         (processedItems allItems selectedMalls excludeOutliers asc)))
             = Some cheapest ->
             In cheapest (processedItems allItems selectedMalls excludeOutliers clientSort)
             /\ forall x,
                  In x (processedItems allItems selectedMalls excludeOutliers clientSort) ->
                  lprice cheapest <= lprice x).
  { unfold extractTopResults. cbn [fst].
    change (processedItems allItems selectedMalls excludeOutliers asc)
      with (JsArray.sortBy lprice (processedItems allItems selectedMalls excludeOutliers sim)).
    intros cheapest [Hin Hlow]%head_sorted_least. split.
    - eapply Permutation_in; [symmetry; apply Hperm|exact Hin].
    - intros x Hx. apply Hlow. eapply Permutation_in; [apply Hperm|exact Hx]. }
  split; [exact Hagree|]. split; [apply Hperm|].
  split.
  { intros x Hx. apply Hfrom. eapply Permutation_in; [apply Hperm|exact Hx]. }
  rewrite Hagree.
  split; [exact Hempty|]. split; [exact Hleast|]. split; [exact Hshown|].
  split.
  { intros cheapest x Htop Hx. apply (Hleast cheapest Htop), Hshown, Hx. }
  intros -> Hcount. unfold extractTopResults. cbn [fst]. unfold displayedItems.
  destruct (processedItems allItems selectedMalls excludeOutliers asc) as [|x l].
  { destruct (slice0_firstn (@nil Item) displayCount) as (n & -> & _).
    now rewrite firstn_nil. }
  destruct (slice0_cons x l displayCount Hcount) as (rest & ->). reflexivity.
Qed.

End PageMore.

Lemma effectiveResults_follow_the_list_witness :
  ((0 < length [ "mall" ])%nat \/ true = true)
  /\ (let processed := SearchPage.processedItems sixOffers [ "mall" ] true dsc in
      let displayed := SearchPage.displayedItems processed 2 in
      let effective := SearchPage.effectiveResults (None, [], None) sixOffers [ "mall" ] true in
      effective = extractTopResults (SearchPage.processedItems sixOffers [ "mall" ] true asc)
      /\ Permutation processed (SearchPage.processedItems sixOffers [ "mall" ] true asc)
      /\ (forall x, In x processed ->
            In x sixOffers /\ ((0 < length [ "mall" ])%nat -> In (mallName x) [ "mall" ]))
      /\ (fst (fst effective) = None <-> processed = [])
      /\ (forall cheapest,
            fst (fst effective) = Some cheapest ->
            In cheapest processed
            /\ forall x, In x processed -> lprice cheapest <= lprice x)
      /\ (forall x, In x displayed -> In x processed)
      /\ (forall cheapest x,
            fst (fst effective) = Some cheapest -> In x displayed ->
            lprice cheapest <= lprice x)
      /\ (dsc = asc -> 1 <= 2 -> head displayed = fst (fst effective)))
  /\ map lprice (SearchPage.displayedItems
                   (SearchPage.processedItems sixOffers [ "mall" ] true dsc) 2) = [500; 400]
  /\ option_map lprice
       (fst (fst (SearchPage.effectiveResults (None, [], None) sixOffers [ "mall" ] true)))
     = Some 100.
Proof.
  assert (Hactive : (0 < length [ "mall" ])%nat \/ true = true) by (right; reflexivity).
  split; [exact Hactive|].
  split; [|split; vm_compute; reflexivity].
  apply (effectiveResults_follow_the_list (None, [], None) sixOffers [ "mall" ] true dsc 2
           Hactive).
Defined.
